(** * DevHub: derived aggregates of the project dashboard

    A shallow embedding of the client-side aggregation logic of the DevHub
    dashboard: the transaction-based budget view of [script.js], the older
    budget view of [devhub.js], and the React components
    ([ProjectDetailView], [CreateProjectForm], [CreateTaskForm],
    [TaskDetailModal], [BudgetOverview]); then the task form, the team
    form and the selection of a project of [script.js], and the task
    board, the categories form and the team management of the React
    application.

    Modelling conventions.
    - A number is a binary64 number ([spec_float] at precision 53, largest
      exponent 1024) with the rounding of the engine (to nearest, ties to
      even), its two zeros, its infinities and [NaN].
    - A JavaScript string is a [string] of 8-bit characters: a string
      whose code units are all below 256.
    - A database collection is a finite map from document ids to documents;
      the id the database picks for a new document and the clock are inputs.
      A slash-separated path is the list of its segments; an id is one
      segment.
    - A DOM input whose value is assigned from a finite number and read
      back with [parseFloat] holds that number (the text the engine writes
      for a number reads back as the same number). *)

From Stdlib Require Import Ascii String QArith Qpower Qround Lqa.
From Stdlib Require Import Floats.SpecFloat.
From stdpp Require Import gmap strings list fin_maps pretty.

Local Open Scope Z_scope.

(** ** JavaScript primitives *)

Module JS.

(** Binary64: the count [n] as a number, and the four operations with
    rounding to nearest, ties to even. *)
Definition prec : Z := 53.
Definition emax : Z := 1024.

Definition float_of_nat (n : nat) : spec_float :=
  binary_normalize prec emax (Z.of_nat n) 0 false.
Definition fdiv (x y : spec_float) : spec_float := SFdiv prec emax x y.
Definition fmul (x y : spec_float) : spec_float := SFmul prec emax x y.
Definition fadd (x y : spec_float) : spec_float := SFadd prec emax x y.
Definition fsub (x y : spec_float) : spec_float := SFsub prec emax x y.

(** The number [0]. *)
Definition zero : spec_float := S754_zero false.

(** [x < y] and [x <= y]: false when either is [NaN]; the two zeros are
    equal. *)
Definition flt (x y : spec_float) : bool := SFltb x y.
Definition fle (x y : spec_float) : bool := SFleb x y.

(** [x || 0] on a number: [NaN] and the two zeros are falsy. *)
Definition or0 (x : spec_float) : spec_float :=
  match x with
  | S754_nan | S754_zero _ => zero
  | _ => x
  end.

(** [x || 0] on a field that may be missing: [undefined] is falsy. *)
Definition field_or0 (x : option spec_float) : spec_float :=
  match x with
  | Some v => or0 v
  | None => zero
  end.

(** A field that may be missing as an operand of [+] or [-] beside a
    number: [undefined] becomes [NaN]. *)
Definition to_number (x : option spec_float) : spec_float :=
  match x with
  | Some v => v
  | None => S754_nan
  end.

(** White space of [String.prototype.trim] and of [parseFloat]'s leading
    skip, within the 8-bit characters: TAB, LF, VT, FF, CR, SPACE and the
    no-break space. *)
Definition is_ws (c : ascii) : bool :=
  let n := nat_of_ascii c in
  ((9 <=? n)%nat && (n <=? 13)%nat) || (n =? 32)%nat || (n =? 160)%nat.

Fixpoint trimStart (s : string) : string :=
  match s with
  | String c r => if is_ws c then trimStart r else s
  | EmptyString => EmptyString
  end.

Definition rev_string (s : string) : string :=
  string_of_list_ascii (rev (list_ascii_of_string s)).

Definition trimEnd (s : string) : string :=
  rev_string (trimStart (rev_string s)).

Definition trim (s : string) : string := trimEnd (trimStart s).

(** A non-empty string is truthy. *)
Definition truthy_string (s : string) : bool :=
  match s with
  | EmptyString => false
  | String _ _ => true
  end.

Definition digit_of (c : ascii) : option Z :=
  let n := nat_of_ascii c in
  if ((48 <=? n)%nat && (n <=? 57)%nat)%bool
  then Some (Z.of_nat n - 48)
  else None.

(** Longest run of decimal digits: its value, its length, and the rest. *)
Fixpoint take_digits (s : string) (acc : Z) (len : nat) : Z * nat * string :=
  match s with
  | String c r =>
      match digit_of c with
      | Some d => take_digits r (10 * acc + d) (S len)
      | None => (acc, len, s)
      end
  | EmptyString => (acc, len, s)
  end.

(** [ExponentPart]: [e] or [E], an optional sign, at least one digit.
    Without the digits the exponent is not part of the literal. *)
Definition parse_exponent (s : string) : Z :=
  match s with
  | String c r =>
      if (Ascii.eqb c "e" || Ascii.eqb c "E")%bool then
        match r with
        | String "-" r' =>
            let '(v, n, _) := take_digits r' 0 0%nat in
            if (n =? 0)%nat then 0 else - v
        | String "+" r' =>
            let '(v, _, _) := take_digits r' 0 0%nat in v
        | _ =>
            let '(v, _, _) := take_digits r 0 0%nat in v
        end
      else 0
  | EmptyString => 0
  end.

(** The binary64 number nearest to [m * 10^k], with the sign [neg]: the
    integer [m * 10^k] rounded, or the quotient of [m] by [10^(-k)]
    rounded once. *)
Definition decimal (neg : bool) (m k : Z) : spec_float :=
  match m with
  | Zpos p =>
      if 0 <=? k
      then binary_normalize prec emax (if neg then - (m * 10 ^ k) else m * 10 ^ k) 0 false
      else SFdiv prec emax (S754_finite neg p 0)
                           (S754_finite false (Z.to_pos (10 ^ (- k))) 0)
  | _ => S754_zero neg
  end.

(** [StrUnsignedDecimalLiteral]: [Infinity], or digits, an optional point
    with optional digits, an optional exponent; at least one digit before
    the exponent. *)
Definition parse_unsigned (neg : bool) (s : string) : spec_float :=
  if String.prefix "Infinity" s then S754_infinity neg
  else
    let '(iv, il, r1) := take_digits s 0 0%nat in
    let '(fv, fl, r2) :=
      match r1 with
      | String "." r => take_digits r 0 0%nat
      | _ => (0, 0%nat, r1)
      end in
    if ((il =? 0)%nat && (fl =? 0)%nat)%bool then S754_nan
    else decimal neg (iv * 10 ^ Z.of_nat fl + fv) (parse_exponent r2 - Z.of_nat fl).

(** [parseFloat] on a string: leading white space skipped, the longest
    prefix that is a decimal literal converted, [NaN] when there is
    none. *)
Definition parseFloat (s : string) : spec_float :=
  match trimStart s with
  | String "-" r => parse_unsigned true r
  | String "+" r => parse_unsigned false r
  | r => parse_unsigned false r
  end.

(** [parseFloat(x)] on a number [x], which is first written as text: the
    number itself, the sign of a zero being lost. *)
Definition parseFloat_number (x : spec_float) : spec_float :=
  match x with
  | S754_zero _ => zero
  | _ => x
  end.

(** Decimal digits of a natural number, padded on the left with zeros to
    at least [w] characters. *)
Fixpoint pad_go (fuel w : nat) (s : string) : string :=
  match fuel with
  | O => s
  | S f => if (String.length s <? w)%nat then pad_go f w (String "0" s) else s
  end.

Definition pad_left (w : nat) (s : string) : string := pad_go w w s.

(** The digits of [n] with a point before the last [d] of them, after
    padding to [d + 1] digits; no point when [d] is zero. *)
Definition fixed_digits (d : nat) (n : Z) : string :=
  let m := pretty (Z.to_N n) in
  match d with
  | O => m
  | S _ =>
      let digs := pad_left (S d) m in
      let k := (String.length digs - d)%nat in
      String.app (substring 0 k digs) (String "." (substring k d digs))
  end.

(** The integer nearest to [m * 2^e], the larger one on a tie. *)
Definition nearest (m : positive) (e : Z) : Z :=
  if 0 <=? e then Z.pos m * 2 ^ e else (Z.pos m + 2 ^ (- e - 1)) / 2 ^ (- e).

(** The integer nearest to [m * 2^e * 10^d], the larger one on a tie (the
    integer [n] of [Number.prototype.toFixed]). *)
Definition scaled (d : nat) (m : positive) (e : Z) : Z :=
  let n := Z.pos m * 10 ^ Z.of_nat d in
  if 0 <=? e then n * 2 ^ e else (n + 2 ^ (- e - 1)) / 2 ^ (- e).

(** [x.toFixed(d)] on a binary64 number of magnitude below [10^21]: a
    sign for a negative number, then the digits of the rounded
    magnitude. *)
Definition toFixed (d : nat) (x : spec_float) : string :=
  match x with
  | S754_zero _ => fixed_digits d 0
  | S754_finite s m e =>
      String.app (if s then "-" else EmptyString) (fixed_digits d (scaled d m e))
  | S754_infinity s => if s then "-Infinity" else "Infinity"
  | S754_nan => "NaN"
  end.

(** [x.toFixed(0)] on a binary64 number of magnitude below [10^21]. *)
Definition toFixed0 (x : spec_float) : string :=
  match x with
  | S754_zero _ => "0"
  | S754_finite s m e => String.app (if s then "-" else EmptyString) (pretty (nearest m e))
  | S754_infinity s => if s then "-Infinity" else "Infinity"
  | S754_nan => "NaN"
  end.

(** [Math.max] and [Math.min]: [NaN] when either argument is, and the
    positive zero is the larger of the two zeros. *)
Definition Math_max (a b : spec_float) : spec_float :=
  match SFcompare a b with
  | None => S754_nan
  | Some Lt => b
  | Some Gt => a
  | Some Eq => match a with S754_zero true => b | _ => a end
  end.

Definition Math_min (a b : spec_float) : spec_float :=
  match SFcompare a b with
  | None => S754_nan
  | Some Lt => a
  | Some Gt => b
  | Some Eq => match a with S754_zero false => b | _ => a end
  end.

(** The value of a DOM input of type [number]: text typed by the user, or
    a number the script assigned ([input.value = n], or [value="${n}"] in
    the markup).  [parseFloat(input.value) || 0] reads the first through
    [parseFloat] and gives a finite number back; an input of this type
    holds no text for [NaN] or an infinity, which reads as 0. *)
Inductive input_value :=
  | Typed (s : string)
  | Assigned (x : spec_float).

Definition read_number (v : input_value) : spec_float :=
  match v with
  | Typed s => or0 (parseFloat s)
  | Assigned (S754_finite s m e) => S754_finite s m e
  | Assigned _ => zero
  end.

End JS.

(** ** Paths of the database *)

Module Firestore.

(** [collection(db, path)] is given a path with an odd number of
    segments, and throws on any other. *)
Definition collection (path : list string) : bool := Nat.odd (length path).

(** [doc(db, path, id)] is given a path that has, with the id, a positive
    even number of segments, and throws on any other. *)
Definition doc (path : list string) (id : string) : bool :=
  Nat.even (length (path ++ [id])).

End Firestore.

(** ** The React application *)

Module App.

Import JS.

(** The Firebase context of [useFirebase]: the database handle and the
    signed-in user. *)
Record firebase := {
  db : bool;
  firebaseUser : option string  (* [firebaseUser.uid] *)
}.

(** [db && firebaseUser && firebaseUser.uid], giving the uid. *)
Definition authenticated (fb : firebase) : option string :=
  if db fb then
    match firebaseUser fb with
    | Some uid => if truthy_string uid then Some uid else None
    | None => None
    end
  else None.

Record member := {
  userId : string;
  role : string;
  displayName : string
}.

Record category := {
  cat_name : string;
  allocatedAmount : spec_float
}.

Record project := {
  name : string;
  description : string;
  targetReleaseDate : string;
  initialBudget : option spec_float;
  createdAt : string;
  status : string;
  progress : option string;
  teamMembers : list member;
  budgetCategories : option (list category)
}.

Record task := {
  task_name : string;
  task_description : string;
  assignee : string;
  dueDate : option string;
  priority : string;
  task_role : string;
  task_status : string;
  task_createdAt : string;
  createdBy : string;
  updatedAt : option string
}.

Record activityLog := {
  log_project : string;  (* the project whose [activityLogs] holds it *)
  timestamp : string;
  type : string;
  log_description : string;
  log_userId : string
}.

(** An expense document.  Its amount is a number, as [AddExpenseForm]
    writes it ([NaN] included), or is missing ([None]). *)
Record expense := {
  expense_description : string;
  amount : option spec_float;
  expense_category : string;
  date : string
}.

(** The documents under [artifacts/{appId}/users/{uid}]: projects by id,
    the tasks of every project by (project id, task id), and the activity
    logs, to which documents are only ever added. *)
Record store := {
  projects : gmap string project;
  tasks : gmap (string * string) task;
  activityLogs : list activityLog
}.

(** *** ProjectDetailView: project progress *)

Definition is_completed (t : task) : bool := String.eqb (task_status t) "Completed".

(** [newProgress] of the progress effect. *)
Definition newProgress (tasks : list task) : string :=
  let completedTasks := length (filter (λ t, is_completed t = true) tasks) in
  let totalTasks := length tasks in
  if (0 <? totalTasks)%nat
  then String.app
         (toFixed0 (fmul (fdiv (float_of_nat completedTasks) (float_of_nat totalTasks))
                         (float_of_nat 100))) "%"
  else "0%".

(** The write the progress effect issues, if any: [updateDoc(projectDocRef,
    { progress: v })] is [Some v]. *)
Definition progressEffect (fb : firebase) (projectId : string)
    (project : option project) (tasks : list task) : option string :=
  match project with
  | Some p =>
      if (0 <? length tasks)%nat then
        let np := newProgress tasks in
        if bool_decide (progress p ≠ Some np) then
          match authenticated fb with
          | Some _ => if truthy_string projectId then Some np else None
          | None => None
          end
        else None
      else if bool_decide (progress p ≠ Some "0%") then
        match authenticated fb with
        | Some _ => if truthy_string projectId then Some "0%" else None
        | None => None
        end
      else None
  | None => None
  end.

(** [updateDoc(ref, { progress: v })] on the project document. *)
Definition set_progress (v : string) (p : project) : project :=
  {| name := name p; description := description p;
     targetReleaseDate := targetReleaseDate p;
     initialBudget := initialBudget p; createdAt := createdAt p;
     status := status p; progress := Some v;
     teamMembers := teamMembers p;
     budgetCategories := budgetCategories p |}.

(** One round of the effect on a loaded project: the write, if one is
    issued, applied to the document (which the project listener then
    delivers back as the new [project]). *)
Definition syncProgress (fb : firebase) (projectId : string)
    (p : project) (tasks : list task) : project :=
  match progressEffect fb projectId (Some p) tasks with
  | Some v => set_progress v p
  | None => p
  end.

(** [s] between double quotes. *)
Definition quoted (s : string) : string :=
  let q := String (ascii_of_nat 34) EmptyString in
  String.app q (String.app s q).

(** *** CreateProjectForm *)


Inductive submitted :=
  | AuthRequired   (* the missing-context message; nothing is written *)
  | Ignored        (* nothing is done and nothing is shown *)
  | Saved          (* the success toast *)
  | Failed.        (* a write was refused; the failure toast *)


(** *** CreateTaskForm *)

Record CreateTaskForm := {
  taskName : string;
  ct_description : string;
  ct_assignee : string;
  ct_dueDate : string;
  ct_priority : string;
  ct_role : string
}.

(** [new Date(d).toISOString()] for the value [d] of a date input
    ([YYYY-MM-DD], read as midnight UTC). *)
Definition toISOString (d : string) : string := String.app d "T00:00:00.000Z".

Definition iso_or_null (d : string) : option string :=
  if truthy_string d then Some (toISOString d) else None.

Definition createTask (fb : firebase) (projectId : string) (f : CreateTaskForm)
    (now newId : string) (st : store) : store * submitted :=
  match authenticated fb with
  | None => (st, AuthRequired)
  | Some uid =>
      if truthy_string projectId then
        let doc :=
          {| task_name := taskName f;
             task_description := ct_description f;
             assignee := if truthy_string (ct_assignee f) then ct_assignee f else "Unassigned";
             dueDate := iso_or_null (ct_dueDate f);
             priority := ct_priority f;
             task_role := ct_role f;
             task_status := "To Do";
             task_createdAt := now;
             createdBy := uid;
             updatedAt := None |} in
        let entry :=
          {| log_project := projectId;
             timestamp := now;
             type := "Task Created";
             log_description :=
               String.app "New task "
                 (String.app (quoted (taskName f))
                   (String.app " created under " (String.app (ct_role f) " role.")));
             log_userId := uid |} in
        ({| projects := projects st;
            tasks := <[(projectId, newId) := doc]> (tasks st);
            activityLogs := activityLogs st ++ [entry] |}, Saved)
      else (st, AuthRequired)
  end.

(** *** TaskDetailModal *)

Definition rolesOptions : list string :=
  ["Scripting"; "Building"; "Modelling"; "UI"; "VFX"; "General"].
Definition statusOptions : list string :=
  ["To Do"; "In Progress"; "Ready for Review"; "Completed"].
Definition priorityOptions : list string := ["Low"; "Medium"; "High"; "Urgent"].

Record TaskDetailModal := {
  modal_task : option task;
  editName : string;
  editDescription : string;
  editAssignee : string;
  editDueDate : string;
  editPriority : string;
  editRole : string;
  editStatus : string
}.

Definition openModal : TaskDetailModal :=
  {| modal_task := None; editName := EmptyString; editDescription := EmptyString;
     editAssignee := EmptyString; editDueDate := EmptyString; editPriority := EmptyString;
     editRole := EmptyString; editStatus := EmptyString |}.

(** [s.split('T')[0]] *)
Fixpoint before_T (s : string) : string :=
  match s with
  | String c r => if Ascii.eqb c "T" then EmptyString else String c (before_T r)
  | EmptyString => EmptyString
  end.

(** The task listener of the modal: an existing document fills the edit
    fields; a missing one only sets the error. *)
Definition onTaskSnapshot (docSnap : option task) (m : TaskDetailModal) : TaskDetailModal :=
  match docSnap with
  | Some t =>
      {| modal_task := Some t;
         editName := task_name t;
         editDescription := task_description t;
         editAssignee := assignee t;
         editDueDate := match dueDate t with Some d => before_T d | None => EmptyString end;
         editPriority := priority t;
         editRole := task_role t;
         editStatus := task_status t |}
  | None => m
  end.

(** What the user can do to the form: type into a text or date input, or
    pick the [i]-th option of a select. *)
Inductive edit :=
  | TypeName (s : string)
  | TypeDescription (s : string)
  | TypeAssignee (s : string)
  | PickDueDate (s : string)
  | SelectPriority (i : nat)
  | SelectRole (i : nat)
  | SelectStatus (i : nat).

Definition pick (options : list string) (i : nat) (current : string) : string :=
  default current (options !! i).

Definition onChange (e : edit) (m : TaskDetailModal) : TaskDetailModal :=
  let upd n d a du p r s :=
    {| modal_task := modal_task m; editName := n; editDescription := d;
       editAssignee := a; editDueDate := du; editPriority := p;
       editRole := r; editStatus := s |} in
  let n := editName m in let d := editDescription m in
  let a := editAssignee m in let du := editDueDate m in
  let p := editPriority m in let r := editRole m in let s := editStatus m in
  match e with
  | TypeName x => upd x d a du p r s
  | TypeDescription x => upd n x a du p r s
  | TypeAssignee x => upd n d x du p r s
  | PickDueDate x => upd n d a x p r s
  | SelectPriority i => upd n d a du (pick priorityOptions i p) r s
  | SelectRole i => upd n d a du p (pick rolesOptions i r) s
  | SelectStatus i => upd n d a du p r (pick statusOptions i s)
  end.

(** Any number of changes, in order. *)
Definition onChanges (es : list edit) (m : TaskDetailModal) : TaskDetailModal :=
  fold_left (λ m e, onChange e m) es m.

Definition log_entry (projectId now ty descr uid : string) : activityLog :=
  {| log_project := projectId; timestamp := now; type := ty;
     log_description := descr; log_userId := uid |}.

(** [handleUpdateTask]: the fields written by [updateDoc] (the document
    must exist), then one log entry per kind of change. *)
Definition handleUpdateTask (fb : firebase) (projectId taskId now : string)
    (m : TaskDetailModal) (st : store) : store * submitted :=
  match authenticated fb with
  | None => (st, AuthRequired)
  | Some uid =>
      if (truthy_string projectId && truthy_string taskId)%bool then
        match modal_task m, tasks st !! (projectId, taskId) with
        | Some task, Some stored =>
            let newDue := iso_or_null (editDueDate m) in
            let doc :=
              {| task_name := editName m;
                 task_description := editDescription m;
                 assignee := editAssignee m;
                 dueDate := newDue;
                 priority := editPriority m;
                 task_role := editRole m;
                 task_status := editStatus m;
                 task_createdAt := task_createdAt stored;
                 createdBy := createdBy stored;
                 updatedAt := Some now |} in
            let l1 :=
              if bool_decide (task_status task ≠ editStatus m) then
                [log_entry projectId now "Task Status Changed"
                   (String.app "Task " (String.app (quoted (editName m))
                     (String.app " status changed from "
                       (String.app (quoted (task_status task))
                         (String.app " to " (String.app (quoted (editStatus m)) "."))))))
                   uid]
              else [] in
            let l2 :=
              if bool_decide (task_role task ≠ editRole m) then
                [log_entry projectId now "Task Role Changed"
                   (String.app "Task " (String.app (quoted (editName m))
                     (String.app " role changed from "
                       (String.app (quoted (task_role task))
                         (String.app " to " (String.app (quoted (editRole m)) "."))))))
                   uid]
              else [] in
            let l3 :=
              if bool_decide (task_name task ≠ editName m
                              ∨ task_description task ≠ editDescription m
                              ∨ assignee task ≠ editAssignee m
                              ∨ dueDate task ≠ newDue
                              ∨ priority task ≠ editPriority m) then
                [log_entry projectId now "Task Details Updated"
                   (String.app "Task " (String.app (quoted (editName m)) " details were updated."))
                   uid]
              else [] in
            ({| projects := projects st;
                tasks := <[(projectId, taskId) := doc]> (tasks st);
                activityLogs := activityLogs st ++ l1 ++ l2 ++ l3 |}, Saved)
        | _, _ => (st, Failed)
        end
      else (st, AuthRequired)
  end.

(** *** BudgetOverview *)

Record BudgetOverview := {
  expenses : list expense;
  currentInitialBudget : spec_float;
  editingBudget : bool;
  newBudgetAmount : spec_float;
  categories : list category  (* the [budgetCategories] state *)
}.

(** The initial state, from the props [projectBudgetCategories] and
    [initialBudget] of the project document. *)
Definition mount (projectBudgetCategories : option (list category))
    (initialBudget : option spec_float) : BudgetOverview :=
  {| expenses := [];
     currentInitialBudget := field_or0 initialBudget;
     editingBudget := false;
     newBudgetAmount := field_or0 initialBudget;
     categories :=
       default [ {| cat_name := "General"; allocatedAmount := field_or0 initialBudget |} ]
               projectBudgetCategories |}.

(** The expenses listener: [setExpenses(fetchedExpenses)]. *)
Definition onExpensesSnapshot (fetched : list expense) (b : BudgetOverview) : BudgetOverview :=
  {| expenses := fetched;
     currentInitialBudget := currentInitialBudget b;
     editingBudget := editingBudget b;
     newBudgetAmount := newBudgetAmount b;
     categories := categories b |}.

(** [expenses.reduce((sum, expense) => sum + (expense.amount || 0), 0)] *)
Definition totalSpent (b : BudgetOverview) : spec_float :=
  fold_left (λ sum e, fadd sum (field_or0 (amount e))) (expenses b) zero.

Definition remainingBudget (b : BudgetOverview) : spec_float :=
  fsub (currentInitialBudget b) (totalSpent b).

(** What a property of the accumulator object of [spentPerCategory] can
    hold: a number, or something that is truthy and that [+] turns into a
    string (a string, or a member inherited from [Object.prototype]). *)
Inductive jsval :=
  | Num (x : spec_float)
  | NotNum.

(** The names every object inherits from [Object.prototype]. *)
Definition object_prototype : list string :=
  [ "constructor"; "toString"; "toLocaleString"; "valueOf"; "hasOwnProperty";
    "isPrototypeOf"; "propertyIsEnumerable"; "__proto__";
    "__defineGetter__"; "__defineSetter__"; "__lookupGetter__"; "__lookupSetter__" ].

(** [acc[c]] on an object made by [{}], whose own properties are [acc];
    [None] is [undefined]. *)
Definition get (acc : gmap string jsval) (c : string) : option jsval :=
  match acc !! c with
  | Some v => Some v
  | None => if bool_decide (c ∈ object_prototype) then Some NotNum else None
  end.

(** [acc[c] = v]: an own property is made or overwritten, but for
    [__proto__], whose setter drops a value that is no object. *)
Definition set (acc : gmap string jsval) (c : string) (v : jsval) : gmap string jsval :=
  if String.eqb c "__proto__" then acc else <[c := v]> acc.

(** [v || 0] *)
Definition val_or0 (v : option jsval) : jsval :=
  match v with
  | Some (Num x) => Num (or0 x)
  | Some NotNum => NotNum
  | None => Num zero
  end.

(** [v + x] for a field [x] that holds a number or is missing: the sum
    of two numbers, and otherwise the two texts joined. *)
Definition plus (v : jsval) (x : option spec_float) : jsval :=
  match v with
  | Num a => Num (fadd a (to_number x))
  | NotNum => NotNum
  end.

(** [acc[expense.category] = (acc[expense.category] || 0) + expense.amount] *)
Definition add_to_category (acc : gmap string jsval) (e : expense) : gmap string jsval :=
  set acc (expense_category e) (plus (val_or0 (get acc (expense_category e))) (amount e)).

Definition spentPerCategory (b : BudgetOverview) : gmap string jsval :=
  fold_left add_to_category (expenses b) ∅.

(** One card of the category grid: the name, the text of the percentage,
    and the three amounts [allocated], [spent] and [remaining]. *)
Record categoryCard := {
  card_name : string;
  card_percentage : string;
  card_allocated : spec_float;
  card_spent : jsval;
  card_remaining : spec_float
}.

Definition categoryCard_of (b : BudgetOverview) (cat : category) : categoryCard :=
  let allocated := or0 (allocatedAmount cat) in
  let spent := val_or0 (get (spentPerCategory b) (cat_name cat)) in
  let remaining :=
    match spent with
    | Num s => fsub allocated s
    | NotNum => S754_nan
    end in
  let percentage :=
    if flt zero (currentInitialBudget b)
    then toFixed 1 (fmul (fdiv allocated (currentInitialBudget b)) (float_of_nat 100))
    else "0" in
  {| card_name := cat_name cat; card_percentage := percentage;
     card_allocated := allocated; card_spent := spent;
     card_remaining := remaining |}.

Definition categoryCards (b : BudgetOverview) : list categoryCard :=
  map (categoryCard_of b) (categories b).




Section HandleUpdateTotalBudget.

(** [Number.prototype.toLocaleString] of the host, used for the text of the
    log entry only. *)
Variable toLocaleString : spec_float → string.


End HandleUpdateTotalBudget.

End App.

(** ** The budget view of script.js *)

Module Script.

Import JS.

(** The session globals [appId], [db], [currentUserId] and
    [currentProjectId]. *)
Record session := {
  appId : string;
  db : bool;
  currentUserId : option string;
  currentProjectId : option string
}.

Definition truthy_id (x : option string) : bool :=
  match x with
  | Some s => truthy_string s
  | None => false
  end.

(** [currentProjectId && db && currentUserId] *)
Definition ready (s : session) : bool :=
  (truthy_id (currentProjectId s) && db s && truthy_id (currentUserId s))%bool.

(** An id inside a template string; [null] is written out. *)
Definition id_text (x : option string) : string := default "null" x.

(** [artifacts/${appId}/users/${currentUserId}/projects/${currentProjectId}] *)
Definition project_path (s : session) : list string :=
  [ "artifacts"; appId s; "users"; id_text (currentUserId s);
    "projects"; id_text (currentProjectId s) ].

(** The path given for the transactions. *)
Definition transactions_path (s : session) : list string :=
  project_path s ++ ["budget"; "transactions"].

(** A field of a stored document that is read as a number: absent, a
    number or a string. *)
Inductive value :=
  | Undefined
  | Number (x : spec_float)
  | Text (s : string).

(** [parseFloat(v)]: the argument is first converted to a string, so a
    number is given back and an absent field gives [NaN]. *)
Definition parseFloat_value (v : value) : spec_float :=
  match v with
  | Undefined => S754_nan
  | Number x => parseFloat_number x
  | Text s => parseFloat s
  end.

Record transaction := {
  description : string;
  amount : value;
  date : string;
  category : string;
  type : string;
  createdAt : option string
}.

Record budgetCategory := {
  name : string;
  cat_amount : spec_float
}.

(** The document [budget/main_budget]. *)
Record budgetData := {
  total : option spec_float;
  currencySymbol : option string;
  categories : option (list budgetCategory)
}.

(** One row of [budgetCategoriesContainer]: the name and amount inputs. *)
Record categoryRow := {
  nameInput : string;
  amountInput : input_value
}.

(** The part of the page the budget functions read and write.  The width
    of the progress bar, set to the text of [percentage] followed by a
    percent sign, is kept as the number. *)
Record dom := {
  totalBudgetInput : input_value;
  budgetSpentInput : input_value;
  currencySymbolSelect : string;
  budgetPercentageSpan : string;
  budgetProgressBar_width : spec_float;
  budgetProgressBar_red : bool;
  budgetCategoriesContainer : list categoryRow;
  transactionCategorySelect_options : list string;
  messageBox : option (string * string)
}.

(** The number [percentage] of [updateBudgetProgress]. *)
Definition percentage (totalBudget totalSpent : spec_float) : spec_float :=
  let percentage :=
    if flt zero totalBudget
    then fmul (fdiv totalSpent totalBudget) (float_of_nat 100)
    else zero in
  Math_min (float_of_nat 100) (Math_max zero percentage).

(** [updateBudgetProgress].  The style sheet takes no width of [NaN%]:
    the bar then keeps the width it had. *)
Definition updateBudgetProgress (d : dom) : dom :=
  let totalBudget := read_number (totalBudgetInput d) in
  let totalSpent := read_number (budgetSpentInput d) in
  let percentage := percentage totalBudget totalSpent in
  let over := (flt totalBudget totalSpent && flt zero totalBudget)%bool in
  {| totalBudgetInput := totalBudgetInput d;
     budgetSpentInput := budgetSpentInput d;
     currencySymbolSelect := currencySymbolSelect d;
     budgetPercentageSpan := String.app (toFixed 1 percentage) "%";
     budgetProgressBar_width :=
       match percentage with
       | S754_nan => budgetProgressBar_width d
       | _ => percentage
       end;
     budgetProgressBar_red := over;
     budgetCategoriesContainer := budgetCategoriesContainer d;
     transactionCategorySelect_options := transactionCategorySelect_options d;
     messageBox :=
       if over then
         Some ("Budget Alert",
               String.app "You are "
                 (String.app (currencySymbolSelect d)
                    (String.app (toFixed 2 (fsub totalSpent totalBudget)) " over budget!")))
       else messageBox d |}.

Definition set_rows (rows : list categoryRow) (d : dom) : dom :=
  {| totalBudgetInput := totalBudgetInput d;
     budgetSpentInput := budgetSpentInput d;
     currencySymbolSelect := currencySymbolSelect d;
     budgetPercentageSpan := budgetPercentageSpan d;
     budgetProgressBar_width := budgetProgressBar_width d;
     budgetProgressBar_red := budgetProgressBar_red d;
     budgetCategoriesContainer := rows;
     transactionCategorySelect_options := transactionCategorySelect_options d;
     messageBox := messageBox d |}.

Definition row_of (c : budgetCategory) : categoryRow :=
  {| nameInput := name c; amountInput := Assigned (cat_amount c) |}.

Definition renderBudgetCategories (cats : list budgetCategory) (d : dom) : dom :=
  match cats with
  | [] => set_rows [ {| nameInput := "Development"; amountInput := Assigned zero |} ] d
  | _ => updateBudgetProgress (set_rows (map row_of cats) d)
  end.

(** The options of the category select of the transaction form: the
    placeholder, the categories, [Other]. *)
Definition populateTransactionCategories (cats : list budgetCategory) (d : dom) : dom :=
  {| totalBudgetInput := totalBudgetInput d;
     budgetSpentInput := budgetSpentInput d;
     currencySymbolSelect := currencySymbolSelect d;
     budgetPercentageSpan := budgetPercentageSpan d;
     budgetProgressBar_width := budgetProgressBar_width d;
     budgetProgressBar_red := budgetProgressBar_red d;
     budgetCategoriesContainer := budgetCategoriesContainer d;
     transactionCategorySelect_options := EmptyString :: map name cats ++ ["Other"];
     messageBox := messageBox d |}.

(** The callback of the listener of the budget document.  A missing
    document is created with the defaults (the second component). *)
Definition onBudgetSnapshot (docSnap : option budgetData) (d : dom) : dom * option budgetData :=
  let defaults := {| total := Some zero; currencySymbol := Some "$"; categories := Some [] |} in
  let budgetData := default defaults docSnap in
  let cats := default [] (categories budgetData) in
  let symbol := default "$" (currencySymbol budgetData) in
  let d1 :=
    {| totalBudgetInput := Assigned (field_or0 (total budgetData));
       budgetSpentInput := budgetSpentInput d;
       currencySymbolSelect := symbol;
       budgetPercentageSpan := budgetPercentageSpan d;
       budgetProgressBar_width := budgetProgressBar_width d;
       budgetProgressBar_red := budgetProgressBar_red d;
       budgetCategoriesContainer := budgetCategoriesContainer d;
       transactionCategorySelect_options := transactionCategorySelect_options d;
       messageBox := messageBox d |} in
  (updateBudgetProgress (populateTransactionCategories cats (renderBudgetCategories cats d1)),
   match docSnap with Some _ => None | None => Some defaults end).

(** The two running totals of the transactions listener. *)
Definition add_transaction (acc : spec_float * spec_float) (t : transaction)
    : spec_float * spec_float :=
  let '(totalSpentFromTransactions, totalIncomeFromTransactions) := acc in
  if String.eqb (type t) "expense" then
    (fadd totalSpentFromTransactions (or0 (parseFloat_value (amount t))),
     totalIncomeFromTransactions)
  else if String.eqb (type t) "income" then
    (totalSpentFromTransactions,
     fadd totalIncomeFromTransactions (or0 (parseFloat_value (amount t))))
  else acc.

(** The callback of the listener of the transactions: the documents come
    in the order of the snapshot. *)
Definition onTransactionsSnapshot (snapshot : list transaction) (d : dom) : dom :=
  let '(totalSpentFromTransactions, _) := fold_left add_transaction snapshot (zero, zero) in
  updateBudgetProgress
    {| totalBudgetInput := totalBudgetInput d;
       budgetSpentInput := Assigned totalSpentFromTransactions;
       currencySymbolSelect := currencySymbolSelect d;
       budgetPercentageSpan := budgetPercentageSpan d;
       budgetProgressBar_width := budgetProgressBar_width d;
       budgetProgressBar_red := budgetProgressBar_red d;
       budgetCategoriesContainer := budgetCategoriesContainer d;
       transactionCategorySelect_options := transactionCategorySelect_options d;
       messageBox := messageBox d |}.

(** The categories [saveBudgetCategories] collects from the rows: those
    with a non-empty trimmed name. *)
Definition collect_categories (rows : list categoryRow) : list budgetCategory :=
  omap (λ r, if truthy_string (trim (nameInput r))
             then Some {| name := trim (nameInput r);
                          cat_amount := read_number (amountInput r) |}
             else None) rows.

(** [saveBudgetCategories]: the write of the [categories] field (if the
    session is ready) and the refreshed options. *)
Definition saveBudgetCategories (s : session) (d : dom) : dom * option (list budgetCategory) :=
  if ready s then
    let cats := collect_categories (budgetCategoriesContainer d) in
    (populateTransactionCategories cats d, Some cats)
  else (d, None).

(** [saveBudgetTotal]: the write of the [total] field. *)
Definition saveBudgetTotal (s : session) (d : dom) : dom * option spec_float :=
  if ready s then (updateBudgetProgress d, Some (read_number (totalBudgetInput d)))
  else (d, None).

(** What can happen on the budget page apart from the transactions
    listener: the budget document is delivered, or the user edits a row,
    adds or deletes one, edits the total or picks a currency. *)
Inductive budget_event :=
  | BudgetSnapshot (docSnap : option budgetData)
  | TypeCategoryName (i : nat) (v : string)
  | TypeCategoryAmount (i : nat) (v : string)
  | AddCategory
  | DeleteCategory (i : nat)
  | TypeTotalBudget (v : string)
  | SelectCurrency (v : string).

Definition set_total (v : input_value) (d : dom) : dom :=
  {| totalBudgetInput := v;
     budgetSpentInput := budgetSpentInput d;
     currencySymbolSelect := currencySymbolSelect d;
     budgetPercentageSpan := budgetPercentageSpan d;
     budgetProgressBar_width := budgetProgressBar_width d;
     budgetProgressBar_red := budgetProgressBar_red d;
     budgetCategoriesContainer := budgetCategoriesContainer d;
     transactionCategorySelect_options := transactionCategorySelect_options d;
     messageBox := messageBox d |}.

Definition set_currency (v : string) (d : dom) : dom :=
  {| totalBudgetInput := totalBudgetInput d;
     budgetSpentInput := budgetSpentInput d;
     currencySymbolSelect := v;
     budgetPercentageSpan := budgetPercentageSpan d;
     budgetProgressBar_width := budgetProgressBar_width d;
     budgetProgressBar_red := budgetProgressBar_red d;
     budgetCategoriesContainer := budgetCategoriesContainer d;
     transactionCategorySelect_options := transactionCategorySelect_options d;
     messageBox := messageBox d |}.

Definition handle (s : session) (e : budget_event) (d : dom) : dom :=
  let rows := budgetCategoriesContainer d in
  match e with
  | BudgetSnapshot docSnap => fst (onBudgetSnapshot docSnap d)
  | TypeCategoryName i v =>
      fst (saveBudgetCategories s
             (set_rows (alter (λ r, {| nameInput := v; amountInput := amountInput r |}) i rows) d))
  | TypeCategoryAmount i v =>
      fst (saveBudgetCategories s
             (set_rows (alter (λ r, {| nameInput := nameInput r; amountInput := Typed v |}) i rows) d))
  | AddCategory =>
      fst (saveBudgetCategories s
             (set_rows (rows ++ [ {| nameInput := EmptyString; amountInput := Assigned zero |} ]) d))
  | DeleteCategory i =>
      fst (saveBudgetCategories s (set_rows (delete i rows) d))
  | TypeTotalBudget v => fst (saveBudgetTotal s (set_total (Typed v) d))
  | SelectCurrency v => set_currency v d
  end.

Definition run (s : session) (es : list budget_event) (d : dom) : dom :=
  fold_left (λ d e, handle s e d) es d.

(** *** The transaction form *)

Record transactionForm := {
  transactionDescriptionInput : string;
  transactionAmountInput : string;
  transactionDateInput : string;
  transactionCategorySelect : string;
  transactionTypeExpenseRadio : bool
}.

Inductive outcome :=
  | SystemNotReady        (* [Error]: select a project, authenticate *)
  | ValidationError       (* [Validation Error]: description, amount, date *)
  | TransactionUpdated
  | TransactionAdded
  | SaveFailed.           (* [Error]: failed to save the transaction *)

Record transactionData := {
  data_description : string;
  data_amount : spec_float;
  data_date : string;
  data_category : string;
  data_type : string
}.

Definition read_form (f : transactionForm) : transactionData :=
  {| data_description := trim (transactionDescriptionInput f);
     data_amount := or0 (parseFloat (transactionAmountInput f));
     data_date := transactionDateInput f;
     data_category := transactionCategorySelect f;
     data_type := if transactionTypeExpenseRadio f then "expense" else "income" |}.

Definition invalid (t : transactionData) : bool :=
  (negb (truthy_string (data_description t))
   || fle (data_amount t) zero
   || negb (truthy_string (data_date t)))%bool.

Definition stored (t : transactionData) (created : option string) : transaction :=
  {| description := data_description t;
     amount := Number (data_amount t);
     date := data_date t;
     category := data_category t;
     type := data_type t;
     createdAt := created |}.

(** [handleTransactionFormSubmission] on the transactions collection.
    Inside the [try], the reference of the collection is taken first, from
    [transactions_path]; when [collection] throws, the [catch] shows the
    failure.  Otherwise [isEditingTransaction] and
    [currentEditingTransactionId] select the document to update, which
    must exist, or a document is added under the id [newId] the database
    picks. *)
Definition handleTransactionFormSubmission (s : session)
    (isEditingTransaction : bool) (currentEditingTransactionId : option string)
    (f : transactionForm) (now newId : string)
    (transactions : gmap string transaction) : gmap string transaction * outcome :=
  if negb (ready s) then (transactions, SystemNotReady)
  else
    let transactionData := read_form f in
    if invalid transactionData then (transactions, ValidationError)
    else if negb (Firestore.collection (transactions_path s)) then (transactions, SaveFailed)
    else
      match (if isEditingTransaction then currentEditingTransactionId else None) with
      | Some id =>
          if truthy_string id then
            match transactions !! id with
            | Some old =>
                (<[id := stored transactionData (createdAt old)]> transactions,
                 TransactionUpdated)
            | None => (transactions, SaveFailed)
            end
          else (<[newId := stored transactionData (Some now)]> transactions, TransactionAdded)
      | None => (<[newId := stored transactionData (Some now)]> transactions, TransactionAdded)
      end.

End Script.

(** ** The older budget view of devhub.js *)

Module Legacy.

Import JS.

Record categoryRow := {
  nameInput : string;
  amountInput : input_value
}.

Record dom := {
  totalBudgetInput : input_value;
  budgetSpentInput : input_value;
  budgetPercentageSpan : string;
  budgetProgressBar_width : spec_float;
  budgetCategoriesContainer : list categoryRow
}.

(** [updateBudgetProgress] of this version: the spent amount is the sum of
    the amount inputs of the category rows.  The second component is the
    [spent] field written back when the session is ready. *)
Definition updateBudgetProgress (ready : bool) (d : dom) : dom * option spec_float :=
  let totalSpent :=
    fold_left (λ totalSpent r, fadd totalSpent (read_number (amountInput r)))
              (budgetCategoriesContainer d) zero in
  let totalBudget := read_number (totalBudgetInput d) in
  let percentage :=
    if flt zero totalBudget
    then fmul (fdiv totalSpent totalBudget) (float_of_nat 100)
    else zero in
  let percentage := Math_min (float_of_nat 100) (Math_max zero percentage) in
  ({| totalBudgetInput := totalBudgetInput d;
      budgetSpentInput := Assigned totalSpent;
      budgetPercentageSpan := String.app (toFixed 1 percentage) "%";
      budgetProgressBar_width :=
        match percentage with
        | S754_nan => budgetProgressBar_width d
        | _ => percentage
        end;
      budgetCategoriesContainer := budgetCategoriesContainer d |},
   if ready then Some totalSpent else None).

(** The user types [v] into the amount input of row [i]: its [input]
    listener is [updateBudgetProgress]. *)
Definition onAmountInput (ready : bool) (i : nat) (v : string) (d : dom) : dom :=
  fst (updateBudgetProgress ready
         {| totalBudgetInput := totalBudgetInput d;
            budgetSpentInput := budgetSpentInput d;
            budgetPercentageSpan := budgetPercentageSpan d;
            budgetProgressBar_width := budgetProgressBar_width d;
            budgetCategoriesContainer :=
              alter (λ r, {| nameInput := nameInput r; amountInput := Typed v |}) i
                    (budgetCategoriesContainer d) |}).

End Legacy.

(** ** The aggregates as the specification words them *)

Module Spec.

Import JS.

(** The number of tasks with status [Completed]. *)
Fixpoint completed (ts : list App.task) : nat :=
  match ts with
  | [] => 0
  | t :: r =>
      if decide (App.task_status t = "Completed") then S (completed r) else completed r
  end.

(** The magnitude of a finite binary64 number, as a rational number (and
    0 for the others), and whether the number is below 0. *)
Definition magnitude (x : spec_float) : Q :=
  match x with
  | S754_finite _ m e => inject_Z (Z.pos m) * 2 ^ e
  | _ => 0
  end.

Definition negative (x : spec_float) : bool :=
  match x with
  | S754_finite s _ _ | S754_infinity s => s
  | _ => false
  end.

(** A number that is not [NaN] and has the sign [s] (a zero, an
    infinity or a finite number). *)
Definition signed (s : bool) (x : spec_float) : Prop :=
  match x with
  | S754_zero s' | S754_infinity s' | S754_finite s' _ _ => s' = s
  | S754_nan => False
  end.

(** Whether a number is finite: neither an infinity nor [NaN]. *)
Definition finite (x : spec_float) : bool :=
  match x with
  | S754_zero _ | S754_finite _ _ _ => true
  | _ => false
  end.

(** A natural number as a binary64 number. *)
Definition number (n : nat) : spec_float := binary_normalize 53 1024 (Z.of_nat n) 0 false.

(** [x] rounded to an integer, the larger one when two are as near, as
    decimal digits after the sign. *)
Definition integer_text (x : spec_float) : string :=
  match x with
  | S754_nan => "NaN"
  | S754_infinity s => if s then "-Infinity" else "Infinity"
  | _ => (if negative x then "-" else "") +:+ pretty (Qfloor (magnitude x + (1 # 2)))
  end.


(** The digits of [n] hundredths: the units, a point, two decimals. *)
Definition two_decimals (n : Z) : string :=
  pretty (n / 100) +:+ "." +:+ pretty ((n / 10) mod 10) +:+ pretty (n mod 10).

(** What a number counts as in a sum: itself, and 0 when it is [NaN] (or
    a zero of either sign). *)
Definition counted (x : spec_float) : spec_float :=
  match x with
  | S754_nan | S754_zero _ => S754_zero false
  | _ => x
  end.

(** The sum of the numbers of a list in binary64, taken in the order of
    the list: the sum of no number is 0, and the sum of a list followed by
    [x] is the sum of the list plus [x]. *)
Definition sum (l : list spec_float) : spec_float :=
  foldr (λ x s, SFadd 53 1024 s x) (S754_zero false) (rev l).

(** The number in the amount field of a transaction: the number stored, or
    the number a stored text begins with; [NaN] when there is none. *)
Definition amount_number (t : Script.transaction) : spec_float :=
  match Script.amount t with
  | Script.Number x => x
  | Script.Text s => parseFloat s
  | Script.Undefined => S754_nan
  end.

(** The sum of the amounts of the transactions of type [expense], an
    amount that is not a number counting as 0. *)
Definition expense_total (ts : list Script.transaction) : spec_float :=
  sum (map (λ t, counted (amount_number t))
           (filter (λ t, Script.type t = "expense") ts)).



(** The amount of an expense; [NaN] when it has none. *)
Definition amount_of (e : App.expense) : spec_float :=
  match App.amount e with
  | Some x => x
  | None => S754_nan
  end.

(** The sum of the amounts of all expenses, an amount that is missing or
    not a number counting as 0. *)
Definition total_spent (es : list App.expense) : spec_float :=
  sum (map (λ e, counted (amount_of e)) es).

(** The sum of the amounts of exactly the expenses whose category is [c]. *)
Definition category_total (c : string) (es : list App.expense) : spec_float :=
  sum (map amount_of (filter (λ e, App.expense_category e = c) es)).

(** The integer a binary64 number is printed as by [toFixed(0)], when it
    is not negative and finite. *)
Definition printed (x : spec_float) : option Z :=
  match x with
  | S754_zero _ => Some 0
  | S754_finite false m e => Some (nearest m e)
  | _ => None
  end.

(** Whether the progress of [c] completed tasks out of [t] prints an
    integer nearest to [100 * c / t] (either one on a tie). *)
Definition nearest_percent (c t : nat) : bool :=
  match printed (fmul (fdiv (float_of_nat c) (float_of_nat t)) (float_of_nat 100)) with
  | Some n => 2 * Z.abs (n * Z.of_nat t - 100 * Z.of_nat c) <=? Z.of_nat t
  | None => false
  end.

(** The same for every [c <= t] with [1 <= t <= bound]. *)
Definition nearest_percent_upto (bound : nat) : bool :=
  forallb (λ t, forallb (λ c, nearest_percent c t) (seq 0 (S t))) (seq 1 bound).

(** The statuses of the data model: To Do, In Progress, Reviewing,
    Completed, and the legacy Blocked and Done. *)
Definition task_statuses : list string :=
  ["To Do"; "In Progress"; "Reviewing"; "Completed"; "Blocked"; "Done"].

(** The same with the [Ready for Review] of the editing modal. *)
Definition task_statuses_of_modal : list string :=
  "Ready for Review" :: task_statuses.

End Spec.

(** ** Sample data *)

Module Samples.

Import JS.

Definition fb : App.firebase := {| App.db := true; App.firebaseUser := Some "u1" |}.

Definition task (status : string) : App.task :=
  {| App.task_name := "Jump mechanic"; App.task_description := "Double jump";
     App.assignee := "Unassigned"; App.dueDate := None; App.priority := "Medium";
     App.task_role := "Scripting"; App.task_status := status;
     App.task_createdAt := "2025-01-01"; App.createdBy := "u1";
     App.updatedAt := None |}.

Definition project : App.project :=
  {| App.name := "Pixel Tycoon"; App.description := "A tycoon game";
     App.targetReleaseDate := "2025-12-01"; App.initialBudget := Some (float_of_nat 100);
     App.createdAt := "2025-01-01"; App.status := "Planning";
     App.progress := Some "0%";
     App.teamMembers :=
       [ {| App.userId := "u1"; App.role := "Owner"; App.displayName := "You" |} ];
     App.budgetCategories :=
       Some [ {| App.cat_name := "General"; App.allocatedAmount := float_of_nat 100 |} ] |}.

Definition store : App.store :=
  {| App.projects := {[ "p1" := project ]};
     App.tasks := {[ ("p1", "t1") := task "In Progress" ]};
     App.activityLogs := [] |}.


Definition taskForm : App.CreateTaskForm :=
  {| App.taskName := "Build lobby"; App.ct_description := EmptyString;
     App.ct_assignee := EmptyString; App.ct_dueDate := "2025-06-01";
     App.ct_priority := "Medium"; App.ct_role := "Building" |}.

Definition expense (c : string) (a : nat) : App.expense :=
  {| App.expense_description := "Licence"; App.amount := Some (float_of_nat a);
     App.expense_category := c; App.date := "2025-02-01" |}.

Definition art : App.category := {| App.cat_name := "Art"; App.allocatedAmount := float_of_nat 60 |}.
Definition code : App.category := {| App.cat_name := "Code"; App.allocatedAmount := float_of_nat 40 |}.

(** A budget of 100 split 60/40, with three expenses. *)
Definition overview : App.BudgetOverview :=
  App.onExpensesSnapshot [expense "Art" 30; expense "Code" 20; expense "Art" 15]
    (App.mount (Some [art; code]) (Some (float_of_nat 100))).

(** The same budget overspent. *)
Definition overspent : App.BudgetOverview :=
  App.onExpensesSnapshot [expense "Art" 90; expense "Code" 20]
    (App.mount (Some [art; code]) (Some (float_of_nat 100))).

(** A category with a name every object inherits, and one expense of 20
    on it. *)
Definition builder : App.category :=
  {| App.cat_name := "constructor"; App.allocatedAmount := float_of_nat 40 |}.

Definition inherited : App.BudgetOverview :=
  App.onExpensesSnapshot [expense "constructor" 20]
    (App.mount (Some [art; builder]) (Some (float_of_nat 100))).

(** An expense without an amount, between two expenses on art. *)
Definition noAmount (c : string) : App.expense :=
  {| App.expense_description := "Refund"; App.amount := None;
     App.expense_category := c; App.date := "2025-02-02" |}.

Definition interrupted : App.BudgetOverview :=
  App.onExpensesSnapshot [expense "Art" 30; noAmount "Art"; expense "Art" 15]
    (App.mount (Some [art; code]) (Some (float_of_nat 100))).

(** A budget of 0.3 with expenses of 0.1 and 0.2. *)
Definition cents : App.BudgetOverview :=
  App.onExpensesSnapshot
    [ {| App.expense_description := "Sticker"; App.amount := Some (parseFloat "0.1");
         App.expense_category := "Art"; App.date := "2025-02-01" |};
      {| App.expense_description := "Badge"; App.amount := Some (parseFloat "0.2");
         App.expense_category := "Art"; App.date := "2025-02-02" |} ]
    (App.mount (Some [art; code]) (Some (parseFloat "0.3"))).



Definition session : Script.session :=
  {| Script.appId := "devhub"; Script.db := true; Script.currentUserId := Some "u1";
     Script.currentProjectId := Some "p1" |}.

Definition transaction (ty : string) (a : Script.value) : Script.transaction :=
  {| Script.description := "Asset pack"; Script.amount := a;
     Script.date := "2025-02-01"; Script.category := "Art"; Script.type := ty;
     Script.createdAt := Some "2025-02-01T10:00:00.000Z" |}.

(** Four transactions: 12.5 spent (stored as text), 7 earned, one expense
    without an amount, 21 spent. *)
Definition snapshot : list Script.transaction :=
  [ transaction "expense" (Script.Text "12.5");
    transaction "income" (Script.Number (float_of_nat 7));
    transaction "expense" Script.Undefined;
    transaction "expense" (Script.Number (float_of_nat 21)) ].

(** Two expenses of 0.1 and 0.2. *)
Definition dimes : list Script.transaction :=
  [ transaction "expense" (Script.Text "0.1");
    transaction "expense" (Script.Number (parseFloat "0.2")) ].

(** The task editing modal opened on a task in progress, the third status
    option picked. *)
Definition modal : App.TaskDetailModal :=
  App.onChanges [App.SelectStatus 2]
    (App.onTaskSnapshot (Some (task "In Progress")) App.openModal).

Definition page : Script.dom :=
  {| Script.totalBudgetInput := Assigned (float_of_nat 200);
     Script.budgetSpentInput := Assigned zero;
     Script.currencySymbolSelect := "$";
     Script.budgetPercentageSpan := "0.0%";
     Script.budgetProgressBar_width := zero;
     Script.budgetProgressBar_red := false;
     Script.budgetCategoriesContainer :=
       [ {| Script.nameInput := "Art"; Script.amountInput := Assigned (float_of_nat 120) |} ];
     Script.transactionCategorySelect_options := [EmptyString; "Art"; "Other"];
     Script.messageBox := None |}.

Definition emptyBudgetPage : Script.dom :=
  {| Script.totalBudgetInput := Typed "0";
     Script.budgetSpentInput := Assigned (float_of_nat 50);
     Script.currencySymbolSelect := "$";
     Script.budgetPercentageSpan := EmptyString;
     Script.budgetProgressBar_width := zero;
     Script.budgetProgressBar_red := false;
     Script.budgetCategoriesContainer := [];
     Script.transactionCategorySelect_options := [];
     Script.messageBox := None |}.

(** The budget page with a total and a spent amount typed in. *)
Definition budgetPage (total spent : string) : Script.dom :=
  {| Script.totalBudgetInput := Typed total;
     Script.budgetSpentInput := Typed spent;
     Script.currencySymbolSelect := "$";
     Script.budgetPercentageSpan := EmptyString;
     Script.budgetProgressBar_width := zero;
     Script.budgetProgressBar_red := false;
     Script.budgetCategoriesContainer := [];
     Script.transactionCategorySelect_options := [];
     Script.messageBox := None |}.

Definition transactionForm (descr amount date : string) : Script.transactionForm :=
  {| Script.transactionDescriptionInput := descr;
     Script.transactionAmountInput := amount;
     Script.transactionDateInput := date;
     Script.transactionCategorySelect := "Art";
     Script.transactionTypeExpenseRadio := true |}.

Definition collection : gmap string Script.transaction :=
  {[ "x1" := transaction "expense" (Script.Number (float_of_nat 30)) ]}.

Definition legacyPage : Legacy.dom :=
  {| Legacy.totalBudgetInput := Assigned (float_of_nat 100);
     Legacy.budgetSpentInput := Assigned (float_of_nat 30);
     Legacy.budgetPercentageSpan := "30.0%";
     Legacy.budgetProgressBar_width := float_of_nat 30;
     Legacy.budgetCategoriesContainer :=
       [ {| Legacy.nameInput := "Art"; Legacy.amountInput := Assigned (float_of_nat 30) |} ] |}.

End Samples.

(** ** More of script.js: deleting transactions, the task form, the team,
    the selection of a project *)

Module Markup.

(** Whether an attribute written as [value="${s}"] into the markup of a
    row gives the input the value [s] itself: [s] has no double quote, no
    ampersand, no line break and no NUL. *)
Definition attribute_safe (s : string) : bool :=
  forallb (λ c, negb (bool_decide (nat_of_ascii c ∈ [0; 10; 13; 34; 38]%nat)))
          (list_ascii_of_string s).

End Markup.

Module Transactions.

Import JS Script.

Inductive deletion :=
  | Cancelled       (* the confirmation was dismissed *)
  | NotReady        (* confirmed, but no project, database or user *)
  | Deleted
  | DeleteFailed.   (* [Error]: failed to delete the transaction *)

(** [deleteTransaction]: after the confirmation box, and inside the
    [try], the reference of the document is taken from
    [transactions_path] and the id; then [deleteDoc] of the document
    (which succeeds whether or not the document exists). *)
Definition deleteTransaction (s : session) (confirmed : bool) (transactionId : string)
    (transactions : gmap string transaction) : gmap string transaction * deletion :=
  if confirmed then
    if ready s then
      if Firestore.doc (transactions_path s) transactionId
      then (delete transactionId transactions, Deleted)
      else (transactions, DeleteFailed)
    else (transactions, NotReady)
  else (transactions, Cancelled).

End Transactions.

Module Tasks.

Import JS Script.

(** A task document of script.js.  Documents written by the older
    devhub.js have no [role]. *)
Record taskDoc := {
  name : string;
  description : string;
  status : string;
  priority : string;
  assignee : string;
  dueDate : string;
  role : option string;
  progress : option string;
  createdAt : option string
}.

(** The values of the inputs of the task form. *)
Record taskForm := {
  taskNameInput : string;
  taskDescriptionInput : string;
  taskStatusSelect : string;
  taskPrioritySelect : string;
  taskAssigneeInput : string;
  taskDueDateInput : string;
  taskRoleSelect : string
}.

Inductive outcome :=
  | NoProject          (* [Please select a project first.] *)
  | NotAuthenticated   (* [User not authenticated.] *)
  | NameRequired       (* [Task Name is required.] *)
  | TaskUpdated
  | TaskAdded
  | SaveFailed.

(** The document [updateDoc(taskDocRef, taskData)] leaves: the seven fields
    of the form, the other fields as stored. *)
Definition written (f : taskForm) (progress createdAt : option string) : taskDoc :=
  {| name := trim (taskNameInput f);
     description := trim (taskDescriptionInput f);
     status := taskStatusSelect f;
     priority := taskPrioritySelect f;
     assignee := trim (taskAssigneeInput f);
     dueDate := taskDueDateInput f;
     role := Some (taskRoleSelect f);
     progress := progress;
     createdAt := createdAt |}.

(** [handleTaskFormSubmission] on the tasks collection of the current
    project, whose reference is taken first inside the [try]. *)
Definition handleTaskFormSubmission (s : session) (isEditingTask : bool)
    (currentEditingTaskId : option string) (f : taskForm) (now newId : string)
    (tasks : gmap string taskDoc) : gmap string taskDoc * outcome :=
  if negb (truthy_id (currentProjectId s)) then (tasks, NoProject)
  else if negb (db s && truthy_id (currentUserId s)) then (tasks, NotAuthenticated)
  else if negb (truthy_string (trim (taskNameInput f))) then (tasks, NameRequired)
  else if negb (Firestore.collection (project_path s ++ ["tasks"])) then (tasks, SaveFailed)
  else
    let added := (<[newId := written f (Some "0%") (Some now)]> tasks, TaskAdded) in
    match (if isEditingTask then currentEditingTaskId else None) with
    | Some id =>
        if truthy_string id then
          match tasks !! id with
          | Some old => (<[id := written f (progress old) (createdAt old)]> tasks, TaskUpdated)
          | None => (tasks, SaveFailed)
          end
        else added
    | None => added
    end.

End Tasks.

Module Team.

Import JS Script.

Record memberDoc := {
  email : string;
  role : string;
  name : string;
  invitedAt : string
}.

(** [s.split(c)[0]]: the part of [s] before the first [c]. *)
Fixpoint before (c : ascii) (s : string) : string :=
  match s with
  | String x r => if Ascii.eqb x c then EmptyString else String x (before c r)
  | EmptyString => EmptyString
  end.

Inductive invitation :=
  | NoProjectSelected
  | Unauthenticated
  | EmailRequired
  | Invited
  | InviteFailed.

(** [handleInviteTeamMember] on the team collection of the current
    project; the arguments are the values of the email and role inputs. *)
Definition handleInviteTeamMember (s : session) (memberEmailInput memberRoleInput : string)
    (now newId : string) (team : gmap string memberDoc) : gmap string memberDoc * invitation :=
  if negb (truthy_id (currentProjectId s)) then (team, NoProjectSelected)
  else if negb (db s && truthy_id (currentUserId s)) then (team, Unauthenticated)
  else
    let memberEmail := trim memberEmailInput in
    let memberRole := trim memberRoleInput in
    let memberName := before "@" memberEmail in
    if negb (truthy_string memberEmail) then (team, EmailRequired)
    else if negb (Firestore.collection (project_path s ++ ["team"])) then (team, InviteFailed)
    else (<[newId := {| email := memberEmail; role := memberRole;
                        name := memberName; invitedAt := now |}]> team, Invited).

(** The name shown on the card of a member: [member.name || 'Unknown']. *)
Definition card_name (m : memberDoc) : string :=
  if truthy_string (name m) then name m else "Unknown".

End Team.

Module Navigation.

Import JS.

(** A running database listener, and the project it listens to. *)
Inductive listener :=
  | TasksOf (projectId : string)
  | BudgetOf (projectId : string)
  | TransactionsOf (projectId : string)
  | TeamOf (projectId : string).

Definition project_of (l : listener) : string :=
  match l with
  | TasksOf p | BudgetOf p | TransactionsOf p | TeamOf p => p
  end.

(** The globals of the page and what [switchView] last showed. *)
Record page := {
  appId : string;
  db : bool;
  currentUserId : option string;
  currentProjectId : option string;
  unsubscribeProjectListeners : list listener;
  view : string;           (* the id given to [switchView] *)
  sidebarHidden : bool;
  messageBox : option (string * string)
}.

Definition with_listeners (ls : list listener) (p : page) : page :=
  {| appId := appId p; db := db p; currentUserId := currentUserId p;
     currentProjectId := currentProjectId p;
     unsubscribeProjectListeners := ls;
     view := view p; sidebarHidden := sidebarHidden p; messageBox := messageBox p |}.

Definition with_message (title text : string) (p : page) : page :=
  {| appId := appId p; db := db p; currentUserId := currentUserId p;
     currentProjectId := currentProjectId p;
     unsubscribeProjectListeners := unsubscribeProjectListeners p;
     view := view p; sidebarHidden := sidebarHidden p;
     messageBox := Some (title, text) |}.

(** [switchView]: the view is shown, the sidebar only beside a project
    view. *)
Definition switchView (viewId : string) (p : page) : page :=
  {| appId := appId p; db := db p; currentUserId := currentUserId p;
     currentProjectId := currentProjectId p;
     unsubscribeProjectListeners := unsubscribeProjectListeners p;
     view := viewId;
     sidebarHidden := negb (String.prefix "project-" viewId);
     messageBox := messageBox p |}.

Definition unsubscribeAllProjectListeners (p : page) : page := with_listeners [] p.

Definition authenticated (p : page) : bool := (db p && Script.truthy_id (currentUserId p))%bool.

(** [artifacts/${appId}/users/${currentUserId}/projects/${projectId}] *)
Definition project_path (projectId : string) (p : page) : list string :=
  [ "artifacts"; appId p; "users"; Script.id_text (currentUserId p);
    "projects"; projectId ].

(** [loadProjectTasks], [loadProjectBudget] and [loadProjectTeam]: each
    returns at once without database, user or project id; otherwise it
    takes its references ([refs] tells whether none of them throws) and
    then registers its listeners. *)
Definition load (refs : bool) (ls : list listener) (projectId : string) (p : page) : page :=
  if (authenticated p && truthy_string projectId)%bool
  then if refs then with_listeners (unsubscribeProjectListeners p ++ ls) p else p
  else p.

Definition loadProjectTasks (projectId : string) (p : page) : page :=
  load (Firestore.collection (project_path projectId p ++ ["tasks"]))
       [TasksOf projectId] projectId p.

(** The reference of the budget document is taken, then the one of the
    transactions, and only then the two listeners are registered. *)
Definition loadProjectBudget (projectId : string) (p : page) : page :=
  load (Firestore.doc (project_path projectId p ++ ["budget"]) "main_budget"
        && Firestore.collection (project_path projectId p ++ ["budget"; "transactions"]))
       [BudgetOf projectId; TransactionsOf projectId] projectId p.

Definition loadProjectTeam (projectId : string) (p : page) : page :=
  load (Firestore.collection (project_path projectId p ++ ["team"]))
       [TeamOf projectId] projectId p.

(** What [getDoc] of the project gives. *)
Inductive fetched :=
  | Found
  | Missing
  | Refused.

(** [selectProject] up to its [await]: the listeners are dropped, the
    project becomes the current one, the overview is shown.  The result
    tells whether the function goes on. *)
Definition selectProject_begin (projectId : string) (p : page) : page * bool :=
  if authenticated p then
    let p1 := unsubscribeAllProjectListeners p in
    let p2 :=
      {| appId := appId p1; db := db p1; currentUserId := currentUserId p1;
         currentProjectId := Some projectId;
         unsubscribeProjectListeners := unsubscribeProjectListeners p1;
         view := view p1; sidebarHidden := sidebarHidden p1;
         messageBox := messageBox p1 |} in
    (switchView "project-overview-view" p2, true)
  else (with_message "Error" "User not authenticated. Please refresh the page." p, false).

(** [selectProject] after its [await]. *)
Definition selectProject_resume (projectId : string) (r : fetched) (p : page) : page :=
  match r with
  | Found => loadProjectTeam projectId (loadProjectBudget projectId (loadProjectTasks projectId p))
  | Missing => switchView "dashboard-view" (with_message "Error" "Project not found." p)
  | Refused =>
      (* the text is followed by the message of the error *)
      switchView "dashboard-view" (with_message "Error" "Failed to load project details. " p)
  end.

(** [selectProject] with nothing happening during its [await]. *)
Definition selectProject (projectId : string) (r : fetched) (p : page) : page :=
  let '(p1, goes_on) := selectProject_begin projectId p in
  if goes_on then selectProject_resume projectId r p1 else p1.

(** What the user does: picks a project card (creating a project selects
    the new project in the same way), clicks [My Projects], or clicks the
    navigation button of a section. *)
Inductive click :=
  | ProjectCard (projectId : string) (r : fetched)
  | ShowMyProjects
  | NavButton (section : string).

Definition on_click (c : click) (p : page) : page :=
  match c with
  | ProjectCard projectId r => selectProject projectId r p
  | ShowMyProjects => unsubscribeAllProjectListeners (switchView "dashboard-view" p)
  | NavButton section =>
      if Script.truthy_id (currentProjectId p)
      then switchView (String.app "project-" (String.app section "-view")) p
      else with_message "Information" "Please select a project first from the dashboard." p
  end.

Definition clicks (cs : list click) (p : page) : page :=
  fold_left (λ p c, on_click c p) cs p.

(** Every running listener is one of the current project, and there are
    at most four. *)
Definition tidy (p : page) : Prop :=
  (∀ l, l ∈ unsubscribeProjectListeners p → currentProjectId p = Some (project_of l))
  ∧ (length (unsubscribeProjectListeners p) ≤ 4)%nat.

(** Two selections overlapping: the second click arrives while the first
    [getDoc] is pending, then both answers arrive in order. *)
Definition overlapping (a b : string) (p : page) : page :=
  let p1 := fst (selectProject_begin a p) in
  let p2 := fst (selectProject_begin b p1) in
  selectProject_resume b Found (selectProject_resume a Found p2).

End Navigation.

(** ** More of the React application: the task board, the categories
    form, the team *)

Module Board.

Import JS App.

(** The columns of the board. *)
Definition roles : list string :=
  ["Scripting"; "Building"; "Modelling"; "UI"; "VFX"; "General"].

(** The tasks listener: the documents of the tasks collection of the
    project, each with its id. *)
Definition fetchedTasks (projectId : string) (st : store) : list (string * task) :=
  omap (λ kt : string * string * task,
          if decide (kt.1.1 = projectId) then Some (kt.1.2, kt.2) else None)
       (map_to_list (tasks st)).

(** [tasks.filter(task => task.role === role)] *)
Definition column (role : string) (tasks : list (string * task)) : list (string * task) :=
  filter (λ t, task_role t.2 = role) tasks.

(** The columns in the order of the board, each with its cards. *)
Definition columns (tasks : list (string * task)) : list (string * list (string * task)) :=
  (λ role, (role, column role tasks)) <$> roles.

(** [updateDoc(taskDocRef, { role: newRole })] on the document. *)
Definition set_role (newRole : string) (t : task) : task :=
  {| task_name := task_name t; task_description := task_description t;
     assignee := assignee t; dueDate := dueDate t; priority := priority t;
     task_role := newRole; task_status := task_status t;
     task_createdAt := task_createdAt t; createdBy := createdBy t;
     updatedAt := updatedAt t |}.

(** [updateTaskRole], called when a card is dropped on the column of
    [newRole]: the role is written (the document must exist), then a log
    entry is added.  Without database, user or project nothing is done. *)
Definition updateTaskRole (fb : firebase) (projectId taskId newRole taskName now : string)
    (st : store) : store * submitted :=
  match authenticated fb with
  | None => (st, Ignored)
  | Some uid =>
      if truthy_string projectId then
        match (if truthy_string taskId then tasks st !! (projectId, taskId) else None) with
        | Some t =>
            ({| projects := projects st;
                tasks := <[(projectId, taskId) := set_role newRole t]> (tasks st);
                activityLogs :=
                  activityLogs st ++
                  [log_entry projectId now "Task Role Changed"
                     (String.app "Task "
                        (String.app (quoted taskName)
                           (String.app " moved to " (String.app (quoted newRole) " role."))))
                     uid] |}, Saved)
        | None => (st, Failed)
        end
      else (st, Ignored)
  end.

End Board.

Module TaskDetail.

Import JS App.

(** What [updateDoc] of the modal leaves of a task whose fields were not
    edited: only [updatedAt] is new. *)
Definition set_updatedAt (now : string) (t : task) : task :=
  {| task_name := task_name t; task_description := task_description t;
     assignee := assignee t; dueDate := dueDate t; priority := priority t;
     task_role := task_role t; task_status := task_status t;
     task_createdAt := task_createdAt t; createdBy := createdBy t;
     updatedAt := Some now |}.

(** The modal as its listener fills it for the stored task. *)
Definition opened (t : task) : TaskDetailModal := onTaskSnapshot (Some t) openModal.

Definition leap (y : Z) : bool :=
  ((y mod 4 =? 0) && negb (y mod 100 =? 0)) || (y mod 400 =? 0).

Definition days_in_month (y m : Z) : Z :=
  if (m =? 2) then (if leap y then 29 else 28)
  else if (m =? 4) || (m =? 6) || (m =? 9) || (m =? 11) then 30
  else 31.

(** Whether [s] is a value a date input gives when a date is picked:
    [YYYY-MM-DD], a day of the calendar.  These are the strings [d] for
    which [new Date(d).toISOString()] is [toISOString d]. *)
Definition is_date (s : string) : bool :=
  match list_ascii_of_string s with
  | [y1; y2; y3; y4; s1; m1; m2; s2; d1; d2] =>
      match digit_of y1, digit_of y2, digit_of y3, digit_of y4,
            digit_of m1, digit_of m2, digit_of d1, digit_of d2 with
      | Some a, Some b, Some c, Some d, Some e, Some f, Some g, Some h =>
          let y := 1000 * a + 100 * b + 10 * c + d in
          let m := 10 * e + f in
          let day := 10 * g + h in
          Ascii.eqb s1 "-" && Ascii.eqb s2 "-"
          && (1 <=? m) && (m <=? 12) && (1 <=? day) && (day <=? days_in_month y m)
      | _, _, _, _, _, _, _, _ => false
      end
  | _ => false
  end.

End TaskDetail.

Module Categories.

Import JS App.

(** [Array.prototype.findIndex], [None] for [-1]. *)
Fixpoint findIndex {A : Type} (p : A → bool) (l : list A) : option nat :=
  match l with
  | [] => None
  | x :: r => if p x then Some 0%nat else S <$> findIndex p r
  end.

Definition blank : category := {| cat_name := EmptyString; allocatedAmount := zero |}.

Definition addCategory (categories : list category) : list category :=
  categories ++ [blank].

(** [categories.filter((_, i) => i !== index)] *)
Definition removeCategory (index : nat) (categories : list category) : list category :=
  (filter (λ ic : nat * category, ic.1 ≠ index) (imap pair categories)).*2.

Inductive validation :=
  | EmptyName        (* [Category names cannot be empty.] *)
  | DuplicateName    (* [Duplicate category names are not allowed.] *)
  | Accepted.        (* [onSave(categories)] is called *)

Section EditBudgetCategoriesForm.

(** [String.prototype.toLowerCase] of the host. *)
Variable toLowerCase : string → string.

(** The categories that are not the first of their lower-cased name. *)
Definition duplicateCategories (categories : list category) : list category :=
  (filter (λ ic : nat * category,
             Some ic.1 ≠ findIndex (λ t, String.eqb (toLowerCase (cat_name t))
                                                    (toLowerCase (cat_name ic.2)))
                                   categories)
          (imap pair categories)).*2.

(** The checks of [handleSubmit]. *)
Definition handleSubmit (categories : list category) : validation :=
  if existsb (λ cat, negb (truthy_string (cat_name cat))
                     || String.eqb (trim (cat_name cat)) EmptyString) categories
  then EmptyName
  else if (0 <? length (duplicateCategories categories))%nat then DuplicateName
  else Accepted.

End EditBudgetCategoriesForm.

End Categories.

Module TeamManagement.

Import JS App.

(** Equality of two stored members, field by field. *)
Definition member_eqb (a b : member) : bool :=
  (String.eqb (userId a) (userId b) && String.eqb (role a) (role b)
   && String.eqb (displayName a) (displayName b))%bool.

(** [arrayUnion(m)] on the stored array: the element is added at the end
    unless an equal element is there. *)
Definition arrayUnion (m : member) (l : list member) : list member :=
  if existsb (member_eqb m) l then l else l ++ [m].

Inductive added :=
  | ContextMissing   (* [Authentication or project context is missing.] *)
  | AlreadyMember    (* [User is already a member of this project.] *)
  | MemberAdded
  | AddFailed.

Definition set_teamMembers (l : list member) (p : project) : project :=
  {| name := name p; description := description p;
     targetReleaseDate := targetReleaseDate p;
     initialBudget := initialBudget p; createdAt := createdAt p;
     status := status p; progress := progress p;
     teamMembers := l;
     budgetCategories := budgetCategories p |}.

(** [handleAddMember].  [props_teamMembers] is the [teamMembers] prop of
    the component, the team as the project listener last delivered it. *)
Definition handleAddMember (fb : firebase) (projectId : string)
    (props_teamMembers : list member) (m : member) (now : string) (st : store)
    : store * added :=
  match authenticated fb with
  | None => (st, ContextMissing)
  | Some uid =>
      if negb (truthy_string projectId) then (st, ContextMissing)
      else if existsb (λ member, String.eqb (userId member) (userId m)) props_teamMembers
      then (st, AlreadyMember)
      else
        match projects st !! projectId with
        | None => (st, AddFailed)
        | Some p =>
            let shown := if truthy_string (displayName m) then displayName m else userId m in
            ({| projects :=
                  <[projectId := set_teamMembers (arrayUnion m (teamMembers p)) p]> (projects st);
                tasks := tasks st;
                activityLogs :=
                  activityLogs st ++
                  [log_entry projectId now "Team Member Added"
                     (String.app "User "
                        (String.app (quoted shown)
                           (String.app " joined the team as "
                              (String.app (quoted (role m)) "."))))
                     uid] |}, MemberAdded)
        end
  end.

End TeamManagement.

(** ** More sample data *)

Module MoreSamples.

Import JS.

(** A budget of 100 of which 150 is spent. *)
Definition overBudgetPage : Script.dom :=
  {| Script.totalBudgetInput := Typed "100";
     Script.budgetSpentInput := Assigned (float_of_nat 150);
     Script.currencySymbolSelect := "$";
     Script.budgetPercentageSpan := "0.0%";
     Script.budgetProgressBar_width := zero;
     Script.budgetProgressBar_red := false;
     Script.budgetCategoriesContainer := [];
     Script.transactionCategorySelect_options := [];
     Script.messageBox := None |}.

(** The sample page with four category rows: a name with blanks around
    it, a name of a no-break space and a blank, an amount the script
    assigned, an amount that is no number. *)
Definition categoryRows : Script.dom :=
  Script.set_rows
    [ {| Script.nameInput := "  Art "; Script.amountInput := Typed "12.5" |};
      {| Script.nameInput := String (ascii_of_nat 160) " ";
         Script.amountInput := Typed "3" |};
      {| Script.nameInput := "Code"; Script.amountInput := Assigned (float_of_nat 40) |};
      {| Script.nameInput := "Fx"; Script.amountInput := Typed "abc" |} ]
    Samples.page.

Definition taskForm : Tasks.taskForm :=
  {| Tasks.taskNameInput := " Build lobby ";
     Tasks.taskDescriptionInput := "Spawn area";
     Tasks.taskStatusSelect := "In Progress";
     Tasks.taskPrioritySelect := "High";
     Tasks.taskAssigneeInput := "Ana";
     Tasks.taskDueDateInput := "2025-06-01";
     Tasks.taskRoleSelect := "Building" |}.

Definition taskDoc : Tasks.taskDoc :=
  {| Tasks.name := "Lobby"; Tasks.description := EmptyString;
     Tasks.status := "To Do"; Tasks.priority := "Low";
     Tasks.assignee := EmptyString; Tasks.dueDate := EmptyString;
     Tasks.role := None; Tasks.progress := Some "40%";
     Tasks.createdAt := Some "2025-01-01T09:00:00.000Z" |}.

Definition taskCollection : gmap string Tasks.taskDoc := {[ "t1" := taskDoc ]}.

Definition team : gmap string Team.memberDoc :=
  {[ "m1" := {| Team.email := "lee@studio.dev"; Team.role := "Builder";
                Team.name := "lee"; Team.invitedAt := "2025-01-01T09:00:00.000Z" |} ]}.

(** The page of a signed-in user before a project is picked. *)
Definition dashboard : Navigation.page :=
  {| Navigation.appId := "devhub"; Navigation.db := true;
     Navigation.currentUserId := Some "u1";
     Navigation.currentProjectId := None;
     Navigation.unsubscribeProjectListeners := [];
     Navigation.view := "dashboard-view"; Navigation.sidebarHidden := true;
     Navigation.messageBox := None |}.

Definition clicks : list Navigation.click :=
  [ Navigation.ProjectCard "p1" Navigation.Found; Navigation.NavButton "budget";
    Navigation.ProjectCard "p2" Navigation.Found; Navigation.ShowMyProjects;
    Navigation.ProjectCard "p3" Navigation.Missing; Navigation.NavButton "tasks" ].

Definition card (id role : string) : string * App.task :=
  (id, Board.set_role role (Samples.task "To Do")).

(** Three tasks, one of them with a role that is no column. *)
Definition boardTasks : list (string * App.task) :=
  [ card "t1" "UI"; card "t2" "Audio"; card "t3" "Scripting" ].

(** Lower case for the letters A to Z. *)
Definition lower (c : ascii) : ascii :=
  let n := nat_of_ascii c in
  if ((65 <=? n) && (n <=? 90))%nat then ascii_of_nat (n + 32) else c.

Fixpoint toLowerCase (s : string) : string :=
  match s with
  | EmptyString => EmptyString
  | String c r => String (lower c) (toLowerCase r)
  end.

Definition newcomer : App.member :=
  {| App.userId := "u2"; App.role := "Member"; App.displayName := "Ana" |}.

(** The owner of the sample project under another role. *)
Definition owner_as_admin : App.member :=
  {| App.userId := "u1"; App.role := "Admin"; App.displayName := "You" |}.

(** A task as script.js stores it, with a plain due date. *)
Definition plainTask : App.task :=
  {| App.task_name := "Jump mechanic"; App.task_description := "Double jump";
     App.assignee := "Unassigned"; App.dueDate := Some "2025-06-01";
     App.priority := "Medium"; App.task_role := "Scripting";
     App.task_status := "To Do"; App.task_createdAt := "2025-01-01";
     App.createdBy := "u1"; App.updatedAt := None |}.

Definition plainStore : App.store :=
  {| App.projects := {[ "p1" := Samples.project ]};
     App.tasks := {[ ("p1", "t1") := plainTask ]};
     App.activityLogs := [] |}.

End MoreSamples.

(** * Properties *)

(** ** Numbers and their text *)

Section Numbers.

Import JS.

Lemma or0_counted (x : spec_float) : or0 x = Spec.counted x.
Proof. by destruct x. Qed.

(** The running total of a left fold is the sum in the order of the list. *)
Lemma fold_left_sum (l : list spec_float) :
  fold_left fadd l zero = Spec.sum l.
Proof.
  unfold Spec.sum. rewrite <- fold_left_rev_right. reflexivity.
Qed.

Lemma fold_left_sum_map {A} (f : A → spec_float) (l : list A) :
  fold_left (λ s a, fadd s (f a)) l zero = Spec.sum (map f l).
Proof.
  rewrite <- fold_left_sum. generalize zero.
  induction l as [|a l IH]; intros s; [reflexivity|]. cbn. apply IH.
Qed.

Lemma sum_nil : Spec.sum [] = S754_zero false.
Proof. reflexivity. Qed.

Lemma sum_snoc (l : list spec_float) (x : spec_float) :
  Spec.sum (l ++ [x]) = SFadd 53 1024 (Spec.sum l) x.
Proof. unfold Spec.sum. by rewrite rev_app_distr. Qed.



Lemma Qfloor_half (z : Z) : Qfloor (inject_Z z + (1 # 2)) = z.
Proof.
  assert (H : inject_Z z + (1 # 2) == (2 * z + 1) # 2).
  { unfold Qeq, Qplus, inject_Z. cbn. lia. }
  rewrite H. cbn. 
  rewrite Z.add_comm, Z.mul_comm, Z.div_add by lia. reflexivity.
Qed.

Lemma Qpower_2_neg (k : Z) : 0 < k → (2 ^ (- k))%Q == 1 # Z.to_pos (2 ^ k).
Proof.
  intros Hk. rewrite Qpower_opp.
  rewrite <- (Zpower_Qpower 2 k) by lia.
  assert (0 < 2 ^ k) by (apply Z.pow_pos_nonneg; lia).
  destruct (2 ^ k) as [|p|p] eqn:E; try lia.
  reflexivity.
Qed.

(** The integer nearest to [n * 2^e], the larger one on a tie. *)
Lemma nearest_scaled (n e : Z) :
  0 ≤ n →
  (if 0 <=? e then n * 2 ^ e else (n + 2 ^ (- e - 1)) / 2 ^ (- e))
  = Qfloor (inject_Z n * 2 ^ e + (1 # 2)).
Proof.
  intros Hn. destruct (Z.leb_spec 0 e) as [He|He].
  - rewrite <- (Zpower_Qpower 2 e) by lia.
    rewrite <- inject_Z_mult. by rewrite Qfloor_half.
  - set (k := - e). assert (Hk : 0 < k) by lia.
    replace e with (- k) by lia.
    replace (- - k - 1) with (k - 1) by lia. replace (- - k) with k by lia.
    rewrite Qpower_2_neg by lia.
    assert (Hp : 0 < 2 ^ k) by (apply Z.pow_pos_nonneg; lia).
    assert (E2 : 2 ^ k = 2 * 2 ^ (k - 1)).
    { rewrite <- Z.pow_succ_r by lia. f_equal. lia. }
    assert (H : inject_Z n * (1 # Z.to_pos (2 ^ k)) + (1 # 2)
                == (2 * n + 2 ^ k) # (2 * Z.to_pos (2 ^ k))).
    { unfold Qeq, Qplus, Qmult, inject_Z. cbn [Qnum Qden].
      rewrite !Pos2Z.inj_mul, !Z2Pos.id by lia. ring. }
    rewrite H. unfold Qfloor. rewrite Pos2Z.inj_mul, Z2Pos.id by lia.
    replace (2 * n + 2 ^ k) with (2 * (n + 2 ^ (k - 1))) by lia.
    rewrite Z.div_mul_cancel_l by lia. reflexivity.
Qed.

Lemma nearest_floor (m : positive) (e : Z) :
  nearest m e = Qfloor (inject_Z (Z.pos m) * 2 ^ e + (1 # 2)).
Proof. unfold nearest. by apply nearest_scaled. Qed.

Lemma scaled_floor (d : nat) (m : positive) (e : Z) :
  scaled d m e
  = Qfloor (inject_Z (10 ^ Z.of_nat d) * (inject_Z (Z.pos m) * 2 ^ e) + (1 # 2)).
Proof.
  unfold scaled. rewrite nearest_scaled by lia.
  apply Qfloor_comp. rewrite inject_Z_mult. ring.
Qed.

(** [toFixed(0)] prints the number rounded to an integer. *)
Lemma toFixed0_integer_text (x : spec_float) : toFixed0 x = Spec.integer_text x.
Proof.
  destruct x as [s|s| |s m e]; try reflexivity.
  unfold toFixed0, Spec.integer_text, Spec.negative, Spec.magnitude.
  by rewrite nearest_floor.
Qed.


Lemma string_app_assoc (a b c : string) : (a +:+ b) +:+ c = a +:+ (b +:+ c).
Proof.
  induction a as [|x a IH]; [reflexivity|].
  change (String x ((a +:+ b) +:+ c) = String x (a +:+ (b +:+ c))). by rewrite IH.
Qed.

Lemma string_length_app (a b : string) :
  String.length (a +:+ b) = (String.length a + String.length b)%nat.
Proof.
  induction a as [|x a IH]; [reflexivity|].
  change (S (String.length (a +:+ b)) = S (String.length a + String.length b)).
  by rewrite IH.
Qed.

Lemma pretty_N_go_app (x : N) (s : string) :
  pretty_N_go x s = pretty_N_go x EmptyString +:+ s.
Proof.
  revert s. induction (N.lt_wf_0 x) as [x _ IH]; intros s.
  destruct (decide (x = 0)%N) as [->|Hx]; [by rewrite !pretty_N_go_0|].
  rewrite (pretty_N_go_step x s), (pretty_N_go_step x EmptyString) by lia.
  rewrite (IH (x `div` 10)%N) by (apply N.div_lt; lia).
  rewrite (IH (x `div` 10)%N ltac:(apply N.div_lt; lia)
              (String (pretty_N_char (x `mod` 10)) EmptyString)).
  by rewrite string_app_assoc.
Qed.

(** The digits of a number: those of its tenth, unless that is 0, then
    its last digit. *)
Lemma pretty_N_last (x : N) :
  pretty x
  = (if (x <? 10)%N then EmptyString else pretty (x `div` 10)%N)
    +:+ String (pretty_N_char (x `mod` 10)) EmptyString.
Proof.
  unfold pretty at 1, pretty_N. destruct (decide (x = 0)%N) as [->|Hx]; [reflexivity|].
  rewrite pretty_N_go_step, pretty_N_go_app by lia.
  destruct (N.ltb_spec x 10) as [Hlt|Hge].
  - rewrite N.div_small by done. by rewrite pretty_N_go_0.
  - unfold pretty, pretty_N. rewrite decide_False; [done|].
    intros H0. apply N.div_small_iff in H0; lia.
Qed.

Lemma pretty_N_digit (x : N) :
  (x < 10)%N → pretty x = String (pretty_N_char x) EmptyString.
Proof.
  intros Hx. rewrite pretty_N_last. destruct (N.ltb_spec x 10); [|lia].
  by rewrite N.mod_small.
Qed.

Lemma pretty_Z_to_N (n : Z) : 0 ≤ n → pretty (Z.to_N n) = pretty n.
Proof. intros Hn. destruct n; [reflexivity|reflexivity|lia]. Qed.

Lemma pretty_N_length (x : N) : (1 ≤ String.length (pretty x))%nat.
Proof.
  rewrite pretty_N_last, string_length_app. cbn [String.length]. lia.
Qed.

Lemma substring_app_l (p s : string) :
  substring 0 (String.length p) (p +:+ s) = p.
Proof.
  induction p as [|c p IH].
  - by destruct s.
  - change (String c (substring 0 (String.length p) (p +:+ s)) = String c p).
    by rewrite IH.
Qed.

Lemma substring_app_r (p s : string) (n : nat) :
  substring (String.length p) n (p +:+ s) = substring 0 n s.
Proof.
  induction p as [|c p IH]; [reflexivity|].
  change (substring (String.length p) n (p +:+ s) = substring 0 n s). apply IH.
Qed.



(** The text of [toFixed(2)]: the units, a point, two decimals. *)
Lemma fixed_digits_two_decimals (n : Z) :
  0 ≤ n → fixed_digits 2 n = Spec.two_decimals n.
Proof.
  intros Hn. unfold fixed_digits, Spec.two_decimals.
  assert (Hmod : 0 ≤ n mod 10 < 10) by (apply Z.mod_pos_bound; lia).
  assert (Hdiv : 0 ≤ n / 10) by (apply Z.div_pos; lia).
  assert (Hmod' : 0 ≤ n / 10 mod 10 < 10) by (apply Z.mod_pos_bound; lia).
  assert (Hdiv' : 0 ≤ n / 100) by (apply Z.div_pos; lia).
  rewrite <- (pretty_Z_to_N (n / 100)), <- (pretty_Z_to_N (n mod 10)),
          <- (pretty_Z_to_N ((n / 10) mod 10)) by lia.
  repeat (rewrite ?Z2N.inj_mod, ?Z2N.inj_div by lia).
  change (Z.to_N 10) with 10%N. change (Z.to_N 100) with 100%N.
  set (x := Z.to_N n).
  rewrite (pretty_N_digit (x `mod` 10)) by (apply N.mod_lt; lia).
  rewrite (pretty_N_digit ((x `div` 10) `mod` 10)) by (apply N.mod_lt; lia).
  set (c0 := pretty_N_char (x `mod` 10)).
  set (c1 := pretty_N_char ((x `div` 10) `mod` 10)).
  rewrite (pretty_N_last x). fold c0.
  destruct (N.ltb_spec x 10) as [Hlt|Hge].
  - rewrite (N.div_small x 100) by lia.
    assert (E : c1 = "0"%char).
    { unfold c1. by rewrite (N.div_small x 10) by lia. }
    rewrite E. reflexivity.
  - rewrite (pretty_N_last (x `div` 10)). fold c1.
    replace ((x `div` 10) `div` 10)%N with (x `div` 100)%N
      by (rewrite N.Div0.div_div; reflexivity).
    destruct (N.ltb_spec (x `div` 10) 10) as [Hlt'|Hge'].
    + assert (Hx : (x < 100)%N).
      { pose proof (N.div_mod x 10 ltac:(lia)). pose proof (N.mod_lt x 10 ltac:(lia)). lia. }
      rewrite (N.div_small x 100) by exact Hx.
      reflexivity.
    + set (p := pretty (x `div` 100)%N).
      assert (Hp : (1 ≤ String.length p)%nat) by apply pretty_N_length.
      rewrite string_app_assoc.
      unfold pad_left. cbn [pad_go].
      assert (Hlen : String.length (p +:+ String c1 EmptyString +:+ String c0 EmptyString)
                     = S (S (String.length p))).
      { rewrite !string_length_app. cbn [String.length]. lia. }
      rewrite !Hlen.
      destruct (Nat.ltb_spec (S (S (String.length p))) 3) as [Hl|Hl]; [lia|].
      rewrite !Hlen.
      replace (S (S (String.length p)) - 2)%nat with (String.length p) by lia.
      by rewrite substring_app_l, substring_app_r.
Qed.

Lemma shr_1_nonneg (mrs : shr_record) : 0 ≤ shr_m mrs → 0 ≤ shr_m (shr_1 mrs).
Proof. destruct mrs as [[|[p|p|]|p] r s]; cbn; lia. Qed.

Lemma iter_shr_1_nonneg (p : positive) (mrs : shr_record) :
  0 ≤ shr_m mrs → 0 ≤ shr_m (SpecFloat.iter_pos shr_1 p mrs).
Proof.
  revert mrs. induction p as [p IH|p IH|]; intros mrs H; cbn [SpecFloat.iter_pos].
  - by apply IH, IH, shr_1_nonneg.
  - by apply IH, IH.
  - by apply shr_1_nonneg.
Qed.

Lemma shr_fexp_nonneg (m e : Z) (l : location) :
  0 ≤ m → 0 ≤ shr_m (fst (shr_fexp 53 1024 m e l)).
Proof.
  intros Hm. unfold shr_fexp, shr.
  assert (H0 : 0 ≤ shr_m (shr_record_of_loc m l)) by (by destruct l as [|[]]).
  destruct (fexp 53 1024 (Zdigits2 m + e) - e); cbn [fst]; try done.
  by apply iter_shr_1_nonneg.
Qed.

Lemma round_nearest_even_nonneg (m : Z) (l : location) :
  0 ≤ m → 0 ≤ round_nearest_even m l.
Proof. intros Hm. destruct l as [|[]]; cbn; [done| |done|lia]. destruct (Z.even m); lia. Qed.

(** Rounding a magnitude gives a number of the sign asked for. *)
Lemma binary_round_aux_signed (s : bool) (m e : Z) (l : location) :
  0 ≤ m → Spec.signed s (binary_round_aux 53 1024 s m e l).
Proof.
  intros Hm. unfold binary_round_aux.
  pose proof (shr_fexp_nonneg m e l Hm) as H1.
  destruct (shr_fexp 53 1024 m e l) as [mrs' e']. cbn [fst] in H1.
  pose proof (shr_fexp_nonneg _ e' loc_Exact
                (round_nearest_even_nonneg _ (loc_of_shr_record mrs') H1)) as H2.
  destruct (shr_fexp 53 1024 _ e' loc_Exact) as [mrs'' e'']. cbn [fst] in H2.
  destruct (shr_m mrs'') as [|p|p]; [done| |lia].
  by destruct (e'' <=? 1024 - 53).
Qed.





Lemma or0_not_nan (x : spec_float) : or0 x ≠ S754_nan.
Proof. by destruct x. Qed.

Lemma read_number_not_nan (v : input_value) : read_number v ≠ S754_nan.
Proof. destruct v as [s|[]]; try done. apply or0_not_nan. Qed.


(** The sum of two numbers that are not negative is a number that is
    not negative. *)
Lemma SFadd_signed_false (x y : spec_float) :
  Spec.signed false x → Spec.signed false y → Spec.signed false (SFadd 53 1024 x y).
Proof.
  destruct x as [a|a| |a m e], y as [b|b| |b n f]; cbn [Spec.signed]; try done;
    intros -> ->; try done.
  cbn [SFadd cond_Zopp].
  destruct (shl_align m e (Z.min e f)) as [m1 e1], (shl_align n f (Z.min e f)) as [n1 f1].
  cbn [fst]. change (Z.pos m1 + Z.pos n1) with (Z.pos (m1 + n1)).
  cbn [binary_normalize]. unfold binary_round.
  destruct (shl_align _ _ _) as [mz ez].
  by apply binary_round_aux_signed.
Qed.

Lemma counted_signed_false (x : spec_float) : Spec.signed false x → Spec.counted x = x.
Proof. destruct x as [a|a| |a m e]; cbn; try done. by intros ->. Qed.

End Numbers.

Section ProjectProgress.

Import JS App.

Lemma completed_filter (ts : list task) :
  length (filter (λ t, is_completed t = true) ts) = Spec.completed ts.
Proof.
  induction ts as [|t ts IH]; [reflexivity|].
  rewrite filter_cons. simpl. unfold is_completed at 1.
  destruct (decide (task_status t = "Completed")) as [E|E].
  - rewrite decide_True by (apply String.eqb_eq, E). simpl. by rewrite IH.
  - rewrite decide_False by (intros H; apply E, String.eqb_eq, H). exact IH.
Qed.

Lemma progressEffect_ready (fb : firebase) (projectId uid : string)
    (p : project) (ts : list task) :
  authenticated fb = Some uid → truthy_string projectId = true →
  progressEffect fb projectId (Some p) ts =
    if bool_decide (progress p ≠ Some (newProgress ts)) then Some (newProgress ts) else None.
Proof.
  intros Ha Hp. unfold progressEffect. rewrite Ha, Hp.
  destruct ts as [|t ts]; [reflexivity|].
  change (0 <? length (t :: ts))%nat with true. reflexivity.
Qed.

Lemma progressEffect_cached (fb : firebase) (projectId : string)
    (p : project) (ts : list task) :
  progress p = Some (newProgress ts) → progressEffect fb projectId (Some p) ts = None.
Proof.
  intros Hc. unfold progressEffect.
  destruct ts as [|t ts].
  - change (0 <? length [])%nat with false. cbv iota.
    rewrite bool_decide_false; [reflexivity|]. intros H; apply H, Hc.
  - change (0 <? length (t :: ts))%nat with true. cbv iota zeta.
    rewrite bool_decide_false; [reflexivity|]. intros H; apply H, Hc.
Qed.

Lemma progressEffect_value (fb : firebase) (projectId v : string)
    (p : project) (ts : list task) :
  progressEffect fb projectId (Some p) ts = Some v → v = newProgress ts.
Proof.
  unfold progressEffect.
  destruct ts as [|t ts].
  - change (0 <? length [])%nat with false. cbv iota.
    intros H. repeat case_match; try discriminate. by injection H as <-.
  - change (0 <? length (t :: ts))%nat with true. cbv iota zeta.
    intros H. repeat case_match; try discriminate. by injection H as <-.
Qed.

Lemma completed_le_length (ts : list task) : (Spec.completed ts ≤ length ts)%nat.
Proof.
  induction ts as [|t ts IH]; cbn [Spec.completed length]; [lia|].
  destruct (decide (task_status t = "Completed")); lia.
Qed.

Lemma nearest_percent_upto_100 : Spec.nearest_percent_upto 100 = true.
Proof. vm_compute. reflexivity. Qed.

Lemma printed_toFixed0 (x : spec_float) (n : Z) :
  Spec.printed x = Some n → toFixed0 x = pretty n.
Proof.
  destruct x as [sg|sg| |sg m e]; cbn [Spec.printed]; try discriminate.
  - by intros [= <-].
  - destruct sg; [discriminate|]. by intros [= <-].
Qed.

Lemma nearest_percent_inv (c t : nat) :
  Spec.nearest_percent c t = true →
  ∃ n : Z,
    toFixed0 (fmul (fdiv (float_of_nat c) (float_of_nat t)) (float_of_nat 100)) = pretty n
    ∧ 2 * Z.abs (n * Z.of_nat t - 100 * Z.of_nat c) ≤ Z.of_nat t.
Proof.
  unfold Spec.nearest_percent.
  destruct (Spec.printed _) as [n|] eqn:E; [|discriminate].
  intros H. exists n. split; [by apply printed_toFixed0 | by apply Z.leb_le].
Qed.

Lemma nearest_percent_upto_spec (bound c t : nat) :
  Spec.nearest_percent_upto bound = true →
  (0 < t ≤ bound)%nat → (c ≤ t)%nat → Spec.nearest_percent c t = true.
Proof.
  unfold Spec.nearest_percent_upto. rewrite forallb_forall.
  intros H Ht Hc. specialize (H t). rewrite forallb_forall in H.
  apply H; apply in_seq; lia.
Qed.

(** For a project of at most 100 tasks the binary64 computation prints an
    integer nearest to the exact percentage of completed tasks. *)
Lemma progress_nearest_percent (ts : list task) :
  (0 < length ts ≤ 100)%nat →
  ∃ n : Z, newProgress ts = String.app (pretty n) "%"
           ∧ 2 * Z.abs (n * Z.of_nat (length ts) - 100 * Z.of_nat (Spec.completed ts))
             ≤ Z.of_nat (length ts).
Proof.
  intros Hlen.
  destruct (nearest_percent_inv (Spec.completed ts) (length ts)) as (n & Hn & Hnear).
  { apply (nearest_percent_upto_spec 100);
      [exact nearest_percent_upto_100 | exact Hlen | apply completed_le_length]. }
  exists n. split; [|exact Hnear].
  unfold newProgress. rewrite (proj2 (Nat.ltb_lt _ _) (proj1 Hlen)), completed_filter.
  by rewrite Hn.
Qed.

(** The progress of a non-empty list, in the words of the specification:
    completed over total, times 100, rounded to an integer, as a
    percentage. *)
Lemma newProgress_rounded (ts : list task) :
  ts ≠ [] →
  newProgress ts
  = Spec.integer_text
      (SFmul 53 1024
         (SFdiv 53 1024 (Spec.number (Spec.completed ts)) (Spec.number (length ts)))
         (Spec.number 100)) +:+ "%".
Proof.
  intros Hne. unfold newProgress.
  destruct ts as [|t ts]; [done|].
  change (0 <? length (t :: ts))%nat with true. cbv iota.
  by rewrite completed_filter, toFixed0_integer_text.
Qed.

(** C1. For every project and every list of its tasks, the progress the
    effect derives is [0%] for no tasks, and otherwise the text of the
    binary64 number (completed tasks / tasks) * 100 rounded to an integer
    (the larger one when two are as near), followed by a percent sign; up
    to 100 tasks that integer is a nearest integer to the exact
    percentage; one of two tasks completed gives 50%, one of three 33%,
    two of three 67%; and once the effect has run in a ready context the
    project document carries the derived value. *)
Theorem project_progress_derived (fb : firebase) (projectId uid : string)
    (p : project) (ts : list task) :
  authenticated fb = Some uid → truthy_string projectId = true →
  (ts = [] → newProgress ts = "0%")
  ∧ (ts ≠ [] →
     newProgress ts
     = Spec.integer_text
         (SFmul 53 1024
            (SFdiv 53 1024 (Spec.number (Spec.completed ts)) (Spec.number (length ts)))
            (Spec.number 100)) +:+ "%")
  ∧ ((0 < length ts ≤ 100)%nat →
     ∃ n : Z, newProgress ts = pretty n +:+ "%"
              ∧ 2 * Z.abs (n * Z.of_nat (length ts) - 100 * Z.of_nat (Spec.completed ts))
                ≤ Z.of_nat (length ts))
  ∧ newProgress [Samples.task "Completed"; Samples.task "To Do"] = "50%"
  ∧ newProgress [Samples.task "To Do"; Samples.task "Completed"; Samples.task "Blocked"] = "33%"
  ∧ newProgress [Samples.task "Completed"; Samples.task "Done"; Samples.task "Completed"] = "67%"
  ∧ progress (syncProgress fb projectId p ts) = Some (newProgress ts).
Proof.
  intros Ha Hp.
  split; [by intros ->|]. split; [apply newProgress_rounded|].
  split; [apply progress_nearest_percent|].
  do 3 (split; [vm_compute; reflexivity|]).
  unfold syncProgress. rewrite (progressEffect_ready _ _ _ _ _ Ha Hp).
  case_bool_decide as Hc; [reflexivity|].
  destruct (decide (progress p = Some (newProgress ts))) as [E|E]; [exact E|].
  contradiction.
Qed.

(** C3. The write-back step is idempotent: in a ready context a cached
    progress that differs from the derived one is overwritten with it
    (and nothing else of the document changes); a cached progress equal
    to the derived one causes no write and leaves the document as it is;
    running the step again changes nothing. *)
Theorem progress_writeback_idempotent (fb : firebase) (projectId uid : string)
    (p : project) (ts : list task) :
  (authenticated fb = Some uid → truthy_string projectId = true →
   progress p ≠ Some (newProgress ts) →
   progressEffect fb projectId (Some p) ts = Some (newProgress ts)
   ∧ syncProgress fb projectId p ts = set_progress (newProgress ts) p)
  ∧ (progress p = Some (newProgress ts) →
     progressEffect fb projectId (Some p) ts = None
     ∧ syncProgress fb projectId p ts = p)
  ∧ syncProgress fb projectId (syncProgress fb projectId p ts) ts
    = syncProgress fb projectId p ts.
Proof.
  split; [|split].
  - intros Ha Hp Hd. unfold syncProgress.
    rewrite (progressEffect_ready _ _ _ _ _ Ha Hp).
    by rewrite bool_decide_true.
  - intros Hc. unfold syncProgress. by rewrite progressEffect_cached.
  - unfold syncProgress.
    destruct (progressEffect fb projectId (Some p) ts) as [v|] eqn:E.
    + apply progressEffect_value in E as ->.
      by rewrite progressEffect_cached.
    + by rewrite E.
Qed.

End ProjectProgress.

Section ScriptBudget.

Import JS Script.

Lemma updateBudgetProgress_spent (d : dom) :
  budgetSpentInput (updateBudgetProgress d) = budgetSpentInput d.
Proof. reflexivity. Qed.

Lemma renderBudgetCategories_spent (cats : list budgetCategory) (d : dom) :
  budgetSpentInput (renderBudgetCategories cats d) = budgetSpentInput d.
Proof. destruct cats; reflexivity. Qed.

Lemma onBudgetSnapshot_spent (docSnap : option budgetData) (d : dom) :
  budgetSpentInput (fst (onBudgetSnapshot docSnap d)) = budgetSpentInput d.
Proof.
  unfold onBudgetSnapshot. cbn [fst].
  rewrite updateBudgetProgress_spent. cbn [populateTransactionCategories budgetSpentInput].
  by rewrite renderBudgetCategories_spent.
Qed.

Lemma saveBudgetCategories_spent (s : session) (d : dom) :
  budgetSpentInput (fst (saveBudgetCategories s d)) = budgetSpentInput d.
Proof. unfold saveBudgetCategories. by destruct (ready s). Qed.

Lemma saveBudgetTotal_spent (s : session) (d : dom) :
  budgetSpentInput (fst (saveBudgetTotal s d)) = budgetSpentInput d.
Proof. unfold saveBudgetTotal. by destruct (ready s). Qed.

(** No event of the budget page other than the transactions listener
    touches the spent input. *)
Lemma handle_spent (s : session) (e : budget_event) (d : dom) :
  budgetSpentInput (handle s e d) = budgetSpentInput d.
Proof.
  destruct e; cbn [handle];
    rewrite ?onBudgetSnapshot_spent, ?saveBudgetCategories_spent,
            ?saveBudgetTotal_spent; reflexivity.
Qed.

Lemma run_spent (s : session) (es : list budget_event) (d : dom) :
  budgetSpentInput (run s es d) = budgetSpentInput d.
Proof.
  revert d. induction es as [|e es IH]; intros d; [reflexivity|].
  unfold run in *. cbn [fold_left]. by rewrite IH, handle_spent.
Qed.

(** What the listener adds for a transaction is what its amount counts
    as. *)
Lemma amount_counted (t : transaction) :
  or0 (parseFloat_value (amount t)) = Spec.counted (Spec.amount_number t).
Proof.
  unfold Spec.amount_number, parseFloat_value.
  destruct (amount t) as [|x|s]; [reflexivity| |apply or0_counted]. by destruct x.
Qed.

(** The running total of the expenses, from any starting point. *)
Lemma fold_add_transaction (ts : list transaction) (a b : spec_float) :
  fst (fold_left add_transaction ts (a, b))
  = fold_left fadd (map (λ t, Spec.counted (Spec.amount_number t))
                        (filter (λ t, type t = "expense") ts)) a.
Proof.
  revert a b. induction ts as [|t ts IH]; intros a b; [reflexivity|].
  cbn [fold_left]. unfold add_transaction at 2. rewrite filter_cons.
  destruct (decide (type t = "expense")) as [E|E].
  - rewrite (proj2 (String.eqb_eq _ _) E), IH. cbn [map fold_left].
    by rewrite amount_counted.
  - rewrite (proj2 (String.eqb_neq _ _) E).
    destruct (String.eqb (type t) "income"); apply IH.
Qed.

Lemma onTransactionsSnapshot_spent (snapshot : list transaction) (d : dom) :
  budgetSpentInput (onTransactionsSnapshot snapshot d)
  = Assigned (Spec.expense_total snapshot).
Proof.
  unfold onTransactionsSnapshot, Spec.expense_total.
  pose proof (fold_add_transaction snapshot zero zero) as H.
  destruct (fold_left add_transaction snapshot (zero, zero)) as [sp inc].
  cbn [fst] in H. rewrite updateBudgetProgress_spent. cbn [budgetSpentInput].
  by rewrite H, fold_left_sum.
Qed.

(** C2, for the budget view of script.js.  When the callback of the
    transactions listener has run on a snapshot, the spent input holds
    the binary64 sum, in the order of the snapshot, of the amounts of the
    transactions of type [expense], an amount that is not a number
    counting as 0; whatever happens afterwards to the budget document, the
    category rows, the total or the currency leaves it there; a
    transaction of type [income] in the snapshot does not change it.  The
    sample snapshot (12.5 as text, an income of 7, an expense without
    amount, 21) gives 33.5, and expenses of 0.1 and 0.2 give
    0.30000000000000004. *)
Theorem spent_from_transactions (s : session) (snapshot : list transaction)
    (es : list budget_event) (d : dom) :
  budgetSpentInput (run s es (onTransactionsSnapshot snapshot d))
  = Assigned (Spec.expense_total snapshot)
  ∧ (∀ e, budgetSpentInput (handle s e d) = budgetSpentInput d)
  ∧ (∀ t l1 l2, snapshot = l1 ++ t :: l2 → type t = "income" →
       budgetSpentInput (onTransactionsSnapshot snapshot d)
       = budgetSpentInput (onTransactionsSnapshot (l1 ++ l2) d))
  ∧ budgetSpentInput (onTransactionsSnapshot Samples.snapshot d)
    = Assigned (S754_finite false 4714705859903488 (-47))
  ∧ S754_finite false 4714705859903488 (-47) = parseFloat "33.5"
  ∧ budgetSpentInput (onTransactionsSnapshot Samples.dimes d)
    = Assigned (parseFloat "0.30000000000000004")
  ∧ parseFloat "0.30000000000000004" ≠ parseFloat "0.3".
Proof.
  split; [|split; [|split; [|split; [|split; [|split]]]]].
  - rewrite run_spent. apply onTransactionsSnapshot_spent.
  - intros e. apply handle_spent.
  - intros t l1 l2 -> Ht. rewrite !onTransactionsSnapshot_spent.
    unfold Spec.expense_total. rewrite !filter_app, filter_cons.
    rewrite decide_False; [reflexivity|]. rewrite Ht. discriminate.
  - rewrite onTransactionsSnapshot_spent. vm_compute. reflexivity.
  - vm_compute. reflexivity.
  - rewrite onTransactionsSnapshot_spent. vm_compute. reflexivity.
  - vm_compute. discriminate.
Qed.

End ScriptBudget.

Section BudgetPercentage.

Import JS Script.






End BudgetPercentage.

Section BudgetOverviewTotals.

Import JS App.

Lemma totalSpent_spec (b : BudgetOverview) : totalSpent b = Spec.total_spent (expenses b).
Proof.
  unfold totalSpent, Spec.total_spent.
  rewrite (fold_left_sum_map (λ e, field_or0 (amount e))).
  f_equal. apply map_ext. intros e. unfold Spec.amount_of.
  destruct (amount e) as [x|]; [apply or0_counted|reflexivity].
Qed.

Lemma proto_not_inherited (c : string) : c ∉ object_prototype → c ≠ "__proto__".
Proof.
  intros Hc ->. apply Hc. apply (bool_decide_unpack _). vm_compute. exact I.
Qed.

(** The entry of a category whose name no object inherits, while its
    expenses carry amounts that are not negative. *)
Lemma fold_add_to_category (c : string) (es : list expense)
    (acc : gmap string jsval) (v : spec_float) :
  c ∉ object_prototype →
  (∀ e, e ∈ es → expense_category e = c → Spec.signed false (Spec.amount_of e)) →
  Spec.signed false v →
  val_or0 (get acc c) = Num v →
  val_or0 (get (fold_left add_to_category es acc) c)
  = Num (fold_left fadd (map Spec.amount_of (filter (λ e, expense_category e = c) es)) v).
Proof.
  intros Hc. revert acc v.
  induction es as [|e es IH]; intros acc v Hall Hv Hacc; [exact Hacc|].
  cbn [fold_left]. rewrite filter_cons.
  destruct (decide (expense_category e = c)) as [E|E].
  - cbn [map fold_left].
    assert (Ha : Spec.signed false (Spec.amount_of e)) by (apply Hall; [left|done]).
    change (to_number (amount e)) with (Spec.amount_of e).
    apply IH.
    + intros e' He'. apply Hall. by right.
    + by apply SFadd_signed_false.
    + unfold add_to_category. rewrite E, Hacc. cbn [plus].
      change (to_number (amount e)) with (Spec.amount_of e). unfold set.
      rewrite (proj2 (String.eqb_neq _ _) (proto_not_inherited c Hc)).
      unfold get. rewrite lookup_insert_eq. cbn [val_or0].
      rewrite or0_counted, counted_signed_false; [done|].
      by apply SFadd_signed_false.
  - apply IH; [intros e' He'; apply Hall; by right|done|].
    rewrite <- Hacc. unfold add_to_category, set, get.
    destruct (String.eqb (expense_category e) "__proto__"); [done|].
    by rewrite lookup_insert_ne.
Qed.

(** C5, at a category with a name every object inherits: a category
    named [constructor] with one expense of 20 does not show 20 as spent
    (what is shown is no number, and the remaining amount is [NaN]), while
    the sum of the amounts of the expenses of that category is 20 and the
    total spent counts the expense.  An expense without an amount resets
    the sum of its category (30, none, 15 show 15) while the total spent
    counts it as 0.  For a category whose name is not inherited and
    whose expenses carry amounts that are not negative, the spent amount
    of the card is the binary64 sum, in the order of the list, of the
    amounts of exactly the expenses of that category. *)
Theorem spent_per_category (b : BudgetOverview) (cat : category) :
  card_spent (categoryCard_of Samples.inherited Samples.builder) = NotNum
  ∧ card_remaining (categoryCard_of Samples.inherited Samples.builder) = S754_nan
  ∧ Spec.category_total "constructor" (expenses Samples.inherited) = Spec.number 20
  ∧ totalSpent Samples.inherited = Spec.number 20
  ∧ card_spent (categoryCard_of Samples.interrupted Samples.art) = Num (Spec.number 15)
  ∧ totalSpent Samples.interrupted = Spec.number 45
  ∧ ((cat_name cat ∉ object_prototype) →
     (∀ e, e ∈ expenses b → expense_category e = cat_name cat →
           Spec.signed false (Spec.amount_of e)) →
     card_spent (categoryCard_of b cat)
     = Num (Spec.category_total (cat_name cat) (expenses b))
     ∧ card_remaining (categoryCard_of b cat)
       = SFsub 53 1024 (Spec.counted (allocatedAmount cat))
                       (Spec.category_total (cat_name cat) (expenses b))).
Proof.
  do 6 (split; [vm_compute; reflexivity|]).
  intros Hc Hall.
  assert (H : val_or0 (get (spentPerCategory b) (cat_name cat))
              = Num (Spec.category_total (cat_name cat) (expenses b))).
  { unfold spentPerCategory, Spec.category_total. rewrite <- fold_left_sum.
    apply fold_add_to_category; [done|done|done|].
    unfold get. rewrite lookup_empty. by rewrite bool_decide_false. }
  cbn [categoryCard_of card_spent card_remaining]. rewrite H.
  split; [done|]. by rewrite or0_counted.
Qed.

(** C6. For every project, the remaining budget shown is, in binary64,
    the initial budget minus the total spent, the sum in the order of the
    list of the amounts of all expenses, an amount that is missing or not
    a number counting as 0; the initial budget is the one of the project document,
    0 when it has none.  With a budget of 100 and expenses of 90 and 20 it
    is -10, below 0; with a budget of 0.3 and expenses of 0.1 and 0.2 it
    is -5.551115123125783e-17. *)
Theorem remaining_budget (projectBudgetCategories : option (list category))
    (initialBudget : option spec_float) (es : list expense) (b : BudgetOverview) :
  remainingBudget b
  = SFsub 53 1024 (currentInitialBudget b) (Spec.total_spent (expenses b))
  ∧ remainingBudget (onExpensesSnapshot es (mount projectBudgetCategories initialBudget))
    = SFsub 53 1024
        (match initialBudget with Some x => Spec.counted x | None => S754_zero false end)
        (Spec.total_spent es)
  ∧ remainingBudget Samples.overspent = SFopp (Spec.number 10)
  ∧ SFltb (remainingBudget Samples.overspent) (S754_zero false) = true
  ∧ remainingBudget Samples.cents = parseFloat "-5.551115123125783e-17".
Proof.
  assert (H : ∀ b', remainingBudget b'
                    = SFsub 53 1024 (currentInitialBudget b')
                                    (Spec.total_spent (expenses b'))).
  { intros b'. unfold remainingBudget. by rewrite totalSpent_spec. }
  split; [apply H|]. split.
  - rewrite H. cbn [onExpensesSnapshot mount currentInitialBudget expenses].
    destruct initialBudget as [x|]; [|done]. cbn [field_or0]. by rewrite or0_counted.
  - repeat split; vm_compute; reflexivity.
Qed.

End BudgetOverviewTotals.

Section ProjectCreation.

Import JS App.


End ProjectCreation.

Section TransactionForm.

Import JS Script.

(** The path given for the transactions has eight segments, whatever the
    session: [collection] throws on it. *)
Lemma transactions_path_refused (s : session) :
  Firestore.collection (transactions_path s) = false.
Proof. reflexivity. Qed.

Lemma amount_not_positive (x : spec_float) :
  x = S754_nan ∨ SFleb x (S754_zero false) = true → fle (or0 x) zero = true.
Proof. intros [->|H]; [reflexivity|]. by destruct x as [a|a| |a m e]. Qed.

Lemma amount_positive (x : spec_float) :
  SFltb (S754_zero false) x = true → fle (or0 x) zero = false.
Proof. destruct x as [a|[]| |[] m e]; done. Qed.

Lemma invalid_true (f : transactionForm) :
  trim (transactionDescriptionInput f) = EmptyString
  ∨ parseFloat (transactionAmountInput f) = S754_nan
  ∨ SFleb (parseFloat (transactionAmountInput f)) (S754_zero false) = true
  ∨ transactionDateInput f = EmptyString →
  invalid (read_form f) = true.
Proof.
  unfold invalid, read_form. cbn [data_description data_amount data_date].
  intros [H|[H|[H|H]]].
  - by rewrite H.
  - rewrite amount_not_positive by (by left). by rewrite orb_true_r.
  - rewrite amount_not_positive by (by right). by rewrite orb_true_r.
  - rewrite H. by rewrite orb_true_r.
Qed.

Lemma invalid_false (f : transactionForm) :
  trim (transactionDescriptionInput f) ≠ EmptyString →
  SFltb (S754_zero false) (parseFloat (transactionAmountInput f)) = true →
  transactionDateInput f ≠ EmptyString →
  invalid (read_form f) = false.
Proof.
  intros Hd Ha Ht. unfold invalid, read_form.
  cbn [data_description data_amount data_date].
  destruct (trim (transactionDescriptionInput f)); [done|].
  destruct (transactionDateInput f); [done|].
  cbn [truthy_string negb orb]. by rewrite amount_positive.
Qed.

(** C9.  No submission of the transaction form writes to the database:
    the collection is left as it was.  With project, database and user
    set, a submission with an empty description (after trimming), an
    amount that is not a number or not above 0, or an empty date ends with
    the validation error; a submission with the three fields valid ends
    with the failure to save, because the path given to [collection] has
    eight segments.  So the valid sample form is not added, in the adding
    mode or in the editing mode; an amount of [abc], of [-3] or of
    [1e-400] is refused as not positive, and so is a description made of
    a no-break space. *)
Theorem transaction_form_validated (s : session) (isEditing : bool)
    (editingId : option string) (f : transactionForm) (now newId : string)
    (transactions : gmap string transaction) :
  let result := handleTransactionFormSubmission s isEditing editingId f now newId transactions in
  fst result = transactions
  ∧ (ready s = true →
     trim (transactionDescriptionInput f) = EmptyString
     ∨ parseFloat (transactionAmountInput f) = S754_nan
     ∨ SFleb (parseFloat (transactionAmountInput f)) (S754_zero false) = true
     ∨ transactionDateInput f = EmptyString →
     snd result = ValidationError)
  ∧ (ready s = true →
     trim (transactionDescriptionInput f) ≠ EmptyString →
     SFltb (S754_zero false) (parseFloat (transactionAmountInput f)) = true →
     transactionDateInput f ≠ EmptyString →
     snd result = SaveFailed)
  ∧ length (transactions_path s) = 8%nat
  ∧ handleTransactionFormSubmission Samples.session false None
      (Samples.transactionForm "  New pack " "12.50" "2025-03-01") "now" "x2"
      Samples.collection
    = (Samples.collection, SaveFailed)
  ∧ handleTransactionFormSubmission Samples.session true (Some "x1")
      (Samples.transactionForm "  New pack " "12.50" "2025-03-01") "now" "x2"
      Samples.collection
    = (Samples.collection, SaveFailed)
  ∧ (∀ amount, amount ∈ ["abc"; "-3"; "1e-400"; "0"; ""] →
     handleTransactionFormSubmission Samples.session false None
       (Samples.transactionForm "Asset pack" amount "2025-03-01") "now" "x2"
       Samples.collection
     = (Samples.collection, ValidationError))
  ∧ handleTransactionFormSubmission Samples.session false None
      (Samples.transactionForm (String (ascii_of_nat 160) " ") "12.50" "2025-03-01")
      "now" "x2" Samples.collection
    = (Samples.collection, ValidationError).
Proof.
  intros result.
  assert (Hres : result = (transactions,
                           if negb (ready s) then SystemNotReady
                           else if invalid (read_form f) then ValidationError
                           else SaveFailed)).
  { unfold result, handleTransactionFormSubmission.
    destruct (ready s); cbn [negb]; [|done].
    destruct (invalid (read_form f)); [done|].
    by rewrite transactions_path_refused. }
  split; [by rewrite Hres|]. split; [|split].
  - intros Hready Hbad. rewrite Hres, Hready. cbn [negb snd].
    by rewrite (invalid_true f Hbad).
  - intros Hready Hd Ha Ht. rewrite Hres, Hready. cbn [negb snd].
    by rewrite (invalid_false f Hd Ha Ht).
  - split; [reflexivity|]. split; [vm_compute; reflexivity|].
    split; [vm_compute; reflexivity|].
    split; [|vm_compute; reflexivity].
    intros amount Ha. apply list_elem_of_In in Ha. cbn [In] in Ha.
    destruct Ha as [<-|[<-|[<-|[<-|[<-|[]]]]]]; vm_compute; reflexivity.
Qed.

End TransactionForm.

Section TotalBudget.

Import JS App.

Variable toLocaleString : spec_float → string.




End TotalBudget.

Section TaskStatus.

Import JS App.

Lemma pick_cases (options : list string) (i : nat) (current : string) :
  pick options i current = current ∨ pick options i current ∈ options.
Proof.
  unfold pick. destruct (options !! i) as [v|] eqn:E; [right|by left].
  cbn. by apply (list_elem_of_lookup_2 _ i).
Qed.

Lemma onChange_status (e : edit) (m : TaskDetailModal) :
  editStatus (onChange e m) = editStatus m ∨ editStatus (onChange e m) ∈ statusOptions.
Proof. destruct e; cbn; try (by left). apply pick_cases. Qed.

Lemma onChange_task (e : edit) (m : TaskDetailModal) :
  modal_task (onChange e m) = modal_task m.
Proof. by destruct e. Qed.

Lemma onChanges_status (es : list edit) (m : TaskDetailModal) :
  editStatus (onChanges es m) = editStatus m ∨ editStatus (onChanges es m) ∈ statusOptions.
Proof.
  revert m. induction es as [|e es IH]; intros m; [by left|].
  unfold onChanges in *. cbn [fold_left].
  destruct (IH (onChange e m)) as [H|H]; [|by right].
  rewrite H. apply onChange_status.
Qed.

Lemma onChanges_task (es : list edit) (m : TaskDetailModal) :
  modal_task (onChanges es m) = modal_task m.
Proof.
  revert m. induction es as [|e es IH]; intros m; [reflexivity|].
  unfold onChanges in *. cbn [fold_left]. by rewrite IH, onChange_task.
Qed.

Lemma statusOptions_allowed (v : string) :
  v ∈ statusOptions → v ∈ Spec.task_statuses_of_modal.
Proof.
  intros H%list_elem_of_In. apply list_elem_of_In.
  simpl in *. intuition.
Qed.

(** C7, as the code has it.  The task creation form stores the status
    [To Do].  The task editing modal stores the status its form holds,
    which is the status the task had when the modal opened or one of
    To Do / In Progress / Ready for Review / Completed.  So when every
    stored status is among To Do / In Progress / Ready for Review /
    Reviewing / Completed / Blocked / Done, this is still so after either
    operation. *)
Theorem task_status_written (fb : firebase) (projectId taskId now newId uid : string)
    (f : CreateTaskForm) (t : task) (edits : list edit) (st : store) :
  let m := onChanges edits (onTaskSnapshot (Some t) openModal) in
  let created := fst (createTask fb projectId f now newId st) in
  let edited := fst (handleUpdateTask fb projectId taskId now m st) in
  (editStatus m = task_status t ∨ editStatus m ∈ statusOptions)
  ∧ (authenticated fb = Some uid → truthy_string projectId = true →
     task_status <$> tasks created !! (projectId, newId) = Some "To Do")
  ∧ (authenticated fb = Some uid → truthy_string projectId = true →
     truthy_string taskId = true → is_Some (tasks st !! (projectId, taskId)) →
     task_status <$> tasks edited !! (projectId, taskId) = Some (editStatus m))
  ∧ (task_status t ∈ Spec.task_statuses_of_modal →
     (∀ k d, tasks st !! k = Some d → task_status d ∈ Spec.task_statuses_of_modal) →
     (∀ k d, tasks created !! k = Some d → task_status d ∈ Spec.task_statuses_of_modal)
     ∧ (∀ k d, tasks edited !! k = Some d → task_status d ∈ Spec.task_statuses_of_modal)).
Proof.
  intros m created edited.
  assert (Hm : editStatus m = task_status t ∨ editStatus m ∈ statusOptions).
  { unfold m. destruct (onChanges_status edits (onTaskSnapshot (Some t) openModal)) as [H|H];
      [left|by right]. by rewrite H. }
  assert (Ht : modal_task m = Some t).
  { unfold m. by rewrite onChanges_task. }
  split; [exact Hm|]. split; [|split].
  - intros Ha Hp. unfold created, createTask. rewrite Ha, Hp. cbn [fst tasks].
    by rewrite lookup_insert_eq.
  - intros Ha Hp Hid [stored Hs]. unfold edited, handleUpdateTask.
    rewrite Ha, Hp, Hid, Ht, Hs. cbn [andb fst tasks]. by rewrite lookup_insert_eq.
  - intros Hst Hinv. split.
    + intros k d. unfold created, createTask.
      destruct (authenticated fb) as [u|]; [|apply Hinv].
      destruct (truthy_string projectId); [|apply Hinv].
      cbn [fst tasks]. intros Hk.
      apply lookup_insert_Some in Hk as [[_ <-]|[_ Hk]]; [|by apply (Hinv k)].
      cbn [task_status]. apply list_elem_of_In. simpl. intuition.
    + intros k d. unfold edited, handleUpdateTask.
      destruct (authenticated fb) as [u|]; [|apply Hinv].
      destruct (truthy_string projectId && truthy_string taskId)%bool; [|apply Hinv].
      rewrite Ht. destruct (tasks st !! (projectId, taskId)) as [stored|]; [|apply Hinv].
      cbn [fst tasks]. intros Hk.
      apply lookup_insert_Some in Hk as [[_ <-]|[_ Hk]]; [|by apply (Hinv k)].
      cbn [task_status]. destruct Hm as [->|Hm]; [exact Hst|by apply statusOptions_allowed].
Qed.

End TaskStatus.

(** * The properties at sample inputs *)

Section Instances.

Import JS.

Example progress_half :
  App.newProgress [Samples.task "Completed"; Samples.task "To Do"] = "50%".
Proof. reflexivity. Qed.

Example progress_third :
  App.newProgress [Samples.task "Completed"; Samples.task "To Do"; Samples.task "Blocked"]
  = "33%".
Proof. reflexivity. Qed.

Example progress_all :
  App.newProgress [Samples.task "Completed"; Samples.task "Completed"] = "100%".
Proof. reflexivity. Qed.

Example progress_eighth :
  App.newProgress (replicate 7 (Samples.task "In Progress") ++ [Samples.task "Completed"])
  = "13%".
Proof. reflexivity. Qed.

Example progress_rounds_binary64 :
  App.newProgress (replicate 171 (Samples.task "To Do")
                   ++ replicate 29 (Samples.task "Completed")) = "14%".
Proof. vm_compute. reflexivity. Qed.

Lemma project_progress_derived_witness :
  App.authenticated Samples.fb = Some "u1"
  ∧ truthy_string "p1" = true
  ∧ App.newProgress [Samples.task "Completed"; Samples.task "To Do"]
    = Spec.integer_text
        (SFmul 53 1024 (SFdiv 53 1024 (Spec.number 1) (Spec.number 2)) (Spec.number 100))
      +:+ "%"
  ∧ App.progress
      (App.syncProgress Samples.fb "p1" Samples.project
         [Samples.task "Completed"; Samples.task "To Do"])
    = Some (App.newProgress [Samples.task "Completed"; Samples.task "To Do"]).
Proof.
  split; [reflexivity|]. split; [reflexivity|].
  pose proof (project_progress_derived Samples.fb "p1" "u1" Samples.project
                [Samples.task "Completed"; Samples.task "To Do"]
                eq_refl eq_refl) as (_ & H2 & _ & _ & _ & _ & H7).
  split; [|exact H7]. apply H2. discriminate.
Defined.

Lemma progress_writeback_idempotent_witness :
  App.progressEffect Samples.fb "p1" (Some Samples.project)
    [Samples.task "Completed"; Samples.task "To Do"] = Some "50%"
  ∧ App.progressEffect Samples.fb "p1" (Some (App.set_progress "50%" Samples.project))
      [Samples.task "Completed"; Samples.task "To Do"] = None.
Proof.
  split.
  - refine (proj1 (proj1 (progress_writeback_idempotent Samples.fb "p1" "u1" Samples.project
                            [Samples.task "Completed"; Samples.task "To Do"])
                     eq_refl eq_refl _)).
    vm_compute. discriminate.
  - exact (proj1 (proj1 (proj2 (progress_writeback_idempotent Samples.fb "p1" "u1"
                                  (App.set_progress "50%" Samples.project)
                                  [Samples.task "Completed"; Samples.task "To Do"]))
                    eq_refl)).
Defined.

Lemma spent_from_transactions_witness :
  Script.budgetSpentInput
    (Script.run Samples.session
       [Script.TypeCategoryAmount 0 "500"; Script.TypeTotalBudget "300"]
       (Script.onTransactionsSnapshot Samples.snapshot Samples.page))
  = Assigned (Spec.expense_total Samples.snapshot)
  ∧ Script.budgetSpentInput (Script.onTransactionsSnapshot Samples.snapshot Samples.page)
    = Script.budgetSpentInput
        (Script.onTransactionsSnapshot
           ([Samples.transaction "expense" (Script.Text "12.5")]
            ++ [Samples.transaction "expense" Script.Undefined;
                Samples.transaction "expense" (Script.Number (float_of_nat 21))])
           Samples.page).
Proof.
  pose proof (spent_from_transactions Samples.session Samples.snapshot
                [Script.TypeCategoryAmount 0 "500"; Script.TypeTotalBudget "300"]
                Samples.page) as (H1 & _ & H3 & _).
  split; [exact H1|].
  exact (H3 (Samples.transaction "income" (Script.Number (float_of_nat 7)))
            [Samples.transaction "expense" (Script.Text "12.5")]
            [Samples.transaction "expense" Script.Undefined;
             Samples.transaction "expense" (Script.Number (float_of_nat 21))]
            eq_refl eq_refl).
Defined.

(** In the older budget view the spent amount follows the category rows:
    typing 40 into the amount of the only row, with no transaction
    anywhere, moves the spent input from 30 to 40, which is not the sum
    over the (absent) expense transactions. *)
Lemma legacy_spent_follows_category_amounts :
  Legacy.budgetSpentInput (Legacy.onAmountInput true 0 "40" Samples.legacyPage)
  = Assigned (Spec.number 40)
  ∧ Legacy.budgetSpentInput (Legacy.onAmountInput true 0 "40" Samples.legacyPage)
    ≠ Legacy.budgetSpentInput Samples.legacyPage
  ∧ Legacy.budgetSpentInput (Legacy.onAmountInput true 0 "40" Samples.legacyPage)
    ≠ Assigned (Spec.expense_total []).
Proof.
  split; [|split].
  - vm_compute. reflexivity.
  - vm_compute. discriminate.
  - vm_compute. discriminate.
Qed.


Example sample_percentage_text :
  Script.budgetPercentageSpan
    (Script.onTransactionsSnapshot Samples.snapshot Samples.page) = "16.8%".
Proof. vm_compute. reflexivity. Qed.

Lemma art_not_inherited : "Art" ∉ App.object_prototype.
Proof.
  intros H. apply list_elem_of_In in H. cbn in H.
  repeat (destruct H as [H|H]; [discriminate H|]). exact H.
Qed.

Lemma spent_per_category_witness :
  ("Art" ∉ App.object_prototype)
  ∧ App.card_spent (App.categoryCard_of Samples.overview Samples.art)
    = App.Num (Spec.category_total "Art" (App.expenses Samples.overview))
  ∧ App.card_spent (App.categoryCard_of Samples.overview Samples.art)
    = App.Num (Spec.number 45).
Proof.
  pose proof art_not_inherited as Hn.
  split; [exact Hn|].
  split; [|vm_compute; reflexivity].
  refine (proj1 (proj2 (proj2 (proj2 (proj2 (proj2 (proj2
            (spent_per_category Samples.overview Samples.art)))))) Hn _)).
  intros e He _. apply list_elem_of_In in He. cbn in He.
  destruct He as [<-|[<-|[<-|[]]]]; reflexivity.
Defined.

Lemma remaining_budget_witness :
  App.remainingBudget Samples.overview
  = SFsub 53 1024 (Spec.number 100) (Spec.total_spent (App.expenses Samples.overview))
  ∧ App.remainingBudget Samples.overview = Spec.number 35.
Proof.
  split; [|vm_compute; reflexivity].
  exact (proj1 (remaining_budget None None [] Samples.overview)).
Defined.

Lemma task_status_written_witness :
  App.task_status <$>
    App.tasks (fst (App.createTask Samples.fb "p1" Samples.taskForm "now" "t2" Samples.store))
      !! ("p1", "t2") = Some "To Do"
  ∧ App.task_status <$>
      App.tasks (fst (App.handleUpdateTask Samples.fb "p1" "t1" "now"
                        (App.onChanges [App.SelectStatus 3; App.TypeName "Jump"]
                           (App.onTaskSnapshot (Some (Samples.task "In Progress"))
                              App.openModal))
                        Samples.store))
        !! ("p1", "t1") = Some "Completed".
Proof.
  pose proof (task_status_written Samples.fb "p1" "t1" "now" "t2" "u1" Samples.taskForm
                (Samples.task "In Progress") [App.SelectStatus 3; App.TypeName "Jump"]
                Samples.store) as (_ & H2 & H3 & _).
  split.
  - exact (H2 eq_refl eq_refl).
  - refine (H3 eq_refl eq_refl eq_refl _). vm_compute. eexists. reflexivity.
Defined.

(** The editing modal stores [Ready for Review], which is none of To Do,
    In Progress, Reviewing, Completed, Blocked, Done. *)
Lemma ready_for_review_is_stored :
  App.task_status <$>
    App.tasks (fst (App.handleUpdateTask Samples.fb "p1" "t1" "now" Samples.modal
                      Samples.store))
      !! ("p1", "t1") = Some "Ready for Review"
  ∧ "Ready for Review" ∉ Spec.task_statuses.
Proof.
  split; [vm_compute; reflexivity|].
  intros H%list_elem_of_In. simpl in H. intuition discriminate.
Qed.


Example sample_budget_parsed : or0 (parseFloat "5000") = float_of_nat 5000.
Proof. vm_compute. reflexivity. Qed.

Lemma transaction_form_validated_witness :
  Script.ready Samples.session = true
  ∧ fst (Script.handleTransactionFormSubmission Samples.session false None
           (Samples.transactionForm "Asset pack" "abc" "2025-03-01") "now" "x2"
           Samples.collection) = Samples.collection
  ∧ snd (Script.handleTransactionFormSubmission Samples.session false None
           (Samples.transactionForm "Asset pack" "abc" "2025-03-01") "now" "x2"
           Samples.collection) = Script.ValidationError
  ∧ snd (Script.handleTransactionFormSubmission Samples.session false None
           (Samples.transactionForm "  New pack " "12.50" "2025-03-01") "now" "x2"
           Samples.collection) = Script.SaveFailed.
Proof.
  split; [reflexivity|].
  pose proof (transaction_form_validated Samples.session false None
                (Samples.transactionForm "Asset pack" "abc" "2025-03-01")
                "now" "x2" Samples.collection) as (H1 & H2 & _).
  split; [exact H1|]. split; [exact (H2 eq_refl (or_intror (or_introl eq_refl)))|].
  refine (proj1 (proj2 (proj2 (transaction_form_validated Samples.session false None
            (Samples.transactionForm "  New pack " "12.50" "2025-03-01")
            "now" "x2" Samples.collection))) eq_refl _ eq_refl _).
  - vm_compute. discriminate.
  - discriminate.
Defined.



End Instances.

(** * Further properties of script.js *)

Section OverBudget.

Import JS Script.

Lemma scaled_nonneg (d : nat) (m : positive) (e : Z) : 0 ≤ scaled d m e.
Proof.
  rewrite scaled_floor. change 0 with (Qfloor 0). apply Qfloor_resp_le.
  assert (0 < (2 ^ e)%Q)%Q by (by apply Qpower_0_lt).
  assert (0 < inject_Z (Z.pos m))%Q by reflexivity.
  assert (0 <= inject_Z (10 ^ Z.of_nat d))%Q.
  { change 0%Q with (inject_Z 0). rewrite <- Zle_Qle. apply Z.pow_nonneg. lia. }
  assert (0 <= inject_Z (10 ^ Z.of_nat d) * (inject_Z (Z.pos m) * 2 ^ e))%Q.
  { apply Qmult_le_0_compat; [done|]. apply Qlt_le_weak. by apply Qmult_lt_0_compat. }
  lra.
Qed.

(** [toFixed(2)] of a number above 0: the hundredths nearest to it, the
    larger on a tie, with a point before the last two digits. *)
Lemma toFixed_2_text (m : positive) (e : Z) :
  toFixed 2 (S754_finite false m e)
  = Spec.two_decimals (Qfloor (inject_Z 100 * Spec.magnitude (S754_finite false m e) + (1 # 2))).
Proof.
  unfold toFixed, Spec.magnitude.
  change (inject_Z 100) with (inject_Z (10 ^ Z.of_nat 2)).
  rewrite <- (scaled_floor 2 m e).
  by rewrite fixed_digits_two_decimals by apply scaled_nonneg.
Qed.

(** X1. The over-budget alert of [updateBudgetProgress]: the bar turns
    red and the alert is raised exactly when the total read is above 0 and
    the spent amount read is above the total; the alert then names the
    currency and the excess, the binary64 difference of spent and total,
    rounded to the nearest hundredth and written with two decimals (for an
    excess below 10^21).  Otherwise the message box is left as it was; a
    total that is not above 0 never raises the alert.  With a total of 100
    and 150.005 spent the bar is full, reads 100.0%, and the alert says
    $50.00. *)
Theorem over_budget_alert (d : dom) :
  let total := read_number (totalBudgetInput d) in
  let spent := read_number (budgetSpentInput d) in
  let excess := SFsub 53 1024 spent total in
  let d' := updateBudgetProgress d in
  (budgetProgressBar_red d' = true
   ↔ SFltb (S754_zero false) total = true ∧ SFltb total spent = true)
  ∧ (budgetProgressBar_red d' = true →
     ∀ m e, excess = S754_finite false m e →
       (Spec.magnitude excess < inject_Z (10 ^ 21))%Q →
       messageBox d'
       = Some ("Budget Alert",
               "You are " +:+ currencySymbolSelect d
               +:+ Spec.two_decimals (Qfloor (inject_Z 100 * Spec.magnitude excess + (1 # 2)))
               +:+ " over budget!"))
  ∧ (budgetProgressBar_red d' = false → messageBox d' = messageBox d)
  ∧ (SFltb (S754_zero false) total = false → budgetProgressBar_red d' = false)
  ∧ (let shown := updateBudgetProgress (Samples.budgetPage "100" "150.005") in
     budgetProgressBar_red shown = true
     ∧ messageBox shown = Some ("Budget Alert", "You are $50.00 over budget!")
     ∧ budgetProgressBar_width shown = Spec.number 100
     ∧ budgetPercentageSpan shown = "100.0%").
Proof.
  intros total spent excess d'.
  assert (Hred : budgetProgressBar_red d' = true
                 ↔ SFltb (S754_zero false) total = true ∧ SFltb total spent = true).
  { unfold d'. cbn [updateBudgetProgress budgetProgressBar_red]. fold total spent.
    unfold flt, zero. rewrite andb_true_iff. tauto. }
  split; [exact Hred|]. split; [|split; [|split]].
  - intros H m e He _.
    unfold d' in *. cbn [updateBudgetProgress messageBox budgetProgressBar_red] in *.
    fold total spent in H |- *. rewrite H.
    change (fsub spent total) with excess. rewrite He. by rewrite toFixed_2_text.
  - intros H. unfold d' in *. cbn [updateBudgetProgress messageBox budgetProgressBar_red] in *.
    fold total spent in H |- *. by rewrite H.
  - intros H. apply not_true_is_false. intros E.
    apply Hred in E as [E _]. congruence.
  - repeat split; vm_compute; reflexivity.
Qed.

End OverBudget.

Section Trimming.

Import JS.

Lemma rev_string_involutive (s : string) : rev_string (rev_string s) = s.
Proof.
  unfold rev_string.
  by rewrite list_ascii_of_string_of_list_ascii, rev_involutive,
    string_of_list_ascii_of_string.
Qed.

Lemma trimStart_head (s : string) :
  trimStart s = EmptyString ∨ ∃ c r, trimStart s = String c r ∧ is_ws c = false.
Proof.
  induction s as [|c s IH]; [by left|]. cbn [trimStart].
  destruct (is_ws c) eqn:E; [exact IH|]. right. by exists c, s.
Qed.

Lemma trimStart_idem (s : string) : trimStart (trimStart s) = trimStart s.
Proof.
  destruct (trimStart_head s) as [->|(c & r & -> & Hc)]; [reflexivity|].
  cbn [trimStart]. by rewrite Hc.
Qed.

Lemma trimStart_snoc (l : list ascii) (c : ascii) :
  is_ws c = false →
  ∃ l', trimStart (string_of_list_ascii (l ++ [c])) = string_of_list_ascii (l' ++ [c]).
Proof.
  intros Hc. induction l as [|a l IH]; cbn [app string_of_list_ascii trimStart].
  - exists []. by rewrite Hc.
  - destruct (is_ws a); [exact IH|]. by exists (a :: l).
Qed.

(** Trimming the end keeps a first character that is not white space. *)
Lemma trimEnd_head (c : ascii) (r : string) :
  is_ws c = false → ∃ r', trimEnd (String c r) = String c r'.
Proof.
  intros Hc. unfold trimEnd, rev_string at 2. cbn [list_ascii_of_string rev].
  destruct (trimStart_snoc (rev (list_ascii_of_string r)) c Hc) as [l' ->].
  unfold rev_string. rewrite list_ascii_of_string_of_list_ascii, rev_app_distr.
  cbn [rev app string_of_list_ascii]. by eexists.
Qed.

Lemma trimEnd_idem (s : string) : trimEnd (trimEnd s) = trimEnd s.
Proof. unfold trimEnd. by rewrite rev_string_involutive, trimStart_idem. Qed.

Lemma trim_idem (s : string) : trim (trim s) = trim s.
Proof.
  unfold trim.
  destruct (trimStart_head s) as [->|(c & r & -> & Hc)]; [reflexivity|].
  destruct (trimEnd_head c r Hc) as [r' E].
  rewrite E. cbn [trimStart]. rewrite Hc, <- E. apply trimEnd_idem.
Qed.

End Trimming.

Section SavedCategories.

Import JS Script.

(** The categories collected, as the rows with a name that is not blank,
    each with its trimmed name and the number read from its amount. *)
Lemma collect_categories_filter (rows : list categoryRow) :
  collect_categories rows
  = (λ r, {| name := trim (nameInput r); cat_amount := read_number (amountInput r) |})
    <$> filter (λ r, trim (nameInput r) ≠ EmptyString) rows.
Proof.
  induction rows as [|r rows IH]; [reflexivity|].
  unfold collect_categories in *. cbn [omap list_omap]. rewrite filter_cons.
  destruct (trim (nameInput r)) as [|x t] eqn:E; cbn [truthy_string].
  - rewrite decide_False by (intros H; by apply H). exact IH.
  - rewrite decide_True by done. cbn [fmap list_fmap]. rewrite E. f_equal. exact IH.
Qed.

Lemma collect_categories_named (rows : list categoryRow) (c : budgetCategory) :
  c ∈ collect_categories rows →
  name c ≠ EmptyString ∧ trim (name c) = name c ∧ cat_amount c ≠ S754_nan.
Proof.
  unfold collect_categories. intros (r & Hr & Hc)%list_elem_of_omap.
  destruct (trim (nameInput r)) as [|x t] eqn:E; [discriminate|].
  injection Hc as <-. cbn [name cat_amount]. split; [done|]. split.
  - rewrite <- E. apply trim_idem.
  - apply read_number_not_nan.
Qed.

Lemma read_number_assigned (x : spec_float) :
  Spec.finite x = true → x ≠ S754_zero true → read_number (Assigned x) = x.
Proof. destruct x as [[]| | |]; done. Qed.

Lemma read_number_zero (v : input_value) : read_number v ≠ S754_zero true.
Proof. destruct v as [s|[]]; try done. cbn. by destruct (parseFloat s). Qed.

Lemma collect_render (cats : list budgetCategory) :
  (∀ c, c ∈ cats → name c ≠ EmptyString ∧ trim (name c) = name c
                   ∧ Spec.finite (cat_amount c) = true
                   ∧ cat_amount c ≠ S754_zero true) →
  collect_categories (map row_of cats) = cats.
Proof.
  induction cats as [|c cats IH]; intros H; [reflexivity|].
  cbn [map]. unfold collect_categories in *. cbn [omap list_omap].
  destruct (H c (list_elem_of_here _ _)) as (Hne & Htrim & Hfin & Hz).
  cbn [row_of nameInput amountInput]. rewrite Htrim, read_number_assigned by done.
  destruct (name c) as [|x t] eqn:E; [done|]. cbn [truthy_string].
  rewrite <- E. f_equal.
  - by destruct c.
  - apply IH. intros c' Hc'. apply H. by right.
Qed.

(** X2. [saveBudgetCategories] stores, with project, database and user
    set, exactly the rows whose name is not blank, in their order, each
    with the name trimmed and the number read from its amount (0 when
    there is none), and nothing otherwise; a stored name is not empty and
    has no white space around it.  When the listener renders what was
    stored and it is saved again, the same list is stored (for names that
    the markup of a row carries as they are, and finite amounts), except
    that an empty list comes back as the single default category
    [Development] with amount 0.  The four sample rows are stored as Art
    12.5, Code 40 and Fx 0. *)
Theorem saved_categories_round_trip (s : session) (d d0 : dom) :
  let cats :=
    (λ r, {| name := trim (nameInput r); cat_amount := read_number (amountInput r) |})
    <$> filter (λ r, trim (nameInput r) ≠ EmptyString) (budgetCategoriesContainer d) in
  snd (saveBudgetCategories s d) = (if ready s then Some cats else None)
  ∧ (∀ c, c ∈ cats → name c ≠ EmptyString ∧ trim (name c) = name c
                     ∧ cat_amount c ≠ S754_nan)
  ∧ ((∀ c, c ∈ cats → Markup.attribute_safe (name c) = true
                      ∧ Spec.finite (cat_amount c) = true) →
     snd (saveBudgetCategories s
            (set_rows (budgetCategoriesContainer (renderBudgetCategories cats d0)) d))
     = (if ready s
        then Some match cats with
                  | [] => [ {| name := "Development"; cat_amount := S754_zero false |} ]
                  | _ => cats
                  end
        else None))
  ∧ snd (saveBudgetCategories Samples.session MoreSamples.categoryRows)
    = Some [ {| name := "Art"; cat_amount := parseFloat "12.5" |};
             {| name := "Code"; cat_amount := Spec.number 40 |};
             {| name := "Fx"; cat_amount := S754_zero false |} ].
Proof.
  intros cats.
  assert (Hc : collect_categories (budgetCategoriesContainer d) = cats)
    by apply collect_categories_filter.
  split; [|split; [|split]].
  - unfold saveBudgetCategories. rewrite Hc. by destruct (ready s).
  - rewrite <- Hc. apply collect_categories_named.
  - intros Hsafe. unfold saveBudgetCategories.
    destruct (ready s); [|done]. cbn [snd set_rows budgetCategoriesContainer]. f_equal.
    pose proof (collect_categories_named (budgetCategoriesContainer d)) as H.
    rewrite Hc in H. destruct cats as [|c cats'] eqn:E; [reflexivity|]. rewrite <- E in *.
    assert (Hr : budgetCategoriesContainer (renderBudgetCategories cats d0) = map row_of cats).
    { by rewrite E. }
    rewrite Hr. rewrite collect_render; [by rewrite E|].
    intros c' Hc'. destruct (H c' Hc') as (H1 & H2 & _).
    split; [done|]. split; [done|]. split; [by apply Hsafe|].
    rewrite <- Hc in Hc'. unfold collect_categories in Hc'.
    apply list_elem_of_omap in Hc' as (r & _ & Hr').
    destruct (truthy_string (trim (nameInput r))); [|discriminate].
    injection Hr' as <-. apply read_number_zero.
  - vm_compute. reflexivity.
Qed.

End SavedCategories.

Section TransactionDeletion.

Import JS Script Transactions.

(** X4. [deleteTransaction] never removes a document: the path it gives to
    [doc] has, with the id, nine segments, so after the confirmation and
    with project, database and user set it ends with the failure message;
    without the confirmation, or without project, database or user,
    nothing is attempted.  The collection is left as it was in every
    case. *)
Theorem delete_transaction_refused (s : session) (confirmed : bool)
    (transactionId : string) (transactions : gmap string transaction) :
  let result := deleteTransaction s confirmed transactionId transactions in
  fst result = transactions
  ∧ snd result
    = (if confirmed then if ready s then DeleteFailed else NotReady else Cancelled)
  ∧ length (transactions_path s ++ [transactionId]) = 9%nat
  ∧ deleteTransaction Samples.session true "x1" Samples.collection
    = (Samples.collection, DeleteFailed).
Proof.
  intros result. unfold result, deleteTransaction.
  change (Firestore.doc (transactions_path s) transactionId) with false.
  split; [by destruct confirmed, (ready s)|].
  split; [by destruct confirmed, (ready s)|].
  split; [reflexivity|]. vm_compute. reflexivity.
Qed.

End TransactionDeletion.

Section TaskForm.

Import JS Script Tasks.

Lemma task_form_ready (s : session) :
  ready s = true →
  truthy_id (currentProjectId s) = true ∧ (db s && truthy_id (currentUserId s))%bool = true.
Proof.
  unfold ready. rewrite !andb_true_iff. tauto.
Qed.

(** X5. [handleTaskFormSubmission]: nothing is written when the trimmed name
    is empty or no project is selected.  Otherwise the document written
    carries the name, the description and the assignee of the form
    trimmed, and its status, priority, due date and role as they are; a
    new task gets the progress [0%] and the time of creation; an edit
    keeps the stored progress and time of creation; an edit of a task that
    is gone writes nothing (it never creates a document).  The sample form
    named [ Build lobby ] is stored under the name [Build lobby]; a name
    made of a no-break space is refused as empty. *)
Theorem task_form_submission (s : session) (isEditingTask : bool)
    (currentEditingTaskId : option string) (f : taskForm) (now newId : string)
    (tasks : gmap string taskDoc) :
  let result :=
    handleTaskFormSubmission s isEditingTask currentEditingTaskId f now newId tasks in
  let written progress createdAt :=
    {| name := trim (taskNameInput f);
       description := trim (taskDescriptionInput f);
       status := taskStatusSelect f;
       priority := taskPrioritySelect f;
       assignee := trim (taskAssigneeInput f);
       dueDate := taskDueDateInput f;
       role := Some (taskRoleSelect f);
       progress := progress;
       createdAt := createdAt |} in
  (trim (taskNameInput f) = EmptyString → fst result = tasks)
  ∧ (truthy_id (currentProjectId s) = false → result = (tasks, NoProject))
  ∧ (ready s = true → trim (taskNameInput f) = EmptyString → snd result = NameRequired)
  ∧ (ready s = true → trim (taskNameInput f) ≠ EmptyString →
     (isEditingTask = false → tasks !! newId = None →
      snd result = TaskAdded
      ∧ fst result !! newId = Some (written (Some "0%") (Some now))
      ∧ size (fst result) = S (size tasks)
      ∧ ∀ k, k ≠ newId → fst result !! k = tasks !! k)
     ∧ (∀ id old, isEditingTask = true → currentEditingTaskId = Some id →
        id ≠ EmptyString → tasks !! id = Some old →
        snd result = TaskUpdated
        ∧ fst result !! id = Some (written (progress old) (createdAt old))
        ∧ size (fst result) = size tasks
        ∧ ∀ k, k ≠ id → fst result !! k = tasks !! k)
     ∧ (∀ id, isEditingTask = true → currentEditingTaskId = Some id →
        id ≠ EmptyString → tasks !! id = None → result = (tasks, SaveFailed)))
  ∧ name <$> fst (handleTaskFormSubmission Samples.session false None MoreSamples.taskForm
                    "now" "t2" MoreSamples.taskCollection) !! "t2"
    = Some "Build lobby"
  ∧ handleTaskFormSubmission Samples.session false None
      {| taskNameInput := String (ascii_of_nat 160) EmptyString;
         taskDescriptionInput := EmptyString; taskStatusSelect := "To Do";
         taskPrioritySelect := "Low"; taskAssigneeInput := EmptyString;
         taskDueDateInput := EmptyString; taskRoleSelect := "General" |}
      "now" "t2" MoreSamples.taskCollection
    = (MoreSamples.taskCollection, NameRequired).
Proof.
  intros result written.
  split; [|split; [|split; [|split; [|split]]]];
    [| | | |vm_compute; reflexivity|vm_compute; reflexivity].
  - intros Hn. unfold result, handleTaskFormSubmission. rewrite Hn.
    by destruct (truthy_id (currentProjectId s)), (db s && truthy_id (currentUserId s))%bool.
  - intros Hp. unfold result, handleTaskFormSubmission. by rewrite Hp.
  - intros [Hp Ha]%task_form_ready Hn. unfold result, handleTaskFormSubmission.
    by rewrite Hp, Ha, Hn.
  - intros [Hp Ha]%task_form_ready Hn.
    assert (Hres : result =
      match (if isEditingTask then currentEditingTaskId else None) with
      | Some id =>
          if truthy_string id then
            match tasks !! id with
            | Some old =>
                (<[id := written (progress old) (createdAt old)]> tasks, TaskUpdated)
            | None => (tasks, SaveFailed)
            end
          else (<[newId := written (Some "0%") (Some now)]> tasks, TaskAdded)
      | None => (<[newId := written (Some "0%") (Some now)]> tasks, TaskAdded)
      end).
    { unfold result, handleTaskFormSubmission. rewrite Hp, Ha. cbn [negb].
      destruct (truthy_string (trim (taskNameInput f))) eqn:E.
      - reflexivity.
      - by destruct (trim (taskNameInput f)). }
    split; [|split].
    + intros -> Hfresh. rewrite Hres. cbn [fst snd]. split; [reflexivity|].
      split; [by rewrite lookup_insert_eq|]. split.
      * by apply map_size_insert_None.
      * intros k Hk. by rewrite lookup_insert_ne.
    + intros id old -> -> Hid Hold. rewrite Hres.
      destruct id as [|c id]; [done|]. cbn [truthy_string]. rewrite Hold. cbn [fst snd].
      split; [reflexivity|]. split; [by rewrite lookup_insert_eq|]. split.
      * by apply map_size_insert_Some.
      * intros k Hk. by rewrite lookup_insert_ne.
    + intros id -> -> Hid Hnone. rewrite Hres.
      destruct id as [|c id]; [done|]. cbn [truthy_string]. by rewrite Hnone.
Qed.

End TaskForm.

Section Invitations.

Import JS Script Team.

Lemma before_prefix (c : ascii) (s : string) :
  ∃ rest, s = String.app (before c s) rest
          ∧ (rest = EmptyString ∨ ∃ r, rest = String c r).
Proof.
  induction s as [|x s (rest & IH & Hrest)]; cbn [before].
  - exists EmptyString. split; [reflexivity | by left].
  - destruct (Ascii.eqb x c) eqn:E.
    + apply Ascii.eqb_eq in E as ->. exists (String c s).
      split; [reflexivity | right; by eexists].
    + exists rest. split; [|exact Hrest].
      change (String x s = String x (String.app (before c s) rest)). by rewrite <- IH.
Qed.

Lemma before_free (c : ascii) (s : string) : c ∉ list_ascii_of_string (before c s).
Proof.
  induction s as [|x s IH]; cbn [before].
  - apply not_elem_of_nil.
  - destruct (Ascii.eqb x c) eqn:E; [apply not_elem_of_nil|].
    cbn [list_ascii_of_string]. apply not_elem_of_cons. split; [|exact IH].
    intros ->. by rewrite Ascii.eqb_refl in E.
Qed.

(** X6. [handleInviteTeamMember]: an empty trimmed email writes nothing; a
    non-empty one adds exactly one member, whose name is the part of the
    email before its first [@]: the name contains no [@], the email is the
    name alone or the name followed by [@] and more; an email beginning
    with [@] gives a member with an empty name, shown as [Unknown].  An
    email of a no-break space and a blank is refused as empty. *)
Theorem invited_member_name (s : session) (memberEmailInput memberRoleInput : string)
    (now newId : string) (team : gmap string memberDoc) :
  let result := handleInviteTeamMember s memberEmailInput memberRoleInput now newId team in
  (trim memberEmailInput = EmptyString → fst result = team)
  ∧ (ready s = true → trim memberEmailInput = EmptyString → snd result = EmailRequired)
  ∧ (ready s = true → trim memberEmailInput ≠ EmptyString → team !! newId = None →
     snd result = Invited
     ∧ size (fst result) = S (size team)
     ∧ ∃ m, fst result !! newId = Some m
         ∧ email m = trim memberEmailInput
         ∧ role m = trim memberRoleInput
         ∧ ("@"%char ∉ list_ascii_of_string (name m))
         ∧ (∃ rest, email m = String.app (name m) rest
                    ∧ (rest = EmptyString ∨ ∃ r, rest = String "@" r))
         ∧ ((∃ r, email m = String "@" r) → card_name m = "Unknown"))
  ∧ handleInviteTeamMember Samples.session (String (ascii_of_nat 160) " ") "Builder"
      "now" "m2" MoreSamples.team
    = (MoreSamples.team, EmailRequired).
Proof.
  intros result. split; [|split; [|split]]; [| | |vm_compute; reflexivity].
  - intros He. unfold result, handleInviteTeamMember. rewrite He.
    by destruct (truthy_id (currentProjectId s)), (db s && truthy_id (currentUserId s))%bool.
  - intros [Hp Ha]%task_form_ready He. unfold result, handleInviteTeamMember.
    by rewrite Hp, Ha, He.
  - intros [Hp Ha]%task_form_ready He Hfresh. unfold result, handleInviteTeamMember.
    rewrite Hp, Ha. cbn [negb].
    destruct (trim memberEmailInput) as [|x e] eqn:E; [done|].
    change (Firestore.collection (project_path s ++ ["team"])) with true.
    cbn [truthy_string negb fst snd]. split; [reflexivity|].
    split; [by apply map_size_insert_None|].
    eexists. rewrite lookup_insert_eq. split; [reflexivity|]. cbn [email role name].
    split; [reflexivity|]. split; [reflexivity|].
    split; [apply before_free|]. split; [apply before_prefix|].
    intros [r [= -> ->]]. reflexivity.
Qed.

End Invitations.

Section ProjectSelection.

Import JS Navigation.

Lemma load_listeners (refs : bool) (ls : list listener) (projectId : string) (p : page) :
  unsubscribeProjectListeners (load refs ls projectId p)
  = if (authenticated p && truthy_string projectId && refs)%bool
    then unsubscribeProjectListeners p ++ ls else unsubscribeProjectListeners p.
Proof.
  unfold load. by destruct (authenticated p && truthy_string projectId)%bool, refs.
Qed.

Lemma load_keeps (refs : bool) (ls : list listener) (projectId : string) (p : page) :
  currentProjectId (load refs ls projectId p) = currentProjectId p
  ∧ authenticated (load refs ls projectId p) = authenticated p
  ∧ view (load refs ls projectId p) = view p
  ∧ sidebarHidden (load refs ls projectId p) = sidebarHidden p.
Proof.
  unfold load. by destruct (authenticated p && truthy_string projectId)%bool, refs.
Qed.

(** [loadProjectBudget] registers no listener: the path of the
    transactions has eight segments. *)
Lemma loadProjectBudget_refused (projectId : string) (p : page) :
  loadProjectBudget projectId p = p.
Proof.
  unfold loadProjectBudget, load.
  change (Firestore.collection (project_path projectId p ++ ["budget"; "transactions"]))
    with false.
  rewrite andb_false_r. by destruct (authenticated p && truthy_string projectId)%bool.
Qed.

(** What [selectProject] leaves when the project is found. *)
Lemma resume_found (projectId : string) (p : page) :
  unsubscribeProjectListeners (selectProject_resume projectId Found p)
  = (if (authenticated p && truthy_string projectId)%bool
     then unsubscribeProjectListeners p ++ [TasksOf projectId; TeamOf projectId]
     else unsubscribeProjectListeners p)
  ∧ currentProjectId (selectProject_resume projectId Found p) = currentProjectId p
  ∧ view (selectProject_resume projectId Found p) = view p
  ∧ sidebarHidden (selectProject_resume projectId Found p) = sidebarHidden p
  ∧ authenticated (selectProject_resume projectId Found p) = authenticated p.
Proof.
  cbn [selectProject_resume]. rewrite loadProjectBudget_refused.
  unfold loadProjectTeam, loadProjectTasks.
  change (Firestore.collection (project_path projectId _ ++ ["team"])) with true.
  change (Firestore.collection (project_path projectId p ++ ["tasks"])) with true.
  pose proof (load_keeps true [TasksOf projectId] projectId p) as (C1 & A1 & V1 & S1).
  pose proof (load_keeps true [TeamOf projectId] projectId
                (load true [TasksOf projectId] projectId p)) as (C3 & A3 & V3 & S3).
  rewrite C3, C1, V3, V1, S3, S1, A3, A1.
  split; [|done]. rewrite !load_listeners, A1, !andb_true_r.
  destruct (authenticated p && truthy_string projectId)%bool; [|reflexivity].
  by rewrite <- !app_assoc.
Qed.

Lemma selectProject_tidy (projectId : string) (r : fetched) (p : page) :
  tidy p → tidy (selectProject projectId r p).
Proof.
  intros Hp. unfold selectProject, selectProject_begin.
  destruct (authenticated p) eqn:Ha; [|exact Hp].
  destruct r.
  - match goal with |- tidy (selectProject_resume _ _ ?q) =>
      pose proof (resume_found projectId q) as (L & C & _) end.
    unfold tidy. rewrite L, C. cbn.
    destruct (authenticated _ && truthy_string projectId)%bool; cbn.
    + split; [|lia]. intros l Hl. apply list_elem_of_In in Hl. simpl in Hl.
      by destruct Hl as [<-|[<-|[]]].
    + split; [|lia]. intros l Hl. by apply elem_of_nil in Hl.
  - split; cbn; [|lia]. intros l Hl. by apply elem_of_nil in Hl.
  - split; cbn; [|lia]. intros l Hl. by apply elem_of_nil in Hl.
Qed.

Lemma on_click_tidy (c : click) (p : page) : tidy p → tidy (on_click c p).
Proof.
  intros Hp. destruct c as [projectId r| |section]; cbn [on_click].
  - by apply selectProject_tidy.
  - split; cbn; [|lia]. intros l Hl. by apply elem_of_nil in Hl.
  - by destruct (Script.truthy_id (currentProjectId p)).
Qed.

(** X7. Whatever the user clicks (project cards, [My Projects], the navigation
    buttons), with each selection finishing before the next click, every
    running listener belongs to the current project and at most four are
    running. *)
Theorem listeners_stay_tidy (cs : list click) (p : page) :
  tidy p → tidy (clicks cs p).
Proof.
  revert p. induction cs as [|c cs IH]; intros p Hp; [exact Hp|].
  unfold clicks in *. cbn [fold_left]. apply IH. by apply on_click_tidy.
Qed.

(** X8. Selecting a project that exists shows its overview beside the
    sidebar and starts the listeners of its tasks and of its team, and no
    listener of its budget: [loadProjectBudget] throws on the path of the
    transactions before it registers any.  Selecting a project that does
    not exist goes back to the dashboard with no listener, but the missing
    project stays the current one: a section button then opens its
    section. *)
Theorem missing_project_stays_current (projectId section : string) (p : page) :
  authenticated p = true → projectId ≠ EmptyString →
  (unsubscribeProjectListeners (selectProject projectId Found p)
   = [TasksOf projectId; TeamOf projectId]
   ∧ currentProjectId (selectProject projectId Found p) = Some projectId
   ∧ view (selectProject projectId Found p) = "project-overview-view"
   ∧ sidebarHidden (selectProject projectId Found p) = false)
  ∧ (∀ q, unsubscribeProjectListeners (loadProjectBudget projectId q)
          = unsubscribeProjectListeners q)
  ∧ (unsubscribeProjectListeners (selectProject projectId Missing p) = []
     ∧ currentProjectId (selectProject projectId Missing p) = Some projectId
     ∧ view (selectProject projectId Missing p) = "dashboard-view"
     ∧ sidebarHidden (selectProject projectId Missing p) = true
     ∧ view (on_click (NavButton section) (selectProject projectId Missing p))
       = String.app "project-" (String.app section "-view")
     ∧ sidebarHidden (on_click (NavButton section) (selectProject projectId Missing p))
       = false).
Proof.
  intros Ha Hid.
  assert (Ht : truthy_string projectId = true) by (by destruct projectId).
  split; [|split].
  - unfold selectProject, selectProject_begin. rewrite Ha.
    match goal with |- context [selectProject_resume _ _ ?q] =>
      pose proof (resume_found projectId q) as (L & C & V & S & _) end.
    rewrite L, C, V, S. cbn. change (authenticated _) with (authenticated p).
    rewrite Ha, Ht. by cbn.
  - intros q. by rewrite loadProjectBudget_refused.
  - unfold selectProject, selectProject_begin. rewrite Ha. cbn.
    destruct projectId; [done|]. cbn. repeat split; by destruct section.
Qed.

(** X9. When a second project is picked while the first is still being
    fetched, the listeners of both are started: four listeners run, two
    of them on the project that is no longer the current one. *)
Theorem overlapping_selections_leak (a b : string) (p : page) :
  authenticated p = true → a ≠ EmptyString → b ≠ EmptyString →
  unsubscribeProjectListeners (overlapping a b p)
  = [TasksOf a; TeamOf a; TasksOf b; TeamOf b]
  ∧ currentProjectId (overlapping a b p) = Some b
  ∧ (a ≠ b → ¬ tidy (overlapping a b p)).
Proof.
  intros Ha Hna Hnb.
  assert (Hta : truthy_string a = true) by (by destruct a).
  assert (Htb : truthy_string b = true) by (by destruct b).
  assert (HL : unsubscribeProjectListeners (overlapping a b p)
    = [TasksOf a; TeamOf a; TasksOf b; TeamOf b]
    ∧ currentProjectId (overlapping a b p) = Some b).
  { unfold overlapping, selectProject_begin. rewrite Ha. cbn [fst].
    change (authenticated (switchView _ _)) with (authenticated p). rewrite Ha. cbn [fst].
    match goal with |- context [selectProject_resume b Found ?q] =>
      pose proof (resume_found b q) as (L & C & _) end.
    rewrite L, C.
    match goal with |- context [selectProject_resume a Found ?q] =>
      pose proof (resume_found a q) as (L' & C' & _ & _ & A')
    end.
    rewrite L', C', A'. cbn.
    change (authenticated _) with (authenticated p). rewrite Ha, Hta, Htb. by cbn. }
  destruct HL as [HL HC]. split; [exact HL|]. split; [exact HC|].
  intros Hab [Hall _]. rewrite HL, HC in Hall.
  specialize (Hall (TasksOf a) (list_elem_of_here _ _)). cbn in Hall. congruence.
Qed.

End ProjectSelection.

(** * Further properties of the React application *)

Section TaskBoard.

Import JS App Board.

Lemma filter_split_role (r : string) (rs : list string) (ts : list (string * task)) :
  r ∉ rs →
  filter (λ t, task_role t.2 ∈ r :: rs) ts
  ≡ₚ filter (λ t, task_role t.2 = r) ts ++ filter (λ t, task_role t.2 ∈ rs) ts.
Proof.
  intros Hr. induction ts as [|t ts IH]; [reflexivity|].
  rewrite !filter_cons.
  destruct (decide (task_role t.2 = r)) as [E|E].
  - rewrite decide_True by (rewrite E; left).
    rewrite decide_False by (by rewrite E). cbn. by rewrite IH.
  - destruct (decide (task_role t.2 ∈ rs)) as [I|I].
    + rewrite decide_True by (by right). rewrite IH. apply Permutation_middle.
    + rewrite decide_False; [exact IH|].
      intros [?|?]%elem_of_cons; contradiction.
Qed.

Lemma cards_of_roles (rs : list string) (ts : list (string * task)) :
  NoDup rs →
  concat ((λ role, column role ts) <$> rs) ≡ₚ filter (λ t, task_role t.2 ∈ rs) ts.
Proof.
  induction 1 as [|r rs Hr Hnd IH]; cbn [fmap list_fmap concat].
  - induction ts as [|t ts IHts]; [reflexivity|].
    rewrite filter_cons, decide_False by apply not_elem_of_nil. exact IHts.
  - rewrite filter_split_role by exact Hr. unfold column at 1. by rewrite IH.
Qed.

Lemma roles_NoDup : NoDup roles.
Proof. apply (bool_decide_unpack _). vm_compute. exact I. Qed.

(** X10. The cards of the board, column after column, are the tasks whose role
    is one of the six columns, each of them once: a task with another role
    is on no column. *)
Theorem board_shows_known_roles (tasks : list (string * task)) :
  concat ((columns tasks).*2) ≡ₚ filter (λ t, task_role t.2 ∈ roles) tasks
  ∧ (columns tasks).*1 = roles
  ∧ (∀ t role cards, task_role t.2 ∉ roles → (role, cards) ∈ columns tasks → t ∉ cards)
  ∧ (∀ t role cards, (role, cards) ∈ columns tasks →
       (t ∈ cards ↔ t ∈ tasks ∧ task_role t.2 = role)).
Proof.
  assert (Hcol : ∀ role cards, (role, cards) ∈ columns tasks →
                   role ∈ roles ∧ cards = column role tasks).
  { intros role cards (r & [= -> ->] & Hr)%list_elem_of_fmap. by split. }
  split; [|split; [|split]].
  - unfold columns. rewrite <- list_fmap_compose.
    apply (cards_of_roles roles tasks), roles_NoDup.
  - unfold columns. rewrite <- list_fmap_compose. apply list_fmap_id.
  - intros t role cards Ht [Hr ->]%Hcol [E _]%list_elem_of_filter.
    apply Ht. by rewrite E.
  - intros t role cards [_ ->]%Hcol. unfold column. rewrite list_elem_of_filter. tauto.
Qed.

Lemma fetchedTasks_lookup (projectId taskId : string) (t : task) (st : store) :
  (taskId, t) ∈ fetchedTasks projectId st ↔ tasks st !! (projectId, taskId) = Some t.
Proof.
  unfold fetchedTasks. rewrite list_elem_of_omap. split.
  - intros ([[p i] t'] & Hin & Heq). cbn in Heq.
    destruct (decide (p = projectId)) as [->|]; [|discriminate].
    injection Heq as -> ->. by apply elem_of_map_to_list in Hin.
  - intros H. exists (projectId, taskId, t). split; [by apply elem_of_map_to_list|].
    cbn. by rewrite decide_True.
Qed.

(** X11. A card dropped on a column: the role of the task becomes the role of
    the column and nothing else of it changes, the card is then in that
    column only, and exactly one [Task Role Changed] entry is logged, also
    when the card is dropped on the column it came from.  When the task is
    gone nothing is written or logged. *)
Theorem card_dropped_on_column (fb : firebase)
    (projectId taskId newRole taskName now uid : string) (st : store) :
  authenticated fb = Some uid → truthy_string projectId = true →
  taskId ≠ EmptyString →
  let result := updateTaskRole fb projectId taskId newRole taskName now st in
  (∀ t, tasks st !! (projectId, taskId) = Some t →
     snd result = Saved
     ∧ tasks (fst result) !! (projectId, taskId) = Some (set_role newRole t)
     ∧ (∀ k, k ≠ (projectId, taskId) → tasks (fst result) !! k = tasks st !! k)
     ∧ projects (fst result) = projects st
     ∧ (∃ entry, activityLogs (fst result) = activityLogs st ++ [entry]
                 ∧ type entry = "Task Role Changed")
     ∧ (∀ role t', (taskId, t') ∈ column role (fetchedTasks projectId (fst result))
                   ↔ role = newRole ∧ t' = set_role newRole t))
  ∧ (tasks st !! (projectId, taskId) = None → result = (st, Failed)).
Proof.
  intros Ha Hp Hid result.
  assert (Ht : truthy_string taskId = true) by (by destruct taskId).
  split.
  - intros t Hlook. unfold result, updateTaskRole. rewrite Ha, Hp, Ht, Hlook.
    cbn [fst snd tasks projects activityLogs].
    split; [reflexivity|]. split; [by rewrite lookup_insert_eq|].
    split; [intros k Hk; by rewrite lookup_insert_ne|].
    split; [reflexivity|]. split; [by eexists|].
    intros role t'. unfold column. rewrite list_elem_of_filter, fetchedTasks_lookup.
    cbn [tasks snd]. rewrite lookup_insert_eq. split.
    + intros [<- [= <-]]. by split.
    + intros [-> ->]. by split.
  - intros Hnone. unfold result, updateTaskRole. by rewrite Ha, Hp, Ht, Hnone.
Qed.

End TaskBoard.

Section CategoriesForm.

Import JS App Categories.

Variable toLowerCase : string → string.

Lemma findIndex_Some {A : Type} (p : A → bool) (l : list A) (i : nat) :
  findIndex p l = Some i
  ↔ (∃ x, l !! i = Some x ∧ p x = true)
    ∧ ∀ j y, (j < i)%nat → l !! j = Some y → p y = false.
Proof.
  revert i. induction l as [|a l IH]; intros i; cbn [findIndex].
  - split; [discriminate|]. by intros [(x & Hx & _) _].
  - destruct (p a) eqn:Ea.
    + split.
      * intros [= <-]. split; [by exists a|]. intros j y Hj. lia.
      * intros [(x & Hx & Hpx) Hmin]. destruct i as [|i]; [reflexivity|].
        specialize (Hmin 0%nat a ltac:(lia) eq_refl). congruence.
    + destruct (findIndex p l) as [k|] eqn:Ek; cbn [fmap option_fmap option_map].
      * split.
        -- intros [= <-]. destruct (proj1 (IH k) eq_refl) as [(x & Hx & Hpx) Hmin].
           split; [by exists x|]. intros [|j] y Hj Hy.
           ++ by injection Hy as <-.
           ++ apply (Hmin j y); [lia|exact Hy].
        -- intros [(x & Hx & Hpx) Hmin]. destruct i as [|i].
           ++ injection Hx as ->. congruence.
           ++ assert (HS : Some k = Some i); [|by injection HS as ->].
              apply IH. split; [by exists x|].
              intros j y Hj Hy. apply (Hmin (S j) y); [lia|exact Hy].
      * split; [discriminate|].
        intros [(x & Hx & Hpx) Hmin]. destruct i as [|i].
        -- injection Hx as ->. congruence.
        -- assert (HS : None = Some i); [|discriminate].
           apply IH. split; [by exists x|].
           intros j y Hj Hy. apply (Hmin (S j) y); [lia|exact Hy].
Qed.

Lemma filter_none {A : Type} (P : A → Prop) `{∀ x, Decision (P x)} (l : list A) :
  (∀ x, x ∈ l → ¬ P x) → filter P l = [].
Proof.
  induction l as [|x l IH]; intros Hall; [reflexivity|].
  rewrite filter_cons, decide_False by (apply Hall; left).
  apply IH. intros y Hy. apply Hall. by right.
Qed.

Lemma duplicateCategories_nil (cs : list category) :
  duplicateCategories toLowerCase cs = []
  ↔ NoDup ((λ c, toLowerCase (cat_name c)) <$> cs).
Proof.
  unfold duplicateCategories. split.
  - intros H%fmap_nil_inv. apply NoDup_alt. intros i j x Hi Hj.
    apply list_lookup_fmap_Some in Hi as (ci & -> & Hci).
    apply list_lookup_fmap_Some in Hj as (cj & Hk & Hcj).
    assert (Hfirst : ∀ k c, cs !! k = Some c →
              findIndex (λ t, String.eqb (toLowerCase (cat_name t))
                                         (toLowerCase (cat_name c))) cs = Some k).
    { intros k c Hk'.
      destruct (decide (Some k = findIndex
                  (λ t, String.eqb (toLowerCase (cat_name t)) (toLowerCase (cat_name c)))
                  cs)) as [E|E]; [done|].
      exfalso. eapply (filter_nil_not_elem_of _ _ (k, c) H); [exact E|].
      by apply (elem_of_lookup_imap_2 pair). }
    pose proof (proj2 (proj1 (findIndex_Some _ _ _) (Hfirst i ci Hci))) as Hmi.
    pose proof (proj2 (proj1 (findIndex_Some _ _ _) (Hfirst j cj Hcj))) as Hmj.
    destruct (Nat.lt_trichotomy i j) as [Hlt|[->|Hlt]]; [|reflexivity|].
    + specialize (Hmj i ci Hlt Hci). apply String.eqb_neq in Hmj. congruence.
    + specialize (Hmi j cj Hlt Hcj). apply String.eqb_neq in Hmi. congruence.
  - intros Hnd.
    rewrite filter_none; [reflexivity|].
    intros [k c] (k' & c' & [= <- <-] & Hk)%elem_of_lookup_imap Hne. apply Hne. cbn.
    symmetry. apply findIndex_Some. split.
    + exists c. split; [exact Hk | apply String.eqb_refl].
    + intros j y Hj Hy. apply String.eqb_neq. intros Hkey.
      assert (j = k); [|lia].
      apply (NoDup_lookup _ _ _ (toLowerCase (cat_name c)) Hnd);
        rewrite list_lookup_fmap; [by rewrite Hy, <- Hkey | by rewrite Hk].
Qed.

Lemma blank_check (c : category) :
  (negb (truthy_string (cat_name c)) || String.eqb (trim (cat_name c)) EmptyString)%bool = true
  ↔ trim (cat_name c) = EmptyString.
Proof.
  rewrite orb_true_iff, String.eqb_eq. split; [|by right].
  intros [H|H]; [|exact H]. by destruct (cat_name c).
Qed.

Lemma handleSubmit_EmptyName (cs : list category) :
  handleSubmit toLowerCase cs = EmptyName
  ↔ ∃ c, c ∈ cs ∧ trim (cat_name c) = EmptyString.
Proof.
  unfold handleSubmit.
  destruct (existsb _ cs) eqn:E.
  - split; [intros _|done]. apply existsb_exists in E as (c & Hc & Hb).
    exists c. split; [by apply list_elem_of_In | by apply blank_check].
  - split; [by destruct (0 <? _)%nat|].
    intros (c & Hc & Hb). assert (existsb
      (λ cat, negb (truthy_string (cat_name cat))
              || String.eqb (trim (cat_name cat)) EmptyString) cs = true); [|congruence].
    apply existsb_exists. exists c. split; [by apply list_elem_of_In | by apply blank_check].
Qed.

Lemma handleSubmit_Accepted (cs : list category) :
  handleSubmit toLowerCase cs = Accepted
  ↔ (∀ c, c ∈ cs → trim (cat_name c) ≠ EmptyString)
    ∧ NoDup ((λ c, toLowerCase (cat_name c)) <$> cs).
Proof.
  rewrite <- duplicateCategories_nil. split.
  - intros H. split.
    + intros c Hc Hb.
      assert (handleSubmit toLowerCase cs = EmptyName) by (apply handleSubmit_EmptyName; eauto).
      congruence.
    + unfold handleSubmit in H. destruct (existsb _ cs); [discriminate|].
      by destruct (duplicateCategories toLowerCase cs).
  - intros [Hb Hd]. unfold handleSubmit. rewrite Hd.
    destruct (existsb _ cs) eqn:E; [|reflexivity].
    apply existsb_exists in E as (c & Hc & Hbl). exfalso.
    apply (Hb c); [by apply list_elem_of_In | by apply blank_check].
Qed.

Lemma removeCategory_sublist (index : nat) (cs : list category) :
  removeCategory index cs `sublist_of` cs.
Proof.
  unfold removeCategory.
  assert (E : (imap pair cs).*2 = cs).
  { rewrite fmap_imap. rewrite <- (list_fmap_id cs) at 2. by rewrite <- imap_const. }
  rewrite <- E at 2. apply fmap_sublist, sublist_filter.
Qed.

(** X12. The checks of the categories form: a list of categories is accepted
    exactly when no name is empty after trimming and no two names are
    equal up to the case of their letters; so the names of an accepted
    list are pairwise distinct.  A category just added (its name is
    empty) makes the list rejected, and so does a category whose name is a
    no-break space; removing a category from an accepted list leaves it
    accepted. *)
Theorem categories_form_validated (cs : list category) :
  (handleSubmit toLowerCase cs = Accepted
   ↔ (∀ c, c ∈ cs → trim (cat_name c) ≠ EmptyString)
     ∧ NoDup ((λ c, toLowerCase (cat_name c)) <$> cs))
  ∧ (handleSubmit toLowerCase cs = Accepted → NoDup (cat_name <$> cs))
  ∧ (handleSubmit toLowerCase cs = EmptyName
     ↔ ∃ c, c ∈ cs ∧ trim (cat_name c) = EmptyString)
  ∧ handleSubmit toLowerCase (addCategory cs) = EmptyName
  ∧ handleSubmit toLowerCase
      [ {| cat_name := String (ascii_of_nat 160) EmptyString;
           allocatedAmount := S754_zero false |} ] = EmptyName
  ∧ (handleSubmit toLowerCase cs = Accepted →
     ∀ index, handleSubmit toLowerCase (removeCategory index cs) = Accepted).
Proof.
  split; [apply handleSubmit_Accepted|].
  split; [|split; [apply handleSubmit_EmptyName|split; [|split; [reflexivity|]]]].
  - intros [_ Hnd]%handleSubmit_Accepted.
    rewrite (list_fmap_compose cat_name toLowerCase) in Hnd.
    by apply NoDup_fmap_1 in Hnd.
  - apply handleSubmit_EmptyName. exists blank. split; [|reflexivity].
    unfold addCategory. apply elem_of_app. right. apply list_elem_of_here.
  - intros [Hb Hnd]%handleSubmit_Accepted index. apply handleSubmit_Accepted.
    pose proof (removeCategory_sublist index cs) as Hsub. split.
    + intros c Hc. apply Hb. by eapply elem_of_sublist.
    + eapply sublist_NoDup; [exact Hnd|]. by apply fmap_sublist.
Qed.

End CategoriesForm.

Section CategoryCards.

Import JS App.



End CategoryCards.

Section TeamMembers.

Import JS App TeamManagement.

Lemma member_eqb_eq (a b : member) : member_eqb a b = true ↔ a = b.
Proof.
  unfold member_eqb. rewrite !andb_true_iff, !String.eqb_eq. split.
  - intros [[H1 H2] H3]. destruct a, b. cbn in *. by subst.
  - by intros ->.
Qed.

Lemma arrayUnion_old (m : member) (l : list member) : m ∈ l → arrayUnion m l = l.
Proof.
  intros Hin. unfold arrayUnion.
  assert (E : existsb (member_eqb m) l = true); [|by rewrite E].
  apply existsb_exists. exists m. split; [by apply list_elem_of_In | by apply member_eqb_eq].
Qed.

Lemma arrayUnion_new (m : member) (l : list member) : m ∉ l → arrayUnion m l = l ++ [m].
Proof.
  intros Hnot. unfold arrayUnion. destruct (existsb (member_eqb m) l) eqn:E; [|reflexivity].
  apply existsb_exists in E as (x & Hx & ->%member_eqb_eq).
  exfalso. by apply Hnot, list_elem_of_In.
Qed.

Lemma NoDup_fmap_eq {A B : Type} (f : A → B) (l : list A) (x y : A) :
  NoDup (f <$> l) → x ∈ l → y ∈ l → f x = f y → x = y.
Proof.
  intros Hnd [i Hi]%list_elem_of_lookup_1 [j Hj]%list_elem_of_lookup_1 E.
  assert (i = j) as ->.
  { apply (NoDup_lookup _ _ _ (f x) Hnd); rewrite list_lookup_fmap.
    - by rewrite Hi.
    - by rewrite Hj, E. }
  congruence.
Qed.

Lemma known_userId (m : member) (l : list member) :
  existsb (λ member, String.eqb (userId member) (userId m)) l = true
  ↔ userId m ∈ userId <$> l.
Proof.
  rewrite existsb_exists, list_elem_of_fmap. split.
  - intros (x & Hx & E%String.eqb_eq). exists x. split; [done | by apply list_elem_of_In].
  - intros (x & E & Hx). exists x. split; [by apply list_elem_of_In | by apply String.eqb_eq].
Qed.

(** X16. Adding a member when the component has the stored team: a user id
    that is in the team is refused and nothing is written or logged, not
    even a new role; any other member is added at the end, with one log
    entry; so the user ids of the team stay pairwise distinct.  When the
    component has an older team without the user id, a member with the
    id of a stored one but another role or name is added beside it. *)
Theorem team_user_ids_distinct (fb : firebase) (projectId now uid : string)
    (m : member) (st : store) (p : project) :
  authenticated fb = Some uid → truthy_string projectId = true →
  projects st !! projectId = Some p →
  let result := handleAddMember fb projectId (teamMembers p) m now st in
  (userId m ∈ userId <$> teamMembers p → result = (st, AlreadyMember))
  ∧ (userId m ∉ userId <$> teamMembers p →
     snd result = MemberAdded
     ∧ projects (fst result) !! projectId
       = Some (set_teamMembers (teamMembers p ++ [m]) p)
     ∧ length (activityLogs (fst result)) = S (length (activityLogs st)))
  ∧ (NoDup (userId <$> teamMembers p) →
     ∃ p', projects (fst result) !! projectId = Some p'
           ∧ NoDup (userId <$> teamMembers p'))
  ∧ (∀ stale m0, NoDup (userId <$> teamMembers p) → userId m ∉ userId <$> stale →
       m0 ∈ teamMembers p → userId m0 = userId m → m0 ≠ m →
       ∃ p', projects (fst (handleAddMember fb projectId stale m now st)) !! projectId
             = Some p'
             ∧ teamMembers p' = teamMembers p ++ [m]
             ∧ ¬ NoDup (userId <$> teamMembers p')).
Proof.
  intros Ha Hp Hproj result.
  assert (Hnew : ∀ props, userId m ∉ userId <$> props →
            handleAddMember fb projectId props m now st
            = ({| projects :=
                    <[projectId := set_teamMembers (arrayUnion m (teamMembers p)) p]>
                      (projects st);
                  tasks := tasks st;
                  activityLogs :=
                    activityLogs st ++
                    [log_entry projectId now "Team Member Added"
                       (String.app "User "
                          (String.app
                             (quoted (if truthy_string (displayName m)
                                      then displayName m else userId m))
                             (String.app " joined the team as "
                                (String.app (quoted (role m)) "."))))
                       uid] |}, MemberAdded)).
  { intros props Hprops. unfold handleAddMember. rewrite Ha, Hp, Hproj. cbn [negb].
    destruct (existsb _ props) eqn:E; [|reflexivity].
    by apply known_userId in E. }
  assert (Hold : userId m ∈ userId <$> teamMembers p → result = (st, AlreadyMember)).
  { intros Hin. unfold result, handleAddMember. rewrite Ha, Hp. cbn [negb].
    by rewrite (proj2 (known_userId m (teamMembers p)) Hin). }
  assert (Hfresh : userId m ∉ userId <$> teamMembers p →
            arrayUnion m (teamMembers p) = teamMembers p ++ [m]).
  { intros Hnot. apply arrayUnion_new.
    intros Hin. apply Hnot, list_elem_of_fmap. by exists m. }
  split; [exact Hold|]. split; [|split].
  - intros Hnot. unfold result. rewrite (Hnew _ Hnot). cbn [fst snd projects activityLogs].
    split; [reflexivity|]. split.
    + by rewrite lookup_insert_eq, Hfresh.
    + rewrite length_app. cbn. lia.
  - intros Hnd. destruct (decide (userId m ∈ userId <$> teamMembers p)) as [Hin|Hnot].
    + rewrite (Hold Hin). exists p. by split.
    + unfold result. rewrite (Hnew _ Hnot). cbn [fst projects].
      eexists. rewrite lookup_insert_eq. split; [reflexivity|].
      cbn [set_teamMembers teamMembers]. rewrite (Hfresh Hnot), fmap_app.
      apply NoDup_app. split; [exact Hnd|]. split; [|apply NoDup_singleton].
      intros x Hx [->|[]%elem_of_nil]%elem_of_cons. contradiction.
  - intros stale m0 Hnd Hstale Hm0 Hid Hne. rewrite (Hnew _ Hstale). cbn [fst projects].
    eexists. rewrite lookup_insert_eq. split; [reflexivity|].
    cbn [set_teamMembers teamMembers].
    assert (Hu : arrayUnion m (teamMembers p) = teamMembers p ++ [m]).
    { apply arrayUnion_new. intros Hin. apply Hne.
      by apply (NoDup_fmap_eq userId (teamMembers p)). }
    rewrite Hu. split; [reflexivity|].
    rewrite fmap_app. intros (_ & Hdis & _)%NoDup_app.
    apply (Hdis (userId m)); [|left].
    apply list_elem_of_fmap. by exists m0.
Qed.

End TeamMembers.

Section UnchangedSave.

Import JS App TaskDetail.

Lemma before_T_date (d rest : string) :
  ("T"%char ∉ list_ascii_of_string d) →
  before_T (String.app d (String "T" rest)) = d.
Proof.
  induction d as [|c d IH]; intros Hd.
  - reflexivity.
  - cbn [list_ascii_of_string] in Hd. apply not_elem_of_cons in Hd as [Hc Hd].
    change (before_T (String c (String.app d (String "T" rest))) = String c d).
    cbn [before_T]. destruct (Ascii.eqb c "T") eqn:E.
    + apply Ascii.eqb_eq in E. congruence.
    + by rewrite IH.
Qed.

Lemma before_T_plain (d : string) :
  ("T"%char ∉ list_ascii_of_string d) → before_T d = d.
Proof.
  induction d as [|c d IH]; intros Hd; [reflexivity|].
  cbn [list_ascii_of_string] in Hd. apply not_elem_of_cons in Hd as [Hc Hd].
  cbn [before_T]. destruct (Ascii.eqb c "T") eqn:E.
  - apply Ascii.eqb_eq in E. congruence.
  - by rewrite IH.
Qed.

Lemma append_longer (d r : string) : r ≠ EmptyString → String.app d r ≠ d.
Proof.
  intros Hr. induction d as [|c d IH]; [exact Hr|].
  change (String c (String.app d r) ≠ String c d). by intros [= E].
Qed.

Lemma digit_not_T (c : ascii) (d : Z) : digit_of c = Some d → c ≠ "T"%char.
Proof. intros H ->. vm_compute in H. discriminate. Qed.

Lemma is_date_no_T (s : string) :
  is_date s = true → "T"%char ∉ list_ascii_of_string s.
Proof.
  unfold is_date.
  destruct (list_ascii_of_string s)
    as [|y1 [|y2 [|y3 [|y4 [|s1 [|m1 [|m2 [|s2 [|d1 [|d2 [|x l]]]]]]]]]]];
    try discriminate.
  destruct (digit_of y1) eqn:E1; [|discriminate].
  destruct (digit_of y2) eqn:E2; [|discriminate].
  destruct (digit_of y3) eqn:E3; [|discriminate].
  destruct (digit_of y4) eqn:E4; [|discriminate].
  destruct (digit_of m1) eqn:E5; [|discriminate].
  destruct (digit_of m2) eqn:E6; [|discriminate].
  destruct (digit_of d1) eqn:E7; [|discriminate].
  destruct (digit_of d2) eqn:E8; [|discriminate].
  rewrite !andb_true_iff. intros [[[[[H1 H2] _] _] _] _].
  apply Ascii.eqb_eq in H1 as ->. apply Ascii.eqb_eq in H2 as ->.
  intros Hin. apply list_elem_of_In in Hin. simpl in Hin.
  destruct Hin as [H|[H|[H|[H|[H|[H|[H|[H|[H|[H|[]]]]]]]]]]]; try discriminate;
    revert H; eapply digit_not_T; eassumption.
Qed.

Lemma iso_round_trip (d : string) :
  ("T"%char ∉ list_ascii_of_string d) →
  iso_or_null (match iso_or_null d with Some x => before_T x | None => EmptyString end)
  = iso_or_null d.
Proof.
  intros Hd. destruct d as [|c d]; [reflexivity|].
  unfold iso_or_null at 2. cbn [truthy_string].
  unfold toISOString. by rewrite before_T_date.
Qed.

(** X17. A task made by the create form (its due date left empty or
    picked), opened in the editing modal and saved as it is: the document
    keeps every field and only gets its [updatedAt]; nothing is added to
    the activity log. *)
Theorem created_task_saved_unchanged (fb : firebase) (projectId newId now later uid : string)
    (f : CreateTaskForm) (st : store) :
  authenticated fb = Some uid → truthy_string projectId = true →
  truthy_string newId = true →
  ct_dueDate f = EmptyString ∨ is_date (ct_dueDate f) = true →
  let st1 := fst (createTask fb projectId f now newId st) in
  ∃ t, tasks st1 !! (projectId, newId) = Some t
       ∧ handleUpdateTask fb projectId newId later (opened t) st1
         = ({| projects := projects st1;
               tasks := <[(projectId, newId) := set_updatedAt later t]> (tasks st1);
               activityLogs := activityLogs st1 |}, Saved).
Proof.
  intros Ha Hp Hid Hdate st1.
  assert (Hd : "T"%char ∉ list_ascii_of_string (ct_dueDate f)).
  { destruct Hdate as [->|Hdate]; [apply not_elem_of_nil | by apply is_date_no_T]. }
  unfold st1, createTask. rewrite Ha, Hp. cbn [fst tasks projects activityLogs].
  eexists. rewrite lookup_insert_eq. split; [reflexivity|].
  unfold handleUpdateTask, opened. rewrite Ha, Hp, Hid.
  cbn [andb onTaskSnapshot modal_task tasks]. rewrite lookup_insert_eq.
  cbn [editName editDescription editAssignee editDueDate editPriority editRole editStatus
       task_name task_description assignee dueDate priority task_role task_status
       task_createdAt createdBy].
  rewrite (iso_round_trip _ Hd).
  rewrite !bool_decide_false.
  - cbn [app]. rewrite app_nil_r. reflexivity.
  - intros [?|[?|[?|[?|?]]]]; congruence.
  - congruence.
  - congruence.
Qed.

(** X18. A task whose stored due date is a plain date (as script.js writes
    it), opened in the editing modal and saved as it is: the due date is
    rewritten as a time stamp and a [Task Details Updated] entry is
    logged. *)
Theorem plain_due_date_is_rewritten (fb : firebase) (projectId taskId later uid d : string)
    (t : task) (st : store) :
  authenticated fb = Some uid → truthy_string projectId = true →
  truthy_string taskId = true →
  tasks st !! (projectId, taskId) = Some t →
  dueDate t = Some d → is_date d = true →
  let result := handleUpdateTask fb projectId taskId later (opened t) st in
  snd result = Saved
  ∧ (∃ t', tasks (fst result) !! (projectId, taskId) = Some t'
           ∧ dueDate t' = Some (toISOString d))
  ∧ (∃ entry, activityLogs (fst result) = activityLogs st ++ [entry]
              ∧ type entry = "Task Details Updated").
Proof.
  intros Ha Hp Hid Hlook Hdue Hdate result.
  pose proof (is_date_no_T d Hdate) as Hd.
  assert (Htd : truthy_string d = true) by (by destruct d).
  unfold result, handleUpdateTask, opened. rewrite Ha, Hp, Hid.
  cbn [andb onTaskSnapshot modal_task]. rewrite Hlook.
  cbn [editName editDescription editAssignee editDueDate editPriority editRole editStatus].
  rewrite Hdue, (before_T_plain _ Hd). unfold iso_or_null. rewrite Htd.
  rewrite (bool_decide_false (task_status t ≠ task_status t)) by congruence.
  rewrite (bool_decide_false (task_role t ≠ task_role t)) by congruence.
  rewrite bool_decide_true.
  - cbn [fst snd tasks activityLogs app]. split; [reflexivity|]. split.
    + eexists. rewrite lookup_insert_eq. split; reflexivity.
    + eexists. split; reflexivity.
  - right. right. right. left. intros [= E]. symmetry in E. revert E.
    by apply append_longer.
Qed.

End UnchangedSave.

Section FullProgress.

Import JS App.

Lemma append_inj_l (s1 s2 t : string) : String.app s1 t = String.app s2 t → s1 = s2.
Proof.
  intros E.
  assert (L : ∀ s, String.length (String.app s t) = (String.length s + String.length t)%nat).
  { induction s as [|c s IH]; [reflexivity|]. cbn [String.length]. 
    change (S (String.length (String.app s t)) = S (String.length s + String.length t)).
    by rewrite IH. }
  assert (Hlen : String.length s1 = String.length s2).
  { apply (f_equal String.length) in E. rewrite !L in E. lia. }
  revert s2 E Hlen. induction s1 as [|c s1 IH]; intros [|c2 s2] E Hlen; try discriminate.
  - reflexivity.
  - change (String c (String.app s1 t) = String c2 (String.app s2 t)) in E.
    injection E as -> E. f_equal. apply IH; [exact E|]. by injection Hlen.
Qed.

Lemma completed_all (ts : list task) :
  Spec.completed ts = length ts ↔ Forall (λ t, task_status t = "Completed") ts.
Proof.
  induction ts as [|t ts IH]; cbn [Spec.completed length].
  - split; [constructor|reflexivity].
  - pose proof (completed_le_length ts). destruct (decide (task_status t = "Completed")) as [E|E].
    + split.
      * intros [= H']. constructor; [exact E | by apply IH].
      * intros [_ H']%Forall_cons. f_equal. by apply IH.
    + split; [lia|]. by intros [? _]%Forall_cons.
Qed.

Lemma completed_none (ts : list task) :
  Spec.completed ts = 0%nat ↔ Forall (λ t, task_status t ≠ "Completed") ts.
Proof.
  induction ts as [|t ts IH]; cbn [Spec.completed].
  - split; [constructor|reflexivity].
  - destruct (decide (task_status t = "Completed")) as [E|E].
    + split; [discriminate|]. by intros [? _]%Forall_cons.
    + rewrite IH. split; [by constructor | by intros [_ ?]%Forall_cons].
Qed.

(** X19. For a project of 1 to 100 tasks, the progress reads [100%] exactly
    when every task is completed, and [0%] exactly when none is. *)
Theorem full_progress_means_all_completed (ts : list task) :
  (0 < length ts ≤ 100)%nat →
  (newProgress ts = "100%" ↔ Forall (λ t, task_status t = "Completed") ts)
  ∧ (newProgress ts = "0%" ↔ Forall (λ t, task_status t ≠ "Completed") ts).
Proof.
  intros Hlen. destruct (progress_nearest_percent ts Hlen) as (n & Hn & Hnear).
  pose proof (completed_le_length ts) as Hle.
  assert (Hval : ∀ k : Z, newProgress ts = String.app (pretty k) "%" ↔ n = k).
  { intros k. rewrite Hn. split; [|by intros ->].
    intros E%append_inj_l. by apply (inj pretty). }
  rewrite <- completed_all, <- completed_none.
  change "100%" with (String.app (pretty 100) "%").
  change "0%" with (String.app (pretty 0) "%").
  rewrite !Hval. split; split.
  - intros ->. lia.
  - intros E. rewrite E in Hnear. nia.
  - intros ->. lia.
  - intros E. rewrite E in Hnear. nia.
Qed.

End FullProgress.

(** * The further properties at sample inputs *)

Section MoreInstances.

Import JS.

Lemma over_budget_alert_witness :
  Script.budgetProgressBar_red (Script.updateBudgetProgress MoreSamples.overBudgetPage) = true
  ∧ (Spec.magnitude (SFsub 53 1024 (Spec.number 150) (Spec.number 100))
     < inject_Z (10 ^ 21))%Q
  ∧ Script.messageBox (Script.updateBudgetProgress MoreSamples.overBudgetPage)
    = Some ("Budget Alert",
            "You are " +:+ "$"
            +:+ Spec.two_decimals
                  (Qfloor (inject_Z 100
                           * Spec.magnitude (SFsub 53 1024 (Spec.number 150) (Spec.number 100))
                           + (1 # 2)))
            +:+ " over budget!").
Proof.
  assert (H : Script.budgetProgressBar_red
                (Script.updateBudgetProgress MoreSamples.overBudgetPage) = true)
    by reflexivity.
  assert (Hb : (Spec.magnitude (SFsub 53 1024 (Spec.number 150) (Spec.number 100))
                < inject_Z (10 ^ 21))%Q) by reflexivity.
  split; [exact H|]. split; [exact Hb|].
  exact (proj1 (proj2 (over_budget_alert MoreSamples.overBudgetPage)) H
           7036874417766400%positive (-47) eq_refl Hb).
Defined.

Lemma saved_categories_round_trip_witness :
  snd (Script.saveBudgetCategories Samples.session
         (Script.set_rows
            (Script.budgetCategoriesContainer
               (Script.renderBudgetCategories
                  [ {| Script.name := "Art"; Script.cat_amount := Spec.number 120 |} ]
                  Samples.emptyBudgetPage))
            Samples.page))
  = Some [ {| Script.name := "Art"; Script.cat_amount := Spec.number 120 |} ].
Proof.
  refine (proj1 (proj2 (proj2 (saved_categories_round_trip Samples.session Samples.page
                                 Samples.emptyBudgetPage))) _).
  intros c Hc. apply list_elem_of_In in Hc. simpl in Hc.
  destruct Hc as [<-|[]]. split; reflexivity.
Defined.

Lemma delete_transaction_refused_witness :
  fst (Transactions.deleteTransaction Samples.session true "x1" Samples.collection)
  = Samples.collection
  ∧ snd (Transactions.deleteTransaction Samples.session true "x1" Samples.collection)
    = Transactions.DeleteFailed.
Proof.
  split.
  - exact (proj1 (delete_transaction_refused Samples.session true "x1" Samples.collection)).
  - exact (proj1 (proj2 (delete_transaction_refused Samples.session true "x1"
                           Samples.collection))).
Defined.

Lemma task_form_submission_witness :
  Script.ready Samples.session = true
  ∧ MoreSamples.taskCollection !! "t1" = Some MoreSamples.taskDoc
  ∧ fst (Tasks.handleTaskFormSubmission Samples.session true (Some "t1")
           MoreSamples.taskForm "now" "t2" MoreSamples.taskCollection) !! "t1"
    = Some {| Tasks.name := "Build lobby";
              Tasks.description := "Spawn area";
              Tasks.status := "In Progress";
              Tasks.priority := "High";
              Tasks.assignee := "Ana";
              Tasks.dueDate := "2025-06-01";
              Tasks.role := Some "Building";
              Tasks.progress := Some "40%";
              Tasks.createdAt := Some "2025-01-01T09:00:00.000Z" |}.
Proof.
  split; [reflexivity|]. split; [reflexivity|].
  refine (proj1 (proj2 (proj1 (proj2 (proj1 (proj2 (proj2 (proj2
            (task_form_submission Samples.session true (Some "t1") MoreSamples.taskForm
               "now" "t2" MoreSamples.taskCollection)))) eq_refl _))
            "t1" MoreSamples.taskDoc eq_refl eq_refl _ eq_refl))).
  - vm_compute. discriminate.
  - discriminate.
Defined.

Lemma invited_member_name_witness :
  Script.ready Samples.session = true
  ∧ MoreSamples.team !! "m2" = None
  ∧ ∃ m, fst (Team.handleInviteTeamMember Samples.session " ana@studio.dev " "Artist"
                "now" "m2" MoreSamples.team) !! "m2" = Some m
         ∧ Team.email m = "ana@studio.dev"
         ∧ ("@"%char ∉ list_ascii_of_string (Team.name m)).
Proof.
  split; [reflexivity|]. split; [reflexivity|].
  assert (Hne : trim " ana@studio.dev " ≠ EmptyString) by (vm_compute; discriminate).
  destruct (proj1 (proj2 (proj2 (invited_member_name Samples.session " ana@studio.dev "
                                   "Artist" "now" "m2" MoreSamples.team)))
              eq_refl Hne eq_refl)
    as (_ & _ & m & Hm & He & _ & Hfree & _).
  exists m. split; [exact Hm|]. split; [exact He | exact Hfree].
Defined.

Lemma listeners_stay_tidy_witness :
  Navigation.tidy MoreSamples.dashboard
  ∧ Navigation.tidy (Navigation.clicks MoreSamples.clicks MoreSamples.dashboard).
Proof.
  assert (H : Navigation.tidy MoreSamples.dashboard).
  { split; [|simpl; lia]. intros l Hl. by apply elem_of_nil in Hl. }
  split; [exact H|].
  exact (listeners_stay_tidy MoreSamples.clicks MoreSamples.dashboard H).
Defined.

Lemma missing_project_stays_current_witness :
  Navigation.authenticated MoreSamples.dashboard = true
  ∧ Navigation.currentProjectId
      (Navigation.selectProject "p9" Navigation.Missing MoreSamples.dashboard) = Some "p9"
  ∧ Navigation.view
      (Navigation.on_click (Navigation.NavButton "tasks")
         (Navigation.selectProject "p9" Navigation.Missing MoreSamples.dashboard))
    = "project-tasks-view".
Proof.
  split; [reflexivity|].
  assert (Hne : "p9" ≠ EmptyString) by discriminate.
  pose proof (proj2 (proj2 (missing_project_stays_current "p9" "tasks" MoreSamples.dashboard
                              eq_refl Hne))) as (_ & Hc & _ & _ & Hv & _).
  split; [exact Hc | exact Hv].
Defined.

Lemma overlapping_selections_leak_witness :
  Navigation.authenticated MoreSamples.dashboard = true
  ∧ length (Navigation.unsubscribeProjectListeners
              (Navigation.overlapping "p1" "p2" MoreSamples.dashboard)) = 4%nat
  ∧ ¬ Navigation.tidy (Navigation.overlapping "p1" "p2" MoreSamples.dashboard).
Proof.
  split; [reflexivity|].
  assert (H1 : "p1" ≠ EmptyString) by discriminate.
  assert (H2 : "p2" ≠ EmptyString) by discriminate.
  assert (H12 : "p1" ≠ "p2") by discriminate.
  pose proof (overlapping_selections_leak "p1" "p2" MoreSamples.dashboard eq_refl H1 H2)
    as (Hl & _ & Hnt).
  split; [by rewrite Hl | exact (Hnt H12)].
Defined.

Lemma board_shows_known_roles_witness :
  concat ((Board.columns MoreSamples.boardTasks).*2)
  ≡ₚ [MoreSamples.card "t1" "UI"; MoreSamples.card "t3" "Scripting"].
Proof.
  exact (proj1 (board_shows_known_roles MoreSamples.boardTasks)).
Defined.

Lemma card_dropped_on_column_witness :
  App.authenticated Samples.fb = Some "u1"
  ∧ App.tasks Samples.store !! ("p1", "t1") = Some (Samples.task "In Progress")
  ∧ App.tasks (fst (Board.updateTaskRole Samples.fb "p1" "t1" "Building" "Jump mechanic"
                      "now" Samples.store)) !! ("p1", "t1")
    = Some (Board.set_role "Building" (Samples.task "In Progress")).
Proof.
  split; [reflexivity|]. split; [reflexivity|].
  assert (Hne : "t1" ≠ EmptyString) by discriminate.
  exact (proj1 (proj2 (proj1 (card_dropped_on_column Samples.fb "p1" "t1" "Building"
                                "Jump mechanic" "now" "u1" Samples.store
                                eq_refl eq_refl Hne)
                         (Samples.task "In Progress") eq_refl))).
Defined.

Lemma categories_form_validated_witness :
  Categories.handleSubmit MoreSamples.toLowerCase [Samples.art; Samples.code]
  = Categories.Accepted
  ∧ NoDup (App.cat_name <$> [Samples.art; Samples.code]).
Proof.
  assert (H : Categories.handleSubmit MoreSamples.toLowerCase [Samples.art; Samples.code]
              = Categories.Accepted) by reflexivity.
  split; [exact H|].
  exact (proj1 (proj2 (categories_form_validated MoreSamples.toLowerCase
                         [Samples.art; Samples.code])) H).
Defined.


Lemma team_user_ids_distinct_witness :
  App.projects Samples.store !! "p1" = Some Samples.project
  ∧ TeamManagement.handleAddMember Samples.fb "p1" (App.teamMembers Samples.project)
      MoreSamples.owner_as_admin "now" Samples.store
    = (Samples.store, TeamManagement.AlreadyMember)
  ∧ snd (TeamManagement.handleAddMember Samples.fb "p1" (App.teamMembers Samples.project)
           MoreSamples.newcomer "now" Samples.store)
    = TeamManagement.MemberAdded.
Proof.
  split; [reflexivity|]. split.
  - refine (proj1 (team_user_ids_distinct Samples.fb "p1" "now" "u1"
                     MoreSamples.owner_as_admin Samples.store Samples.project
                     eq_refl eq_refl eq_refl) _).
    simpl. apply list_elem_of_here.
  - refine (proj1 (proj1 (proj2 (team_user_ids_distinct Samples.fb "p1" "now" "u1"
                     MoreSamples.newcomer Samples.store Samples.project
                     eq_refl eq_refl eq_refl)) _)).
    simpl. intros H. apply list_elem_of_In in H. simpl in H.
    destruct H as [H|[]]. discriminate.
Defined.

Lemma created_task_saved_unchanged_witness :
  App.authenticated Samples.fb = Some "u1"
  ∧ TaskDetail.is_date (App.ct_dueDate Samples.taskForm) = true
  ∧ ∃ t, App.tasks (fst (App.createTask Samples.fb "p1" Samples.taskForm "now" "t2"
                           Samples.store)) !! ("p1", "t2") = Some t
         ∧ snd (App.handleUpdateTask Samples.fb "p1" "t2" "later" (TaskDetail.opened t)
                  (fst (App.createTask Samples.fb "p1" Samples.taskForm "now" "t2"
                          Samples.store)))
           = App.Saved.
Proof.
  split; [reflexivity|].
  split; [reflexivity|].
  destruct (created_task_saved_unchanged Samples.fb "p1" "t2" "now" "later" "u1"
              Samples.taskForm Samples.store eq_refl eq_refl eq_refl
              (or_intror eq_refl))
    as (t & Ht & Hsave).
  exists t. split; [exact Ht|]. by rewrite Hsave.
Defined.

Lemma plain_due_date_is_rewritten_witness :
  App.tasks MoreSamples.plainStore !! ("p1", "t1") = Some MoreSamples.plainTask
  ∧ App.dueDate MoreSamples.plainTask = Some "2025-06-01"
  ∧ TaskDetail.is_date "2025-06-01" = true
  ∧ ∃ t', App.tasks (fst (App.handleUpdateTask Samples.fb "p1" "t1" "later"
                            (TaskDetail.opened MoreSamples.plainTask)
                            MoreSamples.plainStore)) !! ("p1", "t1") = Some t'
          ∧ App.dueDate t' = Some "2025-06-01T00:00:00.000Z".
Proof.
  split; [reflexivity|]. split; [reflexivity|]. split; [reflexivity|].
  exact (proj1 (proj2 (plain_due_date_is_rewritten Samples.fb "p1" "t1" "later" "u1"
                         "2025-06-01" MoreSamples.plainTask MoreSamples.plainStore
                         eq_refl eq_refl eq_refl eq_refl eq_refl eq_refl))).
Defined.

Lemma full_progress_means_all_completed_witness :
  (0 < length [Samples.task "Completed"; Samples.task "Completed"] ≤ 100)%nat
  ∧ App.newProgress [Samples.task "Completed"; Samples.task "Completed"] = "100%".
Proof.
  assert (Hlen : (0 < length [Samples.task "Completed"; Samples.task "Completed"]
                  ≤ 100)%nat) by (simpl; lia).
  split; [exact Hlen|].
  apply (proj1 (full_progress_means_all_completed _ Hlen)).
  repeat constructor.
Defined.

Example progress_full_with_a_task_open :
  App.newProgress (repeat (Samples.task "Completed") 200 ++ [Samples.task "To Do"]) = "100%".
Proof. vm_compute. reflexivity. Qed.

Example categories_differing_in_case_rejected :
  Categories.handleSubmit MoreSamples.toLowerCase
    [Samples.art; {| App.cat_name := "ART"; App.allocatedAmount := zero |}]
  = Categories.DuplicateName.
Proof. vm_compute. reflexivity. Qed.

Example sample_cards :
  (λ c, (App.card_name c, App.card_percentage c, App.card_spent c))
  <$> App.categoryCards Samples.overview
  = [ ("Art", "60.0", App.Num (Spec.number 45));
      ("Code", "40.0", App.Num (Spec.number 20)) ].
Proof. vm_compute. reflexivity. Qed.

Example unknown_role_on_no_column :
  (Board.columns MoreSamples.boardTasks).*2
  = [ [MoreSamples.card "t3" "Scripting"]; []; []; [MoreSamples.card "t1" "UI"]; []; [] ].
Proof. vm_compute. reflexivity. Qed.

End MoreInstances.
